(** * Hospital_Management_V3: the availability slot generator and the
      [get_doctor_slots] endpoint of [app.py]

    A shallow embedding of [generate_time_slots] (app.py, lines 70-97) and of
    the view function [get_doctor_slots] (app.py, lines 515-558), with the
    parts of Python's [datetime] module and of the SQLite tables they use. *)

From Stdlib Require Import ZArith String Ascii List Bool Lia.
From Stdlib Require Import DecimalString.
Import ListNotations.

Local Open Scope string_scope.
Local Open Scope list_scope.
Local Open Scope Z_scope.

(** ** Exceptions and results

    The exceptions that the modelled code can raise, and the outcome of a
    Python expression: a value or a raised exception. *)

Inductive exn : Type :=
| ValueError      (* datetime.strptime on a string that does not match *)
| OverflowError   (* datetime + timedelta outside datetime.min .. datetime.max;
                     a Python int that sqlite3 cannot bind *)
| KeyError        (* session[k] on a missing key *)
| DatabaseError.  (* sqlite3.Error *)

Inductive result (A : Type) : Type :=
| Ok (a : A)
| Raise (e : exn).

Arguments Ok {A} a.
Arguments Raise {A} e.

Definition bind {A B : Type} (r : result A) (k : A -> result B) : result B :=
  match r with
  | Ok a => k a
  | Raise e => Raise e
  end.

(** ** The part of Python's [datetime] that the code uses *)

Module Datetime.

(** A [datetime] with zero seconds is the number of minutes since
    1900-01-01 00:00, the date that [strptime] gives to a time of day. *)
Definition datetime := Z.

(** [date(1900,1,1).toordinal() = 693596]; [datetime.min] is ordinal 1 at
    00:00 and [datetime.max] lies in the last minute of ordinal 3652059. *)
Definition dt_min : datetime := - (693595 * 1440).
Definition dt_max : datetime := 2958463 * 1440 + 1439.

(** [t + timedelta(minutes=i)]: OverflowError when the sum leaves the
    representable years 1..9999 (a [timedelta] too large to build is, for an
    integer [i], also out of that range). *)
Definition add_minutes (t : datetime) (i : Z) : result datetime :=
  if (dt_min <=? t + i) && (t + i <=? dt_max) then Ok (t + i)
  else Raise OverflowError.

Definition digit_of (c : ascii) : option Z :=
  let n := Z.of_N (N_of_ascii c) in
  if (48 <=? n) && (n <=? 57) then Some (n - 48) else None.

Definition digit_char (n : Z) : ascii := ascii_of_N (Z.to_N (48 + n)).

Definition two_digits (n : Z) : string :=
  String (digit_char (n / 10)) (String (digit_char (n mod 10)) EmptyString).

(** [%H] is the regular expression [2[0-3]|[0-1]\d|\d] and [%M] is
    [[0-5]\d|\d]; the whole string has to be consumed. *)
Definition hour_of (ds : list ascii) : option Z :=
  match map digit_of ds with
  | [Some h] => Some h
  | [Some h1; Some h2] => if 10 * h1 + h2 <=? 23 then Some (10 * h1 + h2) else None
  | _ => None
  end.

Definition minute_of (ds : list ascii) : option Z :=
  match map digit_of ds with
  | [Some m] => Some m
  | [Some m1; Some m2] => if m1 <=? 5 then Some (10 * m1 + m2) else None
  | _ => None
  end.

Fixpoint split_at (sep : ascii) (l : list ascii) : list ascii * option (list ascii) :=
  match l with
  | [] => ([], None)
  | c :: l' =>
      if Ascii.eqb c sep then ([], Some l')
      else let (a, b) := split_at sep l' in (c :: a, b)
  end.

(** [datetime.strptime(s, '%H:%M')], on ASCII strings. *)
Definition strptime_HM (s : string) : result datetime :=
  match split_at ":" (list_ascii_of_string s) with
  | (hs, Some ms) =>
      match hour_of hs, minute_of ms with
      | Some h, Some m => Ok (60 * h + m)
      | _, _ => Raise ValueError
      end
  | (_, None) => Raise ValueError
  end.

Definition minute_of_day (t : datetime) : Z := t mod 1440.

(** [t.strftime('%H:%M')] *)
Definition strftime_HM (t : datetime) : string :=
  let m := minute_of_day t in
  let hh := m / 60 in
  let mm := m mod 60 in
  (two_digits hh ++ ":" ++ two_digits mm)%string.

(** [t.strftime('%I:%M %p').lower()] in the C locale *)
Definition strftime_IMp_lower (t : datetime) : string :=
  let m := minute_of_day t in
  let h := m / 60 in
  let h12 := if h mod 12 =? 0 then 12 else h mod 12 in
  let mm := m mod 60 in
  let ampm := if h <? 12 then "am" else "pm" in
  (two_digits h12 ++ ":" ++ two_digits mm ++ " " ++ ampm)%string.

(** *** Calendar dates: [strptime(s, '%Y-%m-%d')] and [strftime('%A')] *)

Definition is_leap (y : Z) : bool :=
  (y mod 4 =? 0) && (negb (y mod 100 =? 0) || (y mod 400 =? 0)).

Definition days_in_month (y m : Z) : Z :=
  if m =? 2 then (if is_leap y then 29 else 28)
  else if (m =? 4) || (m =? 6) || (m =? 9) || (m =? 11) then 30
  else 31.

Fixpoint days_before_month_aux (y : Z) (n : nat) : Z :=
  match n with
  | O => 0
  | S n' => days_before_month_aux y n' + days_in_month y (Z.of_nat n)
  end.

Definition days_before_month (y m : Z) : Z :=
  days_before_month_aux y (Z.to_nat (m - 1)).

Definition toordinal (y m d : Z) : Z :=
  let y1 := y - 1 in
  y1 * 365 + y1 / 4 - y1 / 100 + y1 / 400 + days_before_month y m + d.

(** [%Y] is [\d\d\d\d]. *)
Definition year_of (ds : list ascii) : option Z :=
  match map digit_of ds with
  | [Some a; Some b; Some c; Some d] => Some (1000 * a + 100 * b + 10 * c + d)
  | _ => None
  end.

(** [%m] is [1[0-2]|0[1-9]|[1-9]]. *)
Definition month_of (ds : list ascii) : option Z :=
  match map digit_of ds with
  | [Some m] => if 1 <=? m then Some m else None
  | [Some m1; Some m2] =>
      let m := 10 * m1 + m2 in
      if (1 <=? m) && (m <=? 12) then Some m else None
  | _ => None
  end.

(** [%d] is [3[0-1]|[1-2]\d|0[1-9]|[1-9]| [1-9]]. *)
Definition day_of (ds : list ascii) : option Z :=
  match ds with
  | [c] =>
      match digit_of c with
      | Some d => if 1 <=? d then Some d else None
      | None => None
      end
  | [c1; c2] =>
      match digit_of c2 with
      | Some d2 =>
          if Ascii.eqb c1 " " then (if 1 <=? d2 then Some d2 else None)
          else
            match digit_of c1 with
            | Some d1 =>
                let d := 10 * d1 + d2 in
                if (1 <=? d) && (d <=? 31) then Some d else None
            | None => None
            end
      | None => None
      end
  | _ => None
  end.

Definition weekday_name (w : Z) : string :=
  if w =? 0 then "Monday" else if w =? 1 then "Tuesday"
  else if w =? 2 then "Wednesday" else if w =? 3 then "Thursday"
  else if w =? 4 then "Friday" else if w =? 5 then "Saturday"
  else "Sunday".

(** [datetime.strptime(s, '%Y-%m-%d').strftime('%A')]: the weekday name of
    a well-formed calendar date, ValueError otherwise (no match, year 0, or
    a day that the month does not have). *)
Definition strptime_Ymd_weekday (s : string) : result string :=
  match split_at "-" (list_ascii_of_string s) with
  | (ys, Some rest) =>
      match split_at "-" rest with
      | (ms, Some ds) =>
          match year_of ys, month_of ms, day_of ds with
          | Some y, Some m, Some d =>
              if (1 <=? y) && (d <=? days_in_month y m)
              then Ok (weekday_name ((toordinal y m d + 6) mod 7))
              else Raise ValueError
          | _, _, _ => Raise ValueError
          end
      | (_, None) => Raise ValueError
      end
  | (_, None) => Raise ValueError
  end.

End Datetime.

Import Datetime.

(** ** [generate_time_slots] *)

(** One entry of the list that [generate_time_slots] returns: the dict with
    the keys 'start', 'end', 'display_start' and 'display_end'. *)
Record slot : Type := Slot {
  start : string;
  end_ : string;
  display_start : string;
  display_end : string
}.

(** The dict appended for the candidate slot [current_time, slot_end]. *)
Definition make_slot (current_time slot_end : datetime) : slot :=
  {| start := strftime_HM current_time;
     end_ := strftime_HM slot_end;
     display_start := strftime_IMp_lower current_time;
     display_end := strftime_IMp_lower slot_end |}.

(** Python truth value of an optional string: [None] and [''] are false. *)
Definition truthy (s : option string) : bool :=
  match s with
  | Some s' => negb (String.eqb s' "")
  | None => false
  end.

(** What one pass through the body of the [while] loop does. *)
Inductive step : Type :=
| Continue (current_time : datetime) (slots : list slot)
| Return (slots : list slot)
| Raised (e : exn).

Section Loop.

Variable end_time : datetime.
Variables break_start break_end : option string.
Variable interval : Z.

(** Lines 78-83: is the candidate slot skipped, and where to? *)
Definition break_skip (current_time slot_end : datetime) : result (option datetime) :=
  match break_start, break_end with
  | Some bs, Some be =>
      if truthy break_start && truthy break_end then
        bind (strptime_HM bs) (fun break_start_time =>
        bind (strptime_HM be) (fun break_end_time =>
          if (break_start_time <=? current_time) && (slot_end <=? break_end_time)
          then Ok (Some break_end_time)
          else Ok None))
      else Ok None
  | _, _ => Ok None
  end.

(** Lines 75-95: the loop test and one execution of the loop body. *)
Definition loop_body (current_time : datetime) (slots : list slot) : step :=
  if current_time <? end_time then
    match add_minutes current_time interval with
    | Raise e => Raised e
    | Ok slot_end =>
        match break_skip current_time slot_end with
        | Raise e => Raised e
        | Ok (Some break_end_time) => Continue break_end_time slots
        | Ok None =>
            if slot_end <=? end_time
            then Continue slot_end (slots ++ [make_slot current_time slot_end])
            else Continue slot_end slots
        end
    end
  else Return slots.

(** The [while] loop, run for at most [fuel] evaluations of its test;
    [None] when that is not enough. *)
Fixpoint while (fuel : nat) (current_time : datetime) (slots : list slot)
  : option (result (list slot)) :=
  match fuel with
  | O => None
  | S fuel' =>
      match loop_body current_time slots with
      | Continue current_time' slots' => while fuel' current_time' slots'
      | Return slots' => Some (Ok slots')
      | Raised e => Some (Raise e)
      end
  end.

End Loop.

(** [generate_time_slots(start_time, end_time, break_start, break_end, interval)] *)
Definition generate_time_slots (fuel : nat) (start_time end_time : string)
    (break_start break_end : option string) (interval : Z)
  : option (result (list slot)) :=
  match strptime_HM start_time with
  | Raise e => Some (Raise e)
  | Ok current_time =>
      match strptime_HM end_time with
      | Raise e => Some (Raise e)
      | Ok end_time' => while end_time' break_start break_end interval fuel current_time []
      end
  end.

(** ** The tables and the session that [get_doctor_slots] reads *)

(** A row of [doctor_slots] (database.py, lines 124-136); [break_start] and
    [break_end] are the two columns that may hold NULL. *)
Module DoctorSlots.
Record row : Type := Row {
  doctor_id : Z;
  day_of_week : string;
  start_time : string;
  end_time : string;
  break_start : option string;
  break_end : option string;
  hospital_id : Z
}.
End DoctorSlots.

(** A row of [appointments] (database.py, lines 97-110); [status] has a
    default but no NOT NULL constraint. *)
Module Appointments.
Record row : Type := Row {
  doctor_id : Z;
  date : string;
  time_slot : string;
  status : option string;
  hospital_id : Z
}.
End Appointments.

(** A table as a query sees it: its rows in rowid order, or a table on which
    [conn.execute] raises [sqlite3.Error]. *)
Inductive table (A : Type) : Type :=
| Rows (rows : list A)
| Failing.

Arguments Rows {A} rows.
Arguments Failing {A}.

Record connection : Type := Connection {
  doctor_slots : table DoctorSlots.row;
  appointments : table Appointments.row
}.

(** SQLite holds an integer in 64 bits with a sign. *)
Definition sqlite_int (n : Z) : bool :=
  (-9223372036854775808 <=? n) && (n <=? 9223372036854775807).

(** The integers among the parameters of a statement are bound to its
    question marks: sqlite3 raises OverflowError ('Python int too large to
    convert to SQLite INTEGER') when one of them is not a [sqlite_int]. *)
Definition binds (params : list Z) : bool := forallb sqlite_int params.

(** [conn.execute('SELECT ... WHERE p', params).fetchall()], with the
    integers of [params]. The statement is prepared before its parameters
    are bound, so a table that cannot be read raises first. *)
Definition select {A : Type} (t : table A) (params : list Z) (p : A -> bool)
  : result (list A) :=
  match t with
  | Rows rows => if binds params then Ok (filter p rows) else Raise OverflowError
  | Failing => Raise DatabaseError
  end.

(** The keys of Flask's [session] dict that the view reads. *)
Record session : Type := Session {
  user_id : option Z;
  user_type : option string;
  hospital_id : option Z
}.

(** [session[k]]: KeyError when the key is missing. *)
Definition getitem {A : Type} (v : option A) : result A :=
  match v with
  | Some a => Ok a
  | None => Raise KeyError
  end.

(** SQL's [status != 'Cancelled']: not true on NULL. *)
Definition not_cancelled (st : option string) : bool :=
  match st with
  | Some s => negb (String.eqb s "Cancelled")
  | None => false
  end.

(** The JSON body and the status code that the view returns. *)
Inductive body : Type :=
| Error (error : string)
| SlotList (slots : list slot) (booked_slots : list string).

Record response : Type := Response {
  json : body;
  status_code : Z
}.

(** ** [get_doctor_slots] *)

Section GetDoctorSlots.

Variable fuel : nat.
Variable sess : session.
Variable doctor_id : Z.
Variable date : string.

(** Lines 528-531: the WHERE clause of the [doctor_slots] query. *)
Definition slot_info_where (day : string) (hospital : Z) (r : DoctorSlots.row) : bool :=
  (DoctorSlots.doctor_id r =? doctor_id)
  && String.eqb (DoctorSlots.day_of_week r) day
  && (DoctorSlots.hospital_id r =? hospital).

(** Lines 543-546: the WHERE clause of the [appointments] query. *)
Definition booked_where (hospital : Z) (a : Appointments.row) : bool :=
  (Appointments.doctor_id a =? doctor_id)
  && String.eqb (Appointments.date a) date
  && not_cancelled (Appointments.status a)
  && (Appointments.hospital_id a =? hospital).

(** Lines 536-553: the slots of the window found and the booked ones. *)
Definition slots_response (conn : connection) (hospital : Z)
    (slot_info : DoctorSlots.row) : option (result response) :=
  match generate_time_slots fuel
          (DoctorSlots.start_time slot_info) (DoctorSlots.end_time slot_info)
          (DoctorSlots.break_start slot_info) (DoctorSlots.break_end slot_info) 15
  with
  | None => None
  | Some (Raise e) => Some (Raise e)
  | Some (Ok slots) =>
      Some (bind (select (appointments conn) [doctor_id; hospital]
                    (booked_where hospital))
              (fun booked_slots =>
                 Ok {| json := SlotList slots (map Appointments.time_slot booked_slots);
                       status_code := 200 |}))
  end.

(** Lines 528-553: the body of the [try] statement. *)
Definition try_body (conn : connection) (day : string) : option (result response) :=
  match getitem (hospital_id sess) with
  | Raise e => Some (Raise e)
  | Ok hospital =>
      match select (doctor_slots conn) [doctor_id; hospital]
              (slot_info_where day hospital) with
      | Raise e => Some (Raise e)
      | Ok [] =>
          Some (Ok {| json := Error "Doctor not available on this day";
                      status_code := 200 |})
      | Ok (slot_info :: _) => slots_response conn hospital slot_info
      end
  end.

(** Lines 554-556: [except Exception] turns whatever the body raised into
    the 500 response. *)
Definition except_exception (r : option (result response)) : option (result response) :=
  match r with
  | Some (Raise _) => Some (Ok {| json := Error "Server error"; status_code := 500 |})
  | _ => r
  end.

(** The view function. [get_db_connection] is the outcome of the call on
    line 526, which stands before the [try]; [None] is a run that [fuel]
    does not cover, and [Some (Raise e)] an exception that leaves the view. *)
Definition get_doctor_slots (get_db_connection : result connection)
  : option (result response) :=
  match user_id sess with
  | None => Some (Ok {| json := Error "Unauthorized"; status_code := 401 |})
  | Some _ =>
      match getitem (user_type sess) with
      | Raise e => Some (Raise e)
      | Ok ut =>
          if negb (String.eqb ut "admin")
          then Some (Ok {| json := Error "Unauthorized"; status_code := 401 |})
          else
            match strptime_Ymd_weekday date with
            | Raise _ =>
                Some (Ok {| json := Error "Invalid date format"; status_code := 400 |})
            | Ok day =>
                match get_db_connection with
                | Raise e => Some (Raise e)
                | Ok conn => except_exception (try_body conn day)
                end
            end
      end
  end.

End GetDoctorSlots.

(** * Notions used in the properties *)

(** ** The break pair as the loop reads it *)

(** The two break times that lines 78-80 obtain: none when one of the strings
    is [None] or empty, ValueError when a non-empty one does not parse. *)
Definition break_times (break_start break_end : option string)
  : result (option (datetime * datetime)) :=
  match break_start, break_end with
  | Some bs, Some be =>
      if truthy break_start && truthy break_end then
        bind (strptime_HM bs) (fun t1 =>
        bind (strptime_HM be) (fun t2 => Ok (Some (t1, t2))))
      else Ok None
  | _, _ => Ok None
  end.

(** Whether the skip rule of line 81 fires at the cursor [c]. *)
Definition skips (w : option (datetime * datetime)) (interval c : Z) : bool :=
  match w with
  | Some (t1, t2) => (t1 <=? c) && (c + interval <=? t2)
  | None => false
  end.

(** ** Slots on a grid *)

(** The slots [c, c+d), [c+d, c+2d), ... : [k] of them. *)
Definition tiles (c d : Z) (k : nat) : list slot :=
  map (fun i => make_slot (c + Z.of_nat i * d) (c + (Z.of_nat i + 1) * d)) (seq 0 k).

(** ** Outcomes of [generate_time_slots] *)

Section OutcomeDefinitions.

Variables start_time end_time : string.
Variables break_start break_end : option string.
Variable interval : Z.

(** The call returns the list [slots]. *)
Definition returns (slots : list slot) : Prop :=
  exists fuel,
    generate_time_slots fuel start_time end_time break_start break_end interval
    = Some (Ok slots).

(** The call raises [e]. *)
Definition raises (e : exn) : Prop :=
  exists fuel,
    generate_time_slots fuel start_time end_time break_start break_end interval
    = Some (Raise e).

(** The call neither returns nor raises: its loop runs forever. *)
Definition diverges : Prop :=
  forall fuel,
    generate_time_slots fuel start_time end_time break_start break_end interval = None.

End OutcomeDefinitions.

(** ** Times of day read back *)

(** ['%H:%M'] printed and parsed again gives the [n]-th minute of the day. *)
Definition reads_back (n : nat) : bool :=
  match strptime_HM (strftime_HM (Z.of_nat n)) with
  | Ok t => t =? Z.of_nat n
  | Raise _ => false
  end.

(** A slot whose start is a time of day outside of [bs, be). *)
Definition outside_break (bs be : datetime) (sl : slot) : Prop :=
  exists t, start sl = strftime_HM t /\ 0 <= t < 1440 /\ ~ (bs <= t < be).

(** ** Sessions, appointments and failures *)

(** The session of a logged-in administrator. *)
Definition authenticated (sess : session) : Prop :=
  (exists uid, user_id sess = Some uid) /\ user_type sess = Some "admin".




(** The rows of one hospital. *)
Definition slots_of_hospital (hospital : Z) (rows : list DoctorSlots.row)
  : list DoctorSlots.row :=
  filter (fun r => DoctorSlots.hospital_id r =? hospital) rows.

Definition appointments_of_hospital (hospital : Z) (rows : list Appointments.row)
  : list Appointments.row :=
  filter (fun a => Appointments.hospital_id a =? hospital) rows.

(** ** A small database for the examples *)

Definition monday_window : DoctorSlots.row :=
  {| DoctorSlots.doctor_id := 7; DoctorSlots.day_of_week := "Monday";
     DoctorSlots.start_time := "09:00"; DoctorSlots.end_time := "10:00";
     DoctorSlots.break_start := None; DoctorSlots.break_end := None;
     DoctorSlots.hospital_id := 1 |}.

Definition other_hospital_window : DoctorSlots.row :=
  {| DoctorSlots.doctor_id := 7; DoctorSlots.day_of_week := "Monday";
     DoctorSlots.start_time := "14:00"; DoctorSlots.end_time := "16:00";
     DoctorSlots.break_start := Some "15:00"; DoctorSlots.break_end := Some "15:30";
     DoctorSlots.hospital_id := 2 |}.

Definition broken_window : DoctorSlots.row :=
  {| DoctorSlots.doctor_id := 8; DoctorSlots.day_of_week := "Monday";
     DoctorSlots.start_time := "9am"; DoctorSlots.end_time := "10:00";
     DoctorSlots.break_start := None; DoctorSlots.break_end := None;
     DoctorSlots.hospital_id := 1 |}.

Definition appointment (doctor : Z) (slot_start : string) (st : option string)
    (hospital : Z) : Appointments.row :=
  {| Appointments.doctor_id := doctor; Appointments.date := "2024-01-01";
     Appointments.time_slot := slot_start; Appointments.status := st;
     Appointments.hospital_id := hospital |}.

Definition example_appointments : list Appointments.row :=
  [ appointment 7 "09:30" (Some "Scheduled") 1;
    appointment 7 "09:45" (Some "Cancelled") 1;
    appointment 7 "09:00" (Some "Completed") 2 ].

Definition example_connection : connection :=
  {| doctor_slots := Rows [other_hospital_window; monday_window; broken_window];
     appointments := Rows example_appointments |}.

Definition admin_session : session :=
  {| user_id := Some 1; user_type := Some "admin"; hospital_id := Some 1 |}.


(** * More of [generate_time_slots]: notions *)

(** The slots of length [d] that start at the cursors [cs]. *)
Definition slots_at (d : Z) (cs : list Z) : list slot :=
  map (fun c => make_slot c (c + d)) cs.

(** Each cursor of [cs] lies at least [d] after the one before it. *)
Fixpoint spaced (d : Z) (cs : list Z) : Prop :=
  match cs with
  | c1 :: (c2 :: _) as rest => c1 + d <= c2 /\ spaced d rest
  | _ => True
  end.

(** What the loop maintains for any break strings: the slots emitted so far
    start at cursors inside the window, spaced by the interval, all of them
    ended by the current cursor, and none of them inside the break. *)
Definition emitted_so_far (s e d : Z) (w : result (option (datetime * datetime)))
    (c : datetime) (acc : list slot) : Prop :=
  s <= c
  /\ exists cs,
       acc = slots_at d cs
       /\ Forall (fun x => s <= x /\ x + d <= e /\ x + d <= c) cs
       /\ spaced d cs
       /\ forall bs be, w = Ok (Some (bs, be)) ->
            Forall (fun x => ~ (bs <= x /\ x + d <= be)) cs.

(** When the call raises ValueError: a window string that does not parse,
    or a non-empty break pair that does not parse and is reached, that is,
    the window is not empty and the first addition does not overflow. *)
Definition value_error_condition (start_time end_time : string)
    (break_start break_end : option string) (interval : Z) : Prop :=
  strptime_HM start_time = Raise ValueError
  \/ (exists s, strptime_HM start_time = Ok s /\ strptime_HM end_time = Raise ValueError)
  \/ (exists s e,
        strptime_HM start_time = Ok s /\ strptime_HM end_time = Ok e
        /\ s < e /\ s + interval <= dt_max
        /\ break_times break_start break_end = Raise ValueError).

(** When the call raises OverflowError: the window is not empty and the
    first addition leaves the range of datetime. *)
Definition overflow_condition (start_time end_time : string) (interval : Z) : Prop :=
  exists s e,
    strptime_HM start_time = Ok s /\ strptime_HM end_time = Ok e
    /\ s < e /\ dt_max < s + interval.

(** * The string methods that the rest of the code uses *)

(** A Python [str] is read here as a Rocq string whose characters are the
    code points below 256. *)
Module Str.

Definition code (c : ascii) : Z := Z.of_N (N_of_ascii c).

(** [c.isspace()]: the characters that [strip()] removes. *)
Definition is_space (c : ascii) : bool :=
  let n := code c in
  ((9 <=? n) && (n <=? 13)) || ((28 <=? n) && (n <=? 32)) || (n =? 133) || (n =? 160).

(** [s.lstrip()] *)
Fixpoint lstrip (s : string) : string :=
  match s with
  | String c s' => if is_space c then lstrip s' else s
  | EmptyString => EmptyString
  end.

(** [s.rstrip()] *)
Fixpoint rstrip (s : string) : string :=
  match s with
  | String c s' =>
      match rstrip s' with
      | EmptyString => if is_space c then EmptyString else String c EmptyString
      | r => String c r
      end
  | EmptyString => EmptyString
  end.

(** [s.strip()] *)
Definition strip (s : string) : string := rstrip (lstrip s).

(** [c.lower()]: A-Z, and the capital letters of Latin-1 (not the
    multiplication sign). *)
Definition lower_char (c : ascii) : ascii :=
  let n := code c in
  if ((65 <=? n) && (n <=? 90)) || ((192 <=? n) && (n <=? 222) && negb (n =? 215))
  then ascii_of_N (Z.to_N (n + 32))
  else c.

(** [s.lower()] *)
Fixpoint lower (s : string) : string :=
  match s with
  | String c s' => String (lower_char c) (lower s')
  | EmptyString => EmptyString
  end.

(** [c in s], for a character [c] *)
Fixpoint contains (c : ascii) (s : string) : bool :=
  match s with
  | String c' s' => Ascii.eqb c' c || contains c s'
  | EmptyString => false
  end.

(** [s.count(c)], for a character [c] *)
Fixpoint count (c : ascii) (s : string) : nat :=
  match s with
  | String c' s' => if Ascii.eqb c' c then S (count c s') else count c s'
  | EmptyString => O
  end.

(** [s.split(sep)], for a character [sep] *)
Fixpoint split (sep : ascii) (s : string) : list string :=
  match s with
  | EmptyString => [EmptyString]
  | String c s' =>
      if Ascii.eqb c sep then EmptyString :: split sep s'
      else
        match split sep s' with
        | p :: ps => String c p :: ps
        | [] => [String c EmptyString]
        end
  end.

(** [s.rsplit(sep, 1)], for a character [sep] *)
Fixpoint rsplit1 (sep : ascii) (s : string) : list string :=
  match s with
  | EmptyString => [EmptyString]
  | String c s' =>
      match rsplit1 sep s' with
      | [a; b] => [String c a; b]
      | _ => if Ascii.eqb c sep then [EmptyString; s'] else [String c s']
      end
  end.

(** [sep.join(l)] *)
Fixpoint join (sep : string) (l : list string) : string :=
  match l with
  | [] => EmptyString
  | [x] => x
  | x :: rest => (x ++ sep ++ join sep rest)%string
  end.

(** [str(i)], for an integer [i] *)
Definition str (i : Z) : string := NilZero.string_of_int (Z.to_int i).

(** The line feed and the vertical bar. *)
Definition LF : ascii := ascii_of_nat 10.
Definition BAR : ascii := "|"%char.

End Str.

(** * [allowed_file] *)

(** [app.config['ALLOWED_EXTENSIONS']] (line 23) *)
Definition ALLOWED_EXTENSIONS : list string := ["png"; "jpg"; "jpeg"].

(** [allowed_file(filename)] (lines 58-59); [None] stands for the IndexError
    of [rsplit('.', 1)[1]] on a list of one element. *)
Definition allowed_file (filename : string) : option bool :=
  if Str.contains "." filename then
    match nth_error (Str.rsplit1 "." filename) 1 with
    | Some ext => Some (existsb (String.eqb (Str.lower ext)) ALLOWED_EXTENSIONS)
    | None => None
    end
  else Some false.

(** * The medicine lines of a prescription *)

(** [request.form] as [get] sees it: the first value of a key, if any. *)
Definition form : Type := string -> option string.

(** [request.form.get(key, default)] *)
Definition form_get (f : form) (key default : string) : string :=
  match f key with
  | Some v => v
  | None => default
  end.

Module Medicine.

(** The dict that the views build from a stored line (lines 914-922,
    982-990 and 1090-1098). *)
Record t : Type := Make {
  name : string;
  dosage : string;
  frequency : string;
  morning : string;
  afternoon : string;
  evening : string;
  meal : string
}.

(** The field of the [i]-th medicine of the form, as the f-string names it. *)
Definition key (field : string) (i : Z) : string :=
  ("medicine_" ++ field ++ "_" ++ Str.str i)%string.

(** ['1' if request.form.get(key) else '0'] *)
Definition flag (f : form) (k : string) : string :=
  if truthy (f k) then "1" else "0".

(** Lines 852-860: what the form says about the [i]-th medicine. *)
Definition entry (f : form) (i : Z) : t :=
  {| name := Str.strip (form_get f (key "name" i) "");
     dosage := Str.strip (form_get f (key "dosage" i) "");
     frequency := Str.strip (form_get f (key "frequency" i) "");
     morning := flag f (key "morning" i);
     afternoon := flag f (key "afternoon" i);
     evening := flag f (key "evening" i);
     meal := form_get f (key "meal" i) "after" |}.

(** Line 856: [if name and dosage and frequency] *)
Definition complete (m : t) : bool :=
  truthy (Some (name m)) && truthy (Some (dosage m)) && truthy (Some (frequency m)).

(** Line 862: the f-string that is stored for a medicine. *)
Definition line (m : t) : string :=
  let bar := String Str.BAR EmptyString in
  (name m ++ bar ++ dosage m ++ bar ++ frequency m ++ bar ++ morning m ++ bar
   ++ afternoon m ++ bar ++ evening m ++ bar ++ meal m)%string.

(** [range(1, medicine_count + 1)] *)
Definition indices (medicine_count : Z) : list Z :=
  map Z.of_nat (seq 1 (Z.to_nat medicine_count)).

(** Lines 847-866: the [medicines] list and the string stored for it. *)
Definition medicines (f : form) (medicine_count : Z) : list string :=
  flat_map (fun i => if complete (entry f i) then [line (entry f i)] else [])
           (indices medicine_count).

Definition medicines_str (f : form) (medicine_count : Z) : string :=
  match medicines f medicine_count with
  | [] => EmptyString
  | l => Str.join (String Str.LF EmptyString) l
  end.

(** Lines 912-922: one stored line as the views read it. *)
Definition parse_line (medicine : string) : list t :=
  if truthy (Some (Str.strip medicine)) then
    match Str.split Str.BAR medicine with
    | [p0; p1; p2; p3; p4; p5; p6] => [Make p0 p1 p2 p3 p4 p5 p6]
    | _ => []
    end
  else [].

(** Lines 908-922 (and 976-990, 1084-1098): [medicines_parsed] for the
    [medicines] column of a row, which is NULL when the row has no
    prescription. *)
Definition parse (medicines_column : option string) : list t :=
  match medicines_column with
  | Some m => if truthy medicines_column then flat_map parse_line (Str.split Str.LF m) else []
  | None => []
  end.

Definition fields (m : t) : list string :=
  [name m; dosage m; frequency m; morning m; afternoon m; evening m; meal m].

(** Some field holds a vertical bar. *)
Definition has_bar (m : t) : bool := existsb (Str.contains Str.BAR) (fields m).

(** Some field holds a line feed. *)
Definition has_line_feed (m : t) : bool := existsb (Str.contains Str.LF) (fields m).

(** The medicines that the form describes and that the views show again. *)
Definition shown (m : t) : bool := complete m && negb (has_bar m).

End Medicine.

(** A prescription form with three medicines: one complete, one with a bar
    in its name, one without dosage and frequency. *)
Definition example_form : form :=
  fun k =>
    if String.eqb k "medicine_name_1" then Some " Amoxicillin "
    else if String.eqb k "medicine_dosage_1" then Some "250mg"
    else if String.eqb k "medicine_frequency_1" then Some "3 times a day"
    else if String.eqb k "medicine_morning_1" then Some "on"
    else if String.eqb k "medicine_name_2" then Some "Ibu|profen"
    else if String.eqb k "medicine_dosage_2" then Some "200mg"
    else if String.eqb k "medicine_frequency_2" then Some "twice"
    else if String.eqb k "medicine_meal_2" then Some "before"
    else if String.eqb k "medicine_name_3" then Some "Zinc"
    else None.

(** * The views that write to the database *)

(** A row of [staff] (database.py, lines 56-63). *)
Module Staff.
Record row : Type := Row {
  id : Z;
  name : string;
  email : string;
  password : string;
  hospital_name : string
}.
End Staff.

(** A row of [doctors] (database.py, lines 65-80), with the columns that the
    modelled views compare or show; [username] and [password] are NULL until
    credentials are set. *)
Module Doctors.
Record row : Type := Row {
  id : Z;
  name : string;
  username : option string;
  password : option string;
  hospital_id : Z
}.
End Doctors.

(** A row of [appointments] with its primary key and its patient; [columns]
    are the columns that [get_doctor_slots] reads. *)
Module AppointmentRecord.
Record row : Type := Row {
  id : Z;
  patient_id : Z;
  columns : Appointments.row
}.
End AppointmentRecord.

(** How the database file answers: to every statement, to SELECT only (a
    read-only or locked file, on which a write raises [sqlite3.Error]), or to
    none. *)
Inductive health : Type :=
| Healthy
| ReadOnly
| Broken.

Record database : Type := Database {
  db_health : health;
  db_staff : list Staff.row;
  db_doctors : list Doctors.row;
  db_doctor_slots : list DoctorSlots.row;
  db_appointments : list AppointmentRecord.row
}.

(** What [get_doctor_slots] sees of a database. *)
Definition connection_of (db : database) : connection :=
  match db_health db with
  | Broken => {| doctor_slots := Failing; appointments := Failing |}
  | _ => {| doctor_slots := Rows (db_doctor_slots db);
            appointments := Rows (map AppointmentRecord.columns (db_appointments db)) |}
  end.

(** [conn.execute('SELECT ... WHERE p', params).fetchall()], with the
    integers of [params], on a connection that may have been closed already:
    a closed connection raises, before anything is bound. *)
Definition query {A : Type} (db : database) (closed : bool) (params : list Z)
    (rows : list A) (p : A -> bool) : result (list A) :=
  if closed then Raise DatabaseError
  else
    match db_health db with
    | Broken => Raise DatabaseError
    | _ => if binds params then Ok (filter p rows) else Raise OverflowError
    end.

(** Whether the database accepts DELETE, INSERT, UPDATE and [commit]. *)
Definition writable (db : database) : bool :=
  match db_health db with
  | Healthy => true
  | _ => false
  end.

(** Whether the writes of a view, with the integers of [params], and its
    [commit] go through; when they do not, an exception is raised inside the
    [try] of the view. *)
Definition writes (db : database) (params : list Z) : bool :=
  writable db && binds params.

(** [request.method] and [request.form]. *)
Record request : Type := Request {
  method : string;
  form_of : form
}.

(** The targets of [redirect(url_for(...))] and the templates rendered. *)
Inductive page : Type :=
| RedirectLogin
| RedirectViewDoctors
| RedirectSetDoctorSlots (doctor_id : Z)
| RedirectDoctorAppointments
| RedirectViewAppointments
| RenderSetDoctorSlots (doctor : Doctors.row) (slots : list DoctorSlots.row)
| RedirectAdminDashboard
| RedirectDoctorDashboard
| RedirectDoctorLogin
| RedirectHome
| RenderLogin
| RenderDoctorLogin.

(** What a view leaves behind: the page, the messages flashed (message and
    category, in order) and the committed database. *)
Record outcome : Type := Outcome {
  page_of : page;
  flashes : list (string * string);
  db_after : database
}.

(** [request.form.get(key, '').strip()] *)
Definition field (f : form) (key : string) : string := Str.strip (form_get f key "").

(** [x or None] for a string [x] *)
Definition or_None (x : string) : option string :=
  if truthy (Some x) then Some x else None.

(** ** [set_doctor_slots] *)

(** The CASE of lines 494-502; a day that is none of the seven gives NULL,
    which sorts first. *)
Definition day_rank (day : string) : Z :=
  if String.eqb day "Monday" then 1 else if String.eqb day "Tuesday" then 2
  else if String.eqb day "Wednesday" then 3 else if String.eqb day "Thursday" then 4
  else if String.eqb day "Friday" then 5 else if String.eqb day "Saturday" then 6
  else if String.eqb day "Sunday" then 7 else 0.

Fixpoint insert_by_day (r : DoctorSlots.row) (l : list DoctorSlots.row)
  : list DoctorSlots.row :=
  match l with
  | [] => [r]
  | x :: l' =>
      if day_rank (DoctorSlots.day_of_week r) <=? day_rank (DoctorSlots.day_of_week x)
      then r :: l
      else x :: insert_by_day r l'
  end.

(** ORDER BY the CASE; rows of the same rank stay in rowid order (SQL leaves
    their order open). *)
Definition order_by_day (l : list DoctorSlots.row) : list DoctorSlots.row :=
  fold_right insert_by_day [] l.

Section SetDoctorSlots.

Variable sess : session.
Variable req : request.
Variable db : database.
Variable doctor_id : Z.

(** The WHERE clause of line 456. *)
Definition doctor_where (hospital : Z) (d : Doctors.row) : bool :=
  (Doctors.id d =? doctor_id) && (Doctors.hospital_id d =? hospital).

(** The WHERE clause of the DELETE of line 474. *)
Definition window_where (day : string) (hospital : Z) (r : DoctorSlots.row) : bool :=
  (DoctorSlots.doctor_id r =? doctor_id)
  && String.eqb (DoctorSlots.day_of_week r) day
  && (DoctorSlots.hospital_id r =? hospital).

(** The WHERE clause of the SELECT of lines 490-492. *)
Definition windows_where (hospital : Z) (r : DoctorSlots.row) : bool :=
  (DoctorSlots.doctor_id r =? doctor_id) && (DoctorSlots.hospital_id r =? hospital).

(** The row that lines 476-479 insert. *)
Definition posted_window (hospital : Z) : DoctorSlots.row :=
  {| DoctorSlots.doctor_id := doctor_id;
     DoctorSlots.day_of_week := field (form_of req) "day";
     DoctorSlots.start_time := field (form_of req) "start_time";
     DoctorSlots.end_time := field (form_of req) "end_time";
     DoctorSlots.break_start := or_None (field (form_of req) "break_start");
     DoctorSlots.break_end := or_None (field (form_of req) "break_end");
     DoctorSlots.hospital_id := hospital |}.

(** Lines 474-480: DELETE, INSERT and [commit]. *)
Definition replace_window (hospital : Z) : database :=
  {| db_health := db_health db;
     db_staff := db_staff db;
     db_doctors := db_doctors db;
     db_doctor_slots :=
       filter (fun r => negb (window_where (field (form_of req) "day") hospital r))
              (db_doctor_slots db)
       ++ [posted_window hospital];
     db_appointments := db_appointments db |}.

(** Lines 489-513: the list of the doctor's windows and the page; [closed]
    says that the connection was closed before. *)
Definition windows_page (closed : bool) (hospital : Z) (doctor : Doctors.row)
    (flashed : list (string * string)) : outcome :=
  match query db closed [doctor_id; hospital] (db_doctor_slots db)
          (windows_where hospital) with
  | Ok slots =>
      {| page_of := RenderSetDoctorSlots doctor (order_by_day slots);
         flashes := flashed; db_after := db |}
  | Raise _ =>
      {| page_of := RenderSetDoctorSlots doctor [];
         flashes := flashed ++ [("Error loading doctor data", "danger")];
         db_after := db |}
  end.

(** Lines 462-487: the POST branch; when the write fails, [finally] closes
    the connection and the function goes on to line 489. *)
Definition post_window (hospital : Z) (doctor : Doctors.row) : outcome :=
  let day := field (form_of req) "day" in
  let start_time := field (form_of req) "start_time" in
  let end_time := field (form_of req) "end_time" in
  if negb (truthy (Some day) && truthy (Some start_time) && truthy (Some end_time)) then
    {| page_of := RedirectSetDoctorSlots doctor_id;
       flashes := [("Required fields are missing", "danger")];
       db_after := db |}
  else if writes db [doctor_id; hospital] then
    {| page_of := RedirectViewDoctors;
       flashes := [("Doctor availability slots updated successfully!", "success")];
       db_after := replace_window hospital |}
  else windows_page true hospital doctor [("Error updating slots", "danger")].

(** [set_doctor_slots(doctor_id)] (lines 449-513); [Raise] is an exception
    that leaves the view. *)
Definition set_doctor_slots : result outcome :=
  match user_id sess with
  | None => Ok {| page_of := RedirectLogin; flashes := []; db_after := db |}
  | Some _ =>
      bind (getitem (user_type sess)) (fun ut =>
      if negb (String.eqb ut "admin")
      then Ok {| page_of := RedirectLogin; flashes := []; db_after := db |}
      else
        bind (getitem (hospital_id sess)) (fun hospital =>
        bind (query db false [doctor_id; hospital] (db_doctors db)
                (doctor_where hospital)) (fun found =>
        match found with
        | [] =>
            Ok {| page_of := RedirectViewDoctors;
                  flashes := [("Doctor not found", "danger")];
                  db_after := db |}
        | doctor :: _ =>
            if String.eqb (method req) "POST"
            then Ok (post_window hospital doctor)
            else Ok (windows_page false hospital doctor [])
        end)))
  end.

End SetDoctorSlots.

(** ** [update_appointment_status] and [delete_appointment] *)

Section AppointmentWrites.

Variable sess : session.
Variable req : request.
Variable db : database.
Variable appointment_id : Z.

(** The WHERE clause of line 812. *)
Definition own_appointment (doctor hospital : Z) (a : AppointmentRecord.row) : bool :=
  (AppointmentRecord.id a =? appointment_id)
  && (Appointments.doctor_id (AppointmentRecord.columns a) =? doctor)
  && (Appointments.hospital_id (AppointmentRecord.columns a) =? hospital).

(** SET status = ? on one row. *)
Definition with_status (st : string) (a : AppointmentRecord.row) : AppointmentRecord.row :=
  {| AppointmentRecord.id := AppointmentRecord.id a;
     AppointmentRecord.patient_id := AppointmentRecord.patient_id a;
     AppointmentRecord.columns :=
       {| Appointments.doctor_id := Appointments.doctor_id (AppointmentRecord.columns a);
          Appointments.date := Appointments.date (AppointmentRecord.columns a);
          Appointments.time_slot := Appointments.time_slot (AppointmentRecord.columns a);
          Appointments.status := Some st;
          Appointments.hospital_id :=
            Appointments.hospital_id (AppointmentRecord.columns a) |} |}.

(** Lines 809-814: UPDATE and [commit]. *)
Definition update_status (st : string) (doctor hospital : Z) : database :=
  {| db_health := db_health db;
     db_staff := db_staff db;
     db_doctors := db_doctors db;
     db_doctor_slots := db_doctor_slots db;
     db_appointments :=
       map (fun a => if own_appointment doctor hospital a then with_status st a else a)
           (db_appointments db) |}.

(** [update_appointment_status(appointment_id)] (lines 797-822) *)
Definition update_appointment_status : result outcome :=
  match user_id sess with
  | None => Ok {| page_of := RedirectLogin; flashes := []; db_after := db |}
  | Some doctor =>
      bind (getitem (user_type sess)) (fun ut =>
      if negb (String.eqb ut "doctor")
      then Ok {| page_of := RedirectLogin; flashes := []; db_after := db |}
      else
        let st := field (form_of req) "status" in
        if negb (truthy (Some st)) then
          Ok {| page_of := RedirectDoctorAppointments;
                flashes := [("Status is required", "danger")];
                db_after := db |}
        else
          match getitem (hospital_id sess) with
          | Ok hospital =>
              if writes db [appointment_id; doctor; hospital] then
                Ok {| page_of := RedirectDoctorAppointments;
                      flashes := [("Appointment status updated successfully!", "success")];
                      db_after := update_status st doctor hospital |}
              else
                Ok {| page_of := RedirectDoctorAppointments;
                      flashes := [("Error updating status", "danger")];
                      db_after := db |}
          | Raise _ =>
              Ok {| page_of := RedirectDoctorAppointments;
                    flashes := [("Error updating status", "danger")];
                    db_after := db |}
          end)
  end.

(** The WHERE clause of line 663. *)
Definition deleted_appointment (hospital : Z) (a : AppointmentRecord.row) : bool :=
  (AppointmentRecord.id a =? appointment_id)
  && (Appointments.hospital_id (AppointmentRecord.columns a) =? hospital).

(** Lines 663-665: DELETE and [commit]. *)
Definition delete_rows (hospital : Z) : database :=
  {| db_health := db_health db;
     db_staff := db_staff db;
     db_doctors := db_doctors db;
     db_doctor_slots := db_doctor_slots db;
     db_appointments :=
       filter (fun a => negb (deleted_appointment hospital a)) (db_appointments db) |}.

(** [delete_appointment(appointment_id)] (lines 657-673) *)
Definition delete_appointment : result outcome :=
  match user_id sess with
  | None => Ok {| page_of := RedirectLogin; flashes := []; db_after := db |}
  | Some _ =>
      bind (getitem (user_type sess)) (fun ut =>
      if negb (String.eqb ut "admin")
      then Ok {| page_of := RedirectLogin; flashes := []; db_after := db |}
      else
        match getitem (hospital_id sess) with
        | Ok hospital =>
            if writes db [appointment_id; hospital] then
              Ok {| page_of := RedirectViewAppointments;
                    flashes := [("Appointment deleted successfully!", "success")];
                    db_after := delete_rows hospital |}
            else
              Ok {| page_of := RedirectViewAppointments;
                    flashes := [("Error deleting appointment", "danger")];
                    db_after := db |}
        | Raise _ =>
            Ok {| page_of := RedirectViewAppointments;
                  flashes := [("Error deleting appointment", "danger")];
                  db_after := db |}
        end)
  end.

End AppointmentWrites.

(** The database without the appointments that satisfy [p]. *)
Definition without_appointments (p : AppointmentRecord.row -> bool) (db : database)
  : database :=
  {| db_health := db_health db;
     db_staff := db_staff db;
     db_doctors := db_doctors db;
     db_doctor_slots := db_doctor_slots db;
     db_appointments := filter (fun a => negb (p a)) (db_appointments db) |}.

(** Two rows of [appointments] that differ at most in their status, and in
    it only if [may_change] holds of the first. *)
Definition same_but_status (may_change : AppointmentRecord.row -> Prop)
    (a a' : AppointmentRecord.row) : Prop :=
  AppointmentRecord.id a' = AppointmentRecord.id a
  /\ AppointmentRecord.patient_id a' = AppointmentRecord.patient_id a
  /\ Appointments.doctor_id (AppointmentRecord.columns a')
     = Appointments.doctor_id (AppointmentRecord.columns a)
  /\ Appointments.date (AppointmentRecord.columns a')
     = Appointments.date (AppointmentRecord.columns a)
  /\ Appointments.time_slot (AppointmentRecord.columns a')
     = Appointments.time_slot (AppointmentRecord.columns a)
  /\ Appointments.hospital_id (AppointmentRecord.columns a')
     = Appointments.hospital_id (AppointmentRecord.columns a)
  /\ (Appointments.status (AppointmentRecord.columns a')
      <> Appointments.status (AppointmentRecord.columns a) -> may_change a).

(** ** A database and requests for the examples *)

Definition rao : Doctors.row :=
  {| Doctors.id := 7; Doctors.name := "Dr. Rao"; Doctors.username := Some "rao";
     Doctors.password := Some "hash:pw7"; Doctors.hospital_id := 1 |}.

Definition roe : Doctors.row :=
  {| Doctors.id := 9; Doctors.name := "Dr. Roe"; Doctors.username := None;
     Doctors.password := None; Doctors.hospital_id := 2 |}.

Definition example_database : database :=
  {| db_health := Healthy;
     db_staff :=
       [ {| Staff.id := 1; Staff.name := "Admin"; Staff.email := "admin@hospital.com";
            Staff.password := "hash:admin123"; Staff.hospital_name := "General Hospital" |};
         {| Staff.id := 2; Staff.name := "Bea"; Staff.email := "bea@clinic.org";
            Staff.password := "hash:secret"; Staff.hospital_name := "Clinic" |} ];
     db_doctors := [rao; roe];
     db_doctor_slots := [other_hospital_window; monday_window; broken_window];
     db_appointments :=
       [ {| AppointmentRecord.id := 1; AppointmentRecord.patient_id := 31;
            AppointmentRecord.columns := appointment 7 "09:30" (Some "Scheduled") 1 |};
         {| AppointmentRecord.id := 2; AppointmentRecord.patient_id := 32;
            AppointmentRecord.columns := appointment 7 "09:45" (Some "Cancelled") 1 |};
         {| AppointmentRecord.id := 3; AppointmentRecord.patient_id := 33;
            AppointmentRecord.columns := appointment 7 "09:00" (Some "Completed") 2 |} ] |}.

Definition read_only_database : database :=
  {| db_health := ReadOnly;
     db_staff := db_staff example_database;
     db_doctors := db_doctors example_database;
     db_doctor_slots := db_doctor_slots example_database;
     db_appointments := db_appointments example_database |}.

(** A POST that sets Monday 08:00-09:00 without a break, and the status
    'Cancelled'. *)
Definition example_post : request :=
  {| method := "POST";
     form_of := fun k =>
       if String.eqb k "day" then Some "Monday"
       else if String.eqb k "start_time" then Some " 08:00"
       else if String.eqb k "end_time" then Some "09:00 "
       else if String.eqb k "break_start" then Some ""
       else if String.eqb k "status" then Some " Cancelled "
       else None |}.

Definition rao_session : session :=
  {| user_id := Some 7; user_type := Some "doctor"; hospital_id := Some 1 |}.

Definition other_admin_session : session :=
  {| user_id := Some 2; user_type := Some "admin"; hospital_id := Some 2 |}.

(** ** [home], [login], [doctor_login] and [logout] *)

(** The Flask session as the login views write it: the three keys that the
    views read, and the two that only the templates show. *)
Record cookie : Type := Cookie {
  keys : session;
  session_name : option string;
  session_hospital_name : option string
}.

(** [session.clear()] *)
Definition cleared : cookie :=
  {| keys := {| user_id := None; user_type := None; hospital_id := None |};
     session_name := None;
     session_hospital_name := None |}.

(** What a login view leaves behind: the page, the messages flashed and the
    session. *)
Record login_outcome : Type := LoginOutcome {
  login_page : page;
  login_flashes : list (string * string);
  session_after : cookie
}.

(** Lines 101-107. *)
Definition home (sess : session) : result page :=
  match user_id sess with
  | Some _ =>
      bind (getitem (user_type sess)) (fun ut =>
        if String.eqb ut "admin" then Ok RedirectAdminDashboard
        else Ok RedirectDoctorDashboard)
  | None => Ok RenderLogin
  end.

(** Lines 226-228. *)
Definition logout (st : cookie) : login_outcome :=
  {| login_page := RedirectHome; login_flashes := []; session_after := cleared |}.

(** Line 125: [WHERE email = ?] *)
Definition staff_where (email : string) (s : Staff.row) : bool :=
  String.eqb (Staff.email s) email.

(** Lines 138-139 and 175-176: [FROM doctors d JOIN staff s ON
    d.hospital_id = s.id], the doctors in the order of the table. *)
Definition doctors_join_staff (db : database) : list (Doctors.row * Staff.row) :=
  flat_map
    (fun d => map (pair d)
                (filter (fun s => Staff.id s =? Doctors.hospital_id d) (db_staff db)))
    (db_doctors db).

(** Lines 140 and 177: [WHERE d.username = ? AND d.password IS NOT NULL] *)
Definition account_where (username : string) (r : Doctors.row * Staff.row) : bool :=
  match Doctors.username (fst r), Doctors.password (fst r) with
  | Some u, Some _ => String.eqb u username
  | _, _ => false
  end.

(** Lines 127-132. *)
Definition staff_cookie (user : Staff.row) (user_type : string) : cookie :=
  {| keys := {| user_id := Some (Staff.id user);
                user_type := Some user_type;
                hospital_id := Some (Staff.id user) |};
     session_name := Some (Staff.name user);
     session_hospital_name := Some (Staff.hospital_name user) |}.

(** Lines 143-148 and 181-186. *)
Definition doctor_cookie (user : Doctors.row * Staff.row) (user_type : string) : cookie :=
  {| keys := {| user_id := Some (Doctors.id (fst user));
                user_type := Some user_type;
                hospital_id := Some (Doctors.hospital_id (fst user)) |};
     session_name := Some (Doctors.name (fst user));
     session_hospital_name := Some (Staff.hospital_name (snd user)) |}.

Section Login.

(** werkzeug's [check_password_hash(pwhash, password)] *)
Variable check_password_hash : string -> string -> bool.

(** The session of the request, the request and the database. *)
Variable st : cookie.
Variable req : request.
Variable db : database.

(** Lines 151 and 189: the view falls through to its template. *)
Definition invalid_credentials (template : page) : login_outcome :=
  {| login_page := template;
     login_flashes := [("Invalid credentials or account not setup", "danger")];
     session_after := st |}.

(** Lines 152-154 and 190-192. *)
Definition login_error (template : page) : login_outcome :=
  {| login_page := template;
     login_flashes := [("Login error occurred", "danger")];
     session_after := st |}.

(** Lines 136-149 and 173-187: the doctor's account and its password. A row
    of the query has a password, by its WHERE clause; without one
    [check_password_hash] would raise into the [except]. *)
Definition doctor_account (template : page) (username password user_type : string)
  : login_outcome :=
  match query db false [] (doctors_join_staff db) (account_where username) with
  | Raise _ => login_error template
  | Ok [] => invalid_credentials template
  | Ok (user :: _) =>
      match Doctors.password (fst user) with
      | None => login_error template
      | Some pwhash =>
          if check_password_hash pwhash password
          then {| login_page := RedirectDoctorDashboard;
                  login_flashes := [];
                  session_after := doctor_cookie user user_type |}
          else invalid_credentials template
      end
  end.

(** Lines 110-158. *)
Definition login : login_outcome :=
  if String.eqb (method req) "POST" then
    let username := field (form_of req) "username" in
    let password := field (form_of req) "password" in
    let user_type := field (form_of req) "user_type" in
    if negb (truthy (Some username) && truthy (Some password) && truthy (Some user_type))
    then {| login_page := RedirectLogin;
            login_flashes := [("All fields are required", "danger")];
            session_after := st |}
    else if String.eqb user_type "admin" then
      match query db false [] (db_staff db) (staff_where username) with
      | Raise _ => login_error RenderLogin
      | Ok [] => invalid_credentials RenderLogin
      | Ok (user :: _) =>
          if check_password_hash (Staff.password user) password
          then {| login_page := RedirectAdminDashboard;
                  login_flashes := [];
                  session_after := staff_cookie user user_type |}
          else invalid_credentials RenderLogin
      end
    else doctor_account RenderLogin username password user_type
  else {| login_page := RenderLogin; login_flashes := []; session_after := st |}.

(** Lines 161-196. *)
Definition doctor_login : login_outcome :=
  if String.eqb (method req) "POST" then
    let username := field (form_of req) "username" in
    let password := field (form_of req) "password" in
    if negb (truthy (Some username) && truthy (Some password))
    then {| login_page := RedirectDoctorLogin;
            login_flashes := [("All fields are required", "danger")];
            session_after := st |}
    else doctor_account RenderDoctorLogin username password "doctor"
  else {| login_page := RenderDoctorLogin; login_flashes := []; session_after := st |}.

End Login.

(** The sessions that the views can leave in a browser: none of the other
    views assigns to [session]. *)
Inductive visits (check_password_hash : string -> string -> bool) : cookie -> Prop :=
| visits_first : visits check_password_hash cleared
| visits_login (st : cookie) (req : request) (db : database) :
    visits check_password_hash st ->
    visits check_password_hash (session_after (login check_password_hash st req db))
| visits_doctor_login (st : cookie) (req : request) (db : database) :
    visits check_password_hash st ->
    visits check_password_hash (session_after (doctor_login check_password_hash st req db))
| visits_logout (st : cookie) :
    visits check_password_hash st ->
    visits check_password_hash (session_after (logout st)).

(** Either no key of the three, or all of them; and an administrator's
    hospital is the administrator's own id. *)
Definition all_or_nothing (sess : session) : Prop :=
  sess = {| user_id := None; user_type := None; hospital_id := None |}
  \/ exists uid ut h,
       sess = {| user_id := Some uid; user_type := Some ut; hospital_id := Some h |}
       /\ (ut = "admin" -> h = uid).

(** A stand-in for werkzeug's hashes in the examples: the hash of [p] is
    "hash:" followed by [p]. *)
Definition example_check (pwhash password : string) : bool :=
  String.eqb pwhash ("hash:" ++ password)%string.

Definition login_post (username password user_type : string) : request :=
  {| method := "POST";
     form_of := fun k =>
       if String.eqb k "username" then Some username
       else if String.eqb k "password" then Some password
       else if String.eqb k "user_type" then Some user_type
       else None |}.

(** * Properties *)

(** ** The model on known values *)

Example strptime_HM_values :
  map strptime_HM ["09:00"; "9:5"; "23:59"; "24:00"; "1:60"; "12:3x"; ""]
  = [Ok 540; Ok 545; Ok 1439; Raise ValueError; Raise ValueError; Raise ValueError;
     Raise ValueError].
Proof. reflexivity. Qed.

Example strptime_Ymd_weekday_values :
  map strptime_Ymd_weekday
    ["1900-01-01"; "2024-02-29"; "2023-02-29"; "2024-1-5"; "2024-13-01"; "01/01/2024"]
  = [Ok "Monday"; Ok "Thursday"; Raise ValueError; Ok "Friday"; Raise ValueError;
     Raise ValueError].
Proof. reflexivity. Qed.

Example make_slot_noon :
  make_slot 705 720
  = {| start := "11:45"; end_ := "12:00";
       display_start := "11:45 am"; display_end := "12:00 pm" |}.
Proof. reflexivity. Qed.

Example add_minutes_values :
  add_minutes 540 15 = Ok 555
  /\ add_minutes 540 5000000000 = Raise OverflowError
  /\ add_minutes 540 (-998777341) = Raise OverflowError
  /\ add_minutes 540 (-998777340) = Ok dt_min.
Proof. repeat split. Qed.

Example one_hour_of_quarters :
  generate_time_slots 5 "09:00" "10:00" None None 15 = Some (Ok (tiles 540 15 4)).
Proof. reflexivity. Qed.

Example monday_response :
  get_doctor_slots 100 admin_session 7 "2024-01-01" (Ok example_connection)
  = Some (Ok {| json := SlotList (tiles 540 15 4) ["09:30"]; status_code := 200 |}).
Proof. reflexivity. Qed.

(** ** Times of day *)

Lemma digit_of_range (c : ascii) (d : Z) : digit_of c = Some d -> 0 <= d <= 9.
Proof.
  unfold digit_of. destruct (_ && _) eqn:E; [|discriminate].
  intros [= <-]. apply andb_true_iff in E. lia.
Qed.

Lemma hour_of_range (ds : list ascii) (h : Z) : hour_of ds = Some h -> 0 <= h <= 23.
Proof.
  unfold hour_of.
  destruct ds as [|c1 [|c2 [|c3 ds]]]; cbn [map]; try discriminate.
  - destruct (digit_of c1) eqn:E1; [|discriminate].
    intros [= <-]. apply digit_of_range in E1. lia.
  - destruct (digit_of c1) as [d1|] eqn:E1; [|discriminate].
    destruct (digit_of c2) as [d2|] eqn:E2; [|discriminate].
    destruct (Z.leb_spec (10 * d1 + d2) 23); [|discriminate].
    intro Heq. apply digit_of_range in E1, E2.
    replace h with (10 * d1 + d2) by congruence. lia.
  - destruct (digit_of c1); [|discriminate].
    destruct (digit_of c2); [|discriminate].
    destruct (digit_of c3); discriminate.
Qed.

Lemma minute_of_range (ds : list ascii) (m : Z) : minute_of ds = Some m -> 0 <= m <= 59.
Proof.
  unfold minute_of.
  destruct ds as [|c1 [|c2 [|c3 ds]]]; cbn [map]; try discriminate.
  - destruct (digit_of c1) eqn:E1; [|discriminate].
    intros [= <-]. apply digit_of_range in E1. lia.
  - destruct (digit_of c1) as [d1|] eqn:E1; [|discriminate].
    destruct (digit_of c2) as [d2|] eqn:E2; [|discriminate].
    destruct (Z.leb_spec d1 5); [|discriminate].
    intro Heq. apply digit_of_range in E1, E2.
    replace m with (10 * d1 + d2) by congruence. lia.
  - destruct (digit_of c1); [|discriminate].
    destruct (digit_of c2); [|discriminate].
    destruct (digit_of c3); discriminate.
Qed.

(** A string that [strptime] accepts is a minute of the day 1900-01-01. *)
Lemma strptime_HM_range (s : string) (t : datetime) :
  strptime_HM s = Ok t -> 0 <= t < 1440.
Proof.
  unfold strptime_HM.
  destruct (split_at _ _) as [hs [ms|]]; [|discriminate].
  destruct (hour_of hs) as [z|] eqn:Eh; [|discriminate].
  destruct (minute_of ms) as [z0|] eqn:Em; [|discriminate].
  intro Heq. apply hour_of_range in Eh. apply minute_of_range in Em.
  replace t with (60 * z + z0) by congruence. lia.
Qed.

Lemma strptime_HM_nonempty (s : string) (t : datetime) :
  strptime_HM s = Ok t -> truthy (Some s) = true.
Proof.
  destruct s; [discriminate|reflexivity].
Qed.

(** ** The datetime arithmetic *)

Lemma add_minutes_in_range (t i : Z) :
  dt_min <= t + i <= dt_max -> add_minutes t i = Ok (t + i).
Proof.
  intro H. unfold add_minutes.
  destruct (Z.leb_spec dt_min (t + i)); [|lia].
  destruct (Z.leb_spec (t + i) dt_max); [reflexivity|lia].
Qed.

Lemma add_minutes_out_of_range (t i : Z) :
  t + i < dt_min \/ dt_max < t + i -> add_minutes t i = Raise OverflowError.
Proof.
  intro H. unfold add_minutes.
  destruct (Z.leb_spec dt_min (t + i)); [|reflexivity].
  destruct (Z.leb_spec (t + i) dt_max); [lia|reflexivity].
Qed.

Lemma add_minutes_ok (t i t' : Z) :
  add_minutes t i = Ok t' -> t' = t + i /\ dt_min <= t' <= dt_max.
Proof.
  unfold add_minutes.
  destruct (Z.leb_spec dt_min (t + i)); [|discriminate].
  destruct (Z.leb_spec (t + i) dt_max); [|discriminate].
  cbn [andb]. intros [= <-]. lia.
Qed.

Lemma dt_min_value : dt_min = -998776800.
Proof. reflexivity. Qed.

Lemma dt_max_value : dt_max = 4260188159.
Proof. reflexivity. Qed.

(** ** The break pair as the loop reads it *)

Lemma skips_true (w : option (datetime * datetime)) (interval c : Z) :
  skips w interval c = true ->
  exists t1 t2, w = Some (t1, t2) /\ t1 <= c /\ c + interval <= t2.
Proof.
  unfold skips. destruct w as [[t1 t2]|]; [|discriminate].
  intro Hs. apply andb_true_iff in Hs. destruct Hs as [H1 H2].
  apply Z.leb_le in H1, H2. exists t1, t2. auto.
Qed.

Lemma skips_false (t1 t2 interval c : Z) :
  skips (Some (t1, t2)) interval c = false -> c < t1 \/ t2 < c + interval.
Proof.
  unfold skips. intro Hs. apply andb_false_iff in Hs.
  destruct Hs as [H|H]; apply Z.leb_gt in H; lia.
Qed.

Lemma break_times_range (bs be : option string) (t1 t2 : datetime) :
  break_times bs be = Ok (Some (t1, t2)) -> 0 <= t1 < 1440 /\ 0 <= t2 < 1440.
Proof.
  unfold break_times.
  destruct bs as [s1|], be as [s2|]; try discriminate.
  destruct (truthy _ && truthy _); [|discriminate].
  destruct (strptime_HM s1) as [u1|] eqn:E1; [|discriminate].
  destruct (strptime_HM s2) as [u2|] eqn:E2; [|discriminate].
  cbn [bind]. intros [= <- <-].
  apply strptime_HM_range in E1, E2. lia.
Qed.

Lemma break_times_parsed (s1 s2 : string) (t1 t2 : datetime) :
  strptime_HM s1 = Ok t1 -> strptime_HM s2 = Ok t2 ->
  break_times (Some s1) (Some s2) = Ok (Some (t1, t2)).
Proof.
  intros E1 E2. unfold break_times.
  rewrite (strptime_HM_nonempty _ _ E1), (strptime_HM_nonempty _ _ E2).
  cbn [andb]. rewrite E1, E2. reflexivity.
Qed.

Section LoopFacts.

Variable end_time : datetime.
Variables break_start break_end : option string.
Variable interval : Z.

#[local] Abbreviation body := (loop_body end_time break_start break_end interval).
#[local] Abbreviation run := (while end_time break_start break_end interval).

Lemma break_skip_times (c slot_end : datetime) :
  break_skip break_start break_end c slot_end =
  bind (break_times break_start break_end) (fun w =>
    Ok (match w with
        | Some (t1, t2) => if (t1 <=? c) && (slot_end <=? t2) then Some t2 else None
        | None => None
        end)).
Proof.
  unfold break_skip, break_times.
  destruct break_start as [bs|], break_end as [be|]; try reflexivity.
  destruct (truthy _ && truthy _); [|reflexivity].
  destruct (strptime_HM bs); [|reflexivity].
  destruct (strptime_HM be); [|reflexivity].
  cbn [bind]. destruct (_ && _); reflexivity.
Qed.

(** The skip rule only ever moves the cursor to or past the end of the
    candidate slot. *)
Lemma break_skip_target (c slot_end t : datetime) :
  break_skip break_start break_end c slot_end = Ok (Some t) -> slot_end <= t.
Proof.
  rewrite break_skip_times.
  destruct (break_times break_start break_end) as [[[t1 t2]|]|]; cbn [bind];
    try discriminate.
  destruct (Z.leb_spec t1 c); cbn [andb]; try discriminate.
  destruct (Z.leb_spec slot_end t2); try discriminate.
  intro Heq. replace t with t2 by congruence. assumption.
Qed.

Lemma body_return (c : datetime) (acc : list slot) :
  end_time <= c -> body c acc = Return acc.
Proof.
  intro H. unfold loop_body. destruct (Z.ltb_spec c end_time); [lia|reflexivity].
Qed.

Lemma body_overflow (c : datetime) (acc : list slot) :
  c < end_time -> c + interval < dt_min \/ dt_max < c + interval ->
  body c acc = Raised OverflowError.
Proof.
  intros H Hr. unfold loop_body. destruct (Z.ltb_spec c end_time); [|lia].
  rewrite add_minutes_out_of_range by assumption. reflexivity.
Qed.

Section WithBreak.

Variable w : option (datetime * datetime).
Hypothesis Hw : break_times break_start break_end = Ok w.

Lemma body_skip (c : datetime) (acc : list slot) (t1 t2 : datetime) :
  c < end_time -> dt_min <= c + interval <= dt_max ->
  w = Some (t1, t2) -> t1 <= c -> c + interval <= t2 ->
  body c acc = Continue t2 acc.
Proof.
  intros H Hr -> H1 H2. unfold loop_body.
  destruct (Z.ltb_spec c end_time); [|lia].
  rewrite add_minutes_in_range by assumption.
  rewrite break_skip_times, Hw. cbn [bind].
  destruct (Z.leb_spec t1 c); [|lia].
  destruct (Z.leb_spec (c + interval) t2); [|lia]. reflexivity.
Qed.

Lemma body_emit (c : datetime) (acc : list slot) :
  c < end_time -> dt_min <= c + interval <= dt_max ->
  skips w interval c = false -> c + interval <= end_time ->
  body c acc = Continue (c + interval) (acc ++ [make_slot c (c + interval)]).
Proof.
  intros H Hr Hs He. unfold loop_body.
  destruct (Z.ltb_spec c end_time); [|lia].
  rewrite add_minutes_in_range by assumption.
  rewrite break_skip_times, Hw. cbn [bind].
  unfold skips in Hs. destruct w as [[t1 t2]|].
  - rewrite Hs. destruct (Z.leb_spec (c + interval) end_time); [reflexivity|lia].
  - destruct (Z.leb_spec (c + interval) end_time); [reflexivity|lia].
Qed.

Lemma body_drop (c : datetime) (acc : list slot) :
  c < end_time -> dt_min <= c + interval <= dt_max ->
  skips w interval c = false -> end_time < c + interval ->
  body c acc = Continue (c + interval) acc.
Proof.
  intros H Hr Hs He. unfold loop_body.
  destruct (Z.ltb_spec c end_time); [|lia].
  rewrite add_minutes_in_range by assumption.
  rewrite break_skip_times, Hw. cbn [bind].
  unfold skips in Hs. destruct w as [[t1 t2]|].
  - rewrite Hs. destruct (Z.leb_spec (c + interval) end_time); [lia|reflexivity].
  - destruct (Z.leb_spec (c + interval) end_time); [lia|reflexivity].
Qed.

(** With a break pair that parses, the body can only raise by overflow. *)
Lemma body_cases (c : datetime) (acc : list slot) :
  c < end_time -> dt_min <= c + interval <= dt_max ->
  (exists t1 t2, w = Some (t1, t2) /\ t1 <= c /\ c + interval <= t2
                 /\ body c acc = Continue t2 acc)
  \/ (skips w interval c = false /\ c + interval <= end_time
      /\ body c acc = Continue (c + interval) (acc ++ [make_slot c (c + interval)]))
  \/ (skips w interval c = false /\ end_time < c + interval
      /\ body c acc = Continue (c + interval) acc).
Proof.
  intros H Hr.
  destruct (skips w interval c) eqn:Hs.
  - left. destruct (skips_true _ _ _ Hs) as (t1 & t2 & Ew & H1 & H2).
    exists t1, t2. repeat split; try assumption.
    apply (body_skip c acc t1 t2); auto.
  - right. destruct (Z_le_gt_dec (c + interval) end_time).
    + left. repeat split; auto using body_emit.
    + right. repeat split; try lia. apply body_drop; auto; lia.
Qed.

End WithBreak.

End LoopFacts.

(** ** The loop *)

Lemma tiles_length (c d : Z) (k : nat) : length (tiles c d k) = k.
Proof.
  unfold tiles. rewrite length_map, length_seq. reflexivity.
Qed.

Lemma tiles_succ (c d : Z) (k : nat) :
  tiles c d (S k) = make_slot c (c + d) :: tiles (c + d) d k.
Proof.
  unfold tiles. cbn [seq map]. f_equal.
  - f_equal; lia.
  - rewrite <- seq_shift, map_map. apply map_ext. intro i.
    f_equal; lia.
Qed.

Lemma tiles_nth (c d : Z) (k i : nat) :
  (i < k)%nat ->
  nth_error (tiles c d k) i
  = Some (make_slot (c + Z.of_nat i * d) (c + (Z.of_nat i + 1) * d)).
Proof.
  intro H. unfold tiles.
  rewrite nth_error_map, nth_error_seq.
  destruct (Nat.ltb_spec i k); [reflexivity|lia].
Qed.

Section WhileFacts.

Variable end_time : datetime.
Variables break_start break_end : option string.
Variable interval : Z.

#[local] Abbreviation body := (loop_body end_time break_start break_end interval).
#[local] Abbreviation run := (while end_time break_start break_end interval).

Lemma while_continue (n : nat) (c c' : datetime) (acc acc' : list slot) :
  body c acc = Continue c' acc' -> run (S n) c acc = run n c' acc'.
Proof.
  intro H. cbn [while]. rewrite H. reflexivity.
Qed.

Lemma while_return (n : nat) (c : datetime) (acc : list slot) :
  end_time <= c -> run (S n) c acc = Some (Ok acc).
Proof.
  intro H. cbn [while]. rewrite body_return by assumption. reflexivity.
Qed.

(** More fuel does not change a finished run. *)
Lemma while_more_fuel (n m : nat) (c : datetime) (acc : list slot)
    (r : result (list slot)) :
  (n <= m)%nat -> run n c acc = Some r -> run m c acc = Some r.
Proof.
  revert m c acc. induction n as [|n IH]; intros m c acc Hle H.
  - discriminate.
  - destruct m as [|m]; [lia|].
    cbn [while] in *. destruct (body c acc); auto.
    apply IH; [lia|assumption].
Qed.

Lemma while_deterministic (n m : nat) (c : datetime) (acc : list slot)
    (r r' : result (list slot)) :
  run n c acc = Some r -> run m c acc = Some r' -> r = r'.
Proof.
  intros H H'.
  apply (while_more_fuel n (Nat.max n m)) in H; [|lia].
  apply (while_more_fuel m (Nat.max n m)) in H'; [|lia].
  congruence.
Qed.

(** A Hoare-style rule: what the body preserves holds of the slots returned,
    at a cursor that has reached the end of the window. *)
Lemma while_invariant (I : datetime -> list slot -> Prop) :
  (forall c acc c' acc', I c acc -> body c acc = Continue c' acc' -> I c' acc') ->
  forall n c acc slots,
    I c acc -> run n c acc = Some (Ok slots) ->
    exists c', I c' slots /\ end_time <= c'.
Proof.
  intros Hpres. induction n as [|n IH]; intros c acc slots Hi H.
  - discriminate.
  - cbn [while] in H. destruct (body c acc) as [c' acc'| acc' |e] eqn:Hb.
    + apply (IH c' acc'); [|assumption]. apply (Hpres c acc); assumption.
    + exists c. unfold loop_body in Hb.
      destruct (Z.ltb_spec c end_time).
      * destruct (add_minutes c interval); [|discriminate].
        destruct (break_skip _ _ _ _) as [[t|]|]; try discriminate.
        destruct (_ <=? _); discriminate.
      * split; [|lia]. congruence.
    + discriminate.
Qed.

(** Whatever has been appended stays in the list. *)
Lemma while_prefix (n : nat) (c : datetime) (acc slots : list slot) :
  run n c acc = Some (Ok slots) -> exists more, slots = acc ++ more.
Proof.
  intro H.
  destruct (while_invariant (fun _ l => exists more, l = acc ++ more)) with
    (n := n) (c := c) (acc := acc) (slots := slots) as (c' & Hc' & _).
  - intros c0 acc0 c1 acc1 [more ->] Hb. unfold loop_body in Hb.
    destruct (c0 <? end_time); [|discriminate].
    destruct (add_minutes c0 interval) as [se|]; [|discriminate].
    destruct (break_skip _ _ _ _) as [[t|]|]; try discriminate.
    + injection Hb as <- <-. exists more. reflexivity.
    + destruct (se <=? end_time); injection Hb as <- <-.
      * exists (more ++ [make_slot c0 se]). apply eq_sym, app_assoc.
      * exists more. reflexivity.
  - exists []. apply eq_sym, app_nil_r.
  - assumption.
  - assumption.
Qed.

Section Positive.

Hypothesis Hpos : 1 <= interval.

(** Every pass of the loop moves the cursor strictly forward. *)
Lemma body_advances (c c' : datetime) (acc acc' : list slot) :
  body c acc = Continue c' acc' -> c < c'.
Proof.
  unfold loop_body.
  destruct (c <? end_time); [|discriminate].
  destruct (add_minutes c interval) as [se|] eqn:Ea; [|discriminate].
  apply add_minutes_ok in Ea. destruct Ea as [-> _].
  destruct (break_skip _ _ _ _) as [[t|]|] eqn:Eb; try discriminate.
  - apply break_skip_target in Eb. intros [= <- _]. lia.
  - destruct (_ <=? _); intros [= <- _]; lia.
Qed.

(** So the loop ends within [end_time - c] passes and one more test. *)
Lemma while_terminates (n : nat) (c : datetime) (acc : list slot) :
  (Z.to_nat (end_time - c) < n)%nat -> exists r, run n c acc = Some r.
Proof.
  revert c acc. induction n as [|n IH]; intros c acc Hn; [lia|].
  cbn [while]. destruct (body c acc) as [c' acc'| acc' |e] eqn:Hb.
  - apply IH. pose proof (body_advances _ _ _ _ Hb).
    assert (c < end_time).
    { unfold loop_body in Hb. destruct (Z.ltb_spec c end_time); [lia|discriminate]. }
    lia.
  - eauto.
  - eauto.
Qed.

Section WithBreak.

Variable w : option (datetime * datetime).
Hypothesis Hw : break_times break_start break_end = Ok w.

(** A window short enough for the datetime arithmetic never raises. *)
Lemma while_safe_returns (n : nat) (c : datetime) (acc : list slot) :
  end_time + interval <= dt_max + 1 -> dt_min <= c ->
  (Z.to_nat (end_time - c) < n)%nat ->
  exists slots, run n c acc = Some (Ok slots).
Proof.
  intros Hsafe. revert c acc. induction n as [|n IH]; intros c acc Hc Hn; [lia|].
  destruct (Z_lt_le_dec c end_time) as [Hlt|Hge].
  - assert (Hr : dt_min <= c + interval <= dt_max) by lia.
    destruct (body_cases end_time break_start break_end interval w Hw c acc Hlt Hr)
      as [(t1 & t2 & _ & _ & Ht & Hb)|[(_ & _ & Hb)|(_ & _ & Hb)]];
      rewrite (while_continue _ _ _ _ _ Hb); apply IH; lia.
  - exists acc. apply while_return. assumption.
Qed.

(** A window shorter than one slot yields nothing. *)
Lemma while_short_window (n : nat) (c : datetime) (acc : list slot) :
  dt_min <= c + interval <= dt_max -> end_time < c + interval ->
  (2 <= n)%nat -> run n c acc = Some (Ok acc).
Proof.
  intros Hr He Hn. destruct n as [|[|n]]; try lia.
  destruct (Z_lt_le_dec c end_time) as [Hlt|Hge].
  - destruct (body_cases end_time break_start break_end interval w Hw c acc Hlt Hr)
      as [(t1 & t2 & _ & _ & Ht & Hb)|[(_ & Hle & Hb)|(_ & _ & Hb)]]; try lia;
      rewrite (while_continue _ _ _ _ _ Hb); apply while_return; lia.
  - apply while_return. assumption.
Qed.

(** [k] passes in a row that the skip rule leaves alone emit [k] tiles. *)
Lemma while_emit_run (k n : nat) (c : datetime) (acc : list slot) :
  dt_min <= c -> c + Z.of_nat k * interval <= end_time ->
  c + Z.of_nat k * interval <= dt_max ->
  (forall j : nat, (j < k)%nat -> skips w interval (c + Z.of_nat j * interval) = false) ->
  run (k + n) c acc
  = run n (c + Z.of_nat k * interval) (acc ++ tiles c interval k).
Proof.
  revert c acc. induction k as [|k IH]; intros c acc Hc He Hm Hs.
  - cbn [tiles seq map Nat.add]. rewrite app_nil_r. f_equal. lia.
  - assert (Hb : body c acc
                 = Continue (c + interval) (acc ++ [make_slot c (c + interval)])).
    { apply (body_emit end_time break_start break_end interval w Hw); try nia.
      specialize (Hs O). replace (c + Z.of_nat 0 * interval) with c in Hs by lia.
      apply Hs. lia. }
    cbn [Nat.add]. rewrite (while_continue _ _ _ _ _ Hb).
    rewrite IH; try nia.
    + rewrite tiles_succ, <- app_assoc. cbn [app]. f_equal. lia.
    + intros j Hj. specialize (Hs (S j)).
      replace (c + interval + Z.of_nat j * interval)
        with (c + Z.of_nat (S j) * interval) by lia.
      apply Hs. lia.
Qed.

End WithBreak.

End Positive.

End WhileFacts.

(** ** Outcomes of [generate_time_slots] *)

Section Outcomes.

Variables start_time end_time : string.
Variables break_start break_end : option string.
Variable interval : Z.

#[local] Abbreviation returns := (returns start_time end_time break_start break_end interval).
#[local] Abbreviation raises := (raises start_time end_time break_start break_end interval).
#[local] Abbreviation diverges := (diverges start_time end_time break_start break_end interval).

Lemma generate_parsed (fuel : nat) (s e : datetime) :
  strptime_HM start_time = Ok s -> strptime_HM end_time = Ok e ->
  generate_time_slots fuel start_time end_time break_start break_end interval
  = while e break_start break_end interval fuel s [].
Proof.
  intros Hs He. unfold generate_time_slots. rewrite Hs, He. reflexivity.
Qed.

Lemma generate_deterministic (n m : nat) (r r' : result (list slot)) :
  generate_time_slots n start_time end_time break_start break_end interval = Some r ->
  generate_time_slots m start_time end_time break_start break_end interval = Some r' ->
  r = r'.
Proof.
  unfold generate_time_slots.
  destruct (strptime_HM start_time); [|congruence].
  destruct (strptime_HM end_time); [|congruence].
  apply while_deterministic.
Qed.

Lemma returns_deterministic (l l' : list slot) : returns l -> returns l' -> l = l'.
Proof.
  intros [n H] [m H'].
  pose proof (generate_deterministic _ _ _ _ H H'). congruence.
Qed.

Lemma returns_not_raises (l : list slot) (e : exn) : returns l -> ~ raises e.
Proof.
  intros [n H] [m H'].
  pose proof (generate_deterministic _ _ _ _ H H'). discriminate.
Qed.

Lemma diverges_not_raises (e : exn) : diverges -> ~ raises e.
Proof.
  intros H [n H']. rewrite H in H'. discriminate.
Qed.

Lemma diverges_not_returns (l : list slot) : diverges -> ~ returns l.
Proof.
  intros H [n H']. rewrite H in H'. discriminate.
Qed.

End Outcomes.

Lemma break_times_none (bs be : option string) :
  truthy bs && truthy be = false -> break_times bs be = Ok None.
Proof.
  intro H. unfold break_times. destruct bs, be; try reflexivity.
  rewrite H. reflexivity.
Qed.

(** ** Termination for a positive interval (claim C10) *)

(** C10: for every interval of at least one minute, and whatever the four
    time strings are, [generate_time_slots] terminates (it returns or raises
    within some number of passes), and every pass of its loop that continues
    moves the cursor strictly forward. *)
Theorem generate_time_slots_terminates
    (start_time end_time : string) (break_start break_end : option string)
    (interval : Z) :
  1 <= interval ->
  (exists fuel r,
      generate_time_slots fuel start_time end_time break_start break_end interval
      = Some r)
  /\ (forall end_time' c acc c' acc',
         loop_body end_time' break_start break_end interval c acc = Continue c' acc' ->
         c < c').
Proof.
  intro Hpos. split.
  - unfold generate_time_slots.
    destruct (strptime_HM start_time) as [s|e]; [|exists O; eauto].
    destruct (strptime_HM end_time) as [e|e']; [|exists O; eauto].
    exists (S (Z.to_nat (e - s))).
    apply while_terminates; [assumption|lia].
  - intros e c acc c' acc'. apply body_advances. assumption.
Qed.

Lemma generate_time_slots_terminates_witness :
  (exists fuel r,
      generate_time_slots fuel "09:00" "17:00" (Some "12:50") (Some "23:10") 7 = Some r)
  /\ (forall end_time' c acc c' acc',
         loop_body end_time' (Some "12:50") (Some "23:10") 7 c acc = Continue c' acc' ->
         c < c').
Proof.
  apply (generate_time_slots_terminates "09:00" "17:00" (Some "12:50") (Some "23:10") 7).
  lia.
Defined.

(** ** Empty windows (claim C6) *)

(** C6, the claim as stated fails: the window 09:00-10:00 is shorter than a
    slot of 5000000000 minutes, and the call raises OverflowError instead of
    returning the empty list. *)
Lemma empty_window_overflow_counterexample :
  600 - 540 < 5000000000
  /\ raises "09:00" "10:00" None None 5000000000 OverflowError
  /\ ~ returns "09:00" "10:00" None None 5000000000 [].
Proof.
  assert (H : raises "09:00" "10:00" None None 5000000000 OverflowError)
    by (exists 1%nat; reflexivity).
  repeat split; [assumption|].
  intro Hr. exact (returns_not_raises _ _ _ _ _ _ _ Hr H).
Qed.

(** C6, amended: [generate_time_slots] returns the empty list whenever
    start >= end (whatever the break strings and the interval are), and
    whenever end - start is less than a positive interval, for any break pair
    that parses or is absent, provided start + interval is a representable
    datetime (at most [dt_max]). *)
Theorem generate_time_slots_empty_window
    (start_time end_time : string) (break_start break_end : option string)
    (interval : Z) (s e : datetime) :
  strptime_HM start_time = Ok s -> strptime_HM end_time = Ok e ->
  (e <= s -> returns start_time end_time break_start break_end interval [])
  /\ (forall w, break_times break_start break_end = Ok w ->
      1 <= interval -> e - s < interval -> s + interval <= dt_max ->
      returns start_time end_time break_start break_end interval []).
Proof.
  intros Hs He. split.
  - intro Hle. exists 1%nat. rewrite (generate_parsed _ _ _ _ _ _ s e Hs He).
    apply while_return. assumption.
  - intros w Hw Hpos Hshort Hmax. exists 2%nat.
    rewrite (generate_parsed _ _ _ _ _ _ s e Hs He).
    apply strptime_HM_range in Hs.
    apply (while_short_window _ _ _ _ w Hw); try lia.
    rewrite dt_min_value. lia.
Qed.

Lemma generate_time_slots_empty_window_witness :
  returns "10:00" "09:00" (Some "x") (Some "y") 0 []
  /\ returns "09:00" "09:10" (Some "09:00") (Some "09:30") 15 [].
Proof.
  split.
  - apply (proj1 (generate_time_slots_empty_window
                    "10:00" "09:00" (Some "x") (Some "y") 0 600 540 eq_refl eq_refl)).
    lia.
  - apply (proj2 (generate_time_slots_empty_window
                    "09:00" "09:10" (Some "09:00") (Some "09:30") 15 540 550
                    eq_refl eq_refl) (Some (540, 570)) eq_refl).
    + lia.
    + lia.
    + rewrite dt_max_value. lia.
Defined.

(** ** Tiling without a break (claim C4) *)

(** C4, the claim as stated fails: with no break and the positive interval
    4260188160 the window 08:00-17:00 should give floor(540/4260188160) = 0
    slots, and the call raises OverflowError. *)
Lemma tiling_overflow_counterexample :
  480 < 1020 /\ 0 < 4260188160
  /\ raises "08:00" "17:00" None None 4260188160 OverflowError
  /\ ~ returns "08:00" "17:00" None None 4260188160
         (tiles 480 4260188160 (Z.to_nat ((1020 - 480) / 4260188160))).
Proof.
  assert (H : raises "08:00" "17:00" None None 4260188160 OverflowError)
    by (exists 1%nat; reflexivity).
  repeat split; try lia; [assumption|].
  intro Hr. exact (returns_not_raises _ _ _ _ _ _ _ Hr H).
Qed.

(** C4, amended: for start < end, no break configured and a positive interval
    d with start + d a representable datetime (at most [dt_max]),
    [generate_time_slots] returns exactly floor((end - start) / d) slots and
    the i-th of them is the slot from start + i*d to start + (i+1)*d, so that
    consecutive slots share their boundary. *)
Theorem generate_time_slots_tiling
    (start_time end_time : string) (break_start break_end : option string)
    (interval : Z) (s e : datetime) :
  strptime_HM start_time = Ok s -> strptime_HM end_time = Ok e ->
  truthy break_start && truthy break_end = false ->
  s < e -> 1 <= interval -> s + interval <= dt_max ->
  exists slots,
    returns start_time end_time break_start break_end interval slots
    /\ Z.of_nat (length slots) = (e - s) / interval
    /\ forall i : nat, (i < length slots)%nat ->
         nth_error slots i
         = Some (make_slot (s + Z.of_nat i * interval) (s + (Z.of_nat i + 1) * interval)).
Proof.
  intros Hs He Hnb Hlt Hpos Hmax.
  set (k := Z.to_nat ((e - s) / interval)).
  assert (Hq : 0 <= (e - s) / interval) by (apply Z.div_pos; lia).
  assert (Hk : Z.of_nat k = (e - s) / interval) by (unfold k; lia).
  assert (Hlo : Z.of_nat k * interval <= e - s).
  { rewrite Hk, Z.mul_comm. apply Z.mul_div_le. lia. }
  assert (Hhi : e - s < (Z.of_nat k + 1) * interval).
  { rewrite Hk, Z.mul_comm. apply Z.mul_succ_div_gt. lia. }
  pose proof (strptime_HM_range _ _ Hs) as Rs.
  pose proof (strptime_HM_range _ _ He) as Re.
  pose proof dt_min_value as Hmin. pose proof dt_max_value as Hmx.
  exists (tiles s interval k). split; [|split].
  - exists (k + 2)%nat. rewrite (generate_parsed _ _ _ _ _ _ s e Hs He).
    rewrite (while_emit_run _ _ _ _ Hpos None (break_times_none _ _ Hnb)); try lia.
    + cbn [app]. apply (while_short_window _ _ _ _ None (break_times_none _ _ Hnb));
        try lia.
      destruct (Z.eq_dec (Z.of_nat k) 0) as [H0|H0]; [rewrite H0; lia|nia].
    + reflexivity.
  - rewrite tiles_length. assumption.
  - intros i Hi. rewrite tiles_length in Hi. apply tiles_nth. assumption.
Qed.

Lemma generate_time_slots_tiling_witness :
  exists slots,
    returns "09:00" "10:00" None (Some "09:30") 25 slots
    /\ Z.of_nat (length slots) = (600 - 540) / 25
    /\ forall i : nat, (i < length slots)%nat ->
         nth_error slots i
         = Some (make_slot (540 + Z.of_nat i * 25) (540 + (Z.of_nat i + 1) * 25)).
Proof.
  apply (generate_time_slots_tiling "09:00" "10:00" None (Some "09:30") 25 540 600
           eq_refl eq_refl eq_refl).
  - lia.
  - lia.
  - rewrite dt_max_value. lia.
Defined.

(** ** Reading back a formatted time of day *)

Lemma reads_back_day : forallb reads_back (seq 0 1440) = true.
Proof. vm_compute. reflexivity. Qed.

(** ['%H:%M'] printed and parsed again gives the minute of the day back. *)
Lemma strptime_strftime_HM (t : datetime) :
  0 <= t < 1440 -> strptime_HM (strftime_HM t) = Ok t.
Proof.
  intro H. pose proof reads_back_day as Hall.
  rewrite forallb_forall in Hall. specialize (Hall (Z.to_nat t)).
  unfold reads_back in Hall. rewrite Z2Nat.id in Hall by lia.
  destruct (strptime_HM (strftime_HM t)) as [t'|].
  - f_equal. apply Z.eqb_eq. apply Hall. apply in_seq. lia.
  - discriminate Hall. apply in_seq. lia.
Qed.

(** ** A break aligned to the slot grid (claim C5) *)

Section LoopContinue.

Variable end_time : datetime.
Variables break_start break_end : option string.
Variable interval : Z.

Lemma body_continue_inv (c c' : datetime) (acc acc' : list slot) :
  loop_body end_time break_start break_end interval c acc = Continue c' acc' ->
  c < end_time /\ dt_min <= c + interval <= dt_max.
Proof.
  unfold loop_body. destruct (Z.ltb_spec c end_time); [|discriminate].
  destruct (add_minutes c interval) as [se|] eqn:Ea; [|discriminate].
  apply add_minutes_ok in Ea. intros _. lia.
Qed.

End LoopContinue.

Lemma aligned_invariant (e : datetime) (break_start break_end : option string)
    (d s bs be : datetime) :
  break_times break_start break_end = Ok (Some (bs, be)) ->
  1 <= d -> 0 <= s -> e < 1440 -> (d | bs - s) -> (d | be - s) ->
  forall c acc c' acc',
    (s <= c /\ (d | c - s) /\ Forall (outside_break bs be) acc) ->
    loop_body e break_start break_end d c acc = Continue c' acc' ->
    s <= c' /\ (d | c' - s) /\ Forall (outside_break bs be) acc'.
Proof.
  intros Hw Hpos Hs0 He Hd1 Hd2 c acc c' acc' (Hsc & Hdc & Hacc) Hb.
  destruct (body_continue_inv _ _ _ _ _ _ _ _ Hb) as [Hlt Hr].
  destruct (body_cases e break_start break_end d _ Hw c acc Hlt Hr)
    as [(t1 & t2 & Ew & H1 & H2 & Hb')|[(Hsk & Hle & Hb')|(Hsk & Hgt & Hb')]];
    rewrite Hb' in Hb; injection Hb as <- <-.
  - injection Ew as <- <-. repeat split; [lia|assumption|assumption].
  - repeat split; [lia| |].
    + replace (c + d - s) with (c - s + d) by lia.
      apply Z.divide_add_r; [assumption|apply Z.divide_refl].
    + apply Forall_app. split; [assumption|].
      constructor; [|constructor].
      exists c. repeat split; try lia.
      intros [Hlo Hhi]. apply skips_false in Hsk.
      assert (Hdiv : (d | be - c)).
      { replace (be - c) with ((be - s) - (c - s)) by lia.
        apply Z.divide_sub_r; assumption. }
      apply Z.divide_pos_le in Hdiv; lia.
  - repeat split; [lia| |assumption].
    replace (c + d - s) with (c - s + d) by lia.
    apply Z.divide_add_r; [assumption|apply Z.divide_refl].
Qed.

(** A positive interval with a break pair that parses: the call returns a
    list unless the very first addition overflows. *)
Lemma generate_returns_unless_overflow
    (start_time end_time : string) (break_start break_end : option string)
    (interval : Z) (s e : datetime) (w : option (datetime * datetime)) :
  strptime_HM start_time = Ok s -> strptime_HM end_time = Ok e ->
  break_times break_start break_end = Ok w ->
  1 <= interval -> (s < e -> s + interval <= dt_max) ->
  exists slots, returns start_time end_time break_start break_end interval slots.
Proof.
  intros Hs He Hw Hpos Hmax.
  pose proof (strptime_HM_range _ _ Hs) as Rs.
  pose proof (strptime_HM_range _ _ He) as Re.
  pose proof dt_min_value as Hmin. pose proof dt_max_value as Hmx.
  unfold returns.
  destruct (Z_lt_le_dec (e - s) interval) as [Hshort|Hlong].
  - destruct (Z_lt_le_dec s e) as [Hlt|Hge].
    + exists [], 2%nat. rewrite (generate_parsed _ _ _ _ _ _ s e Hs He).
      apply (while_short_window _ _ _ _ w Hw); lia.
    + exists [], 1%nat. rewrite (generate_parsed _ _ _ _ _ _ s e Hs He).
      apply while_return. assumption.
  - destruct (while_safe_returns e break_start break_end interval Hpos w Hw
                (S (Z.to_nat (e - s))) s []) as [slots Hslots]; try lia.
    exists slots, (S (Z.to_nat (e - s))).
    rewrite (generate_parsed _ _ _ _ _ _ s e Hs He). assumption.
Qed.

(** C5: when the break start and the break end both lie a whole number of
    intervals away from the window start, [generate_time_slots] terminates,
    it returns a list whenever start + interval is a representable datetime,
    and no slot of a returned list has its start time in
    [breakStart, breakEnd). *)
Theorem aligned_break_has_no_slot_start
    (start_time end_time bs_str be_str : string) (interval : Z)
    (s e bs be : datetime) :
  strptime_HM start_time = Ok s -> strptime_HM end_time = Ok e ->
  strptime_HM bs_str = Ok bs -> strptime_HM be_str = Ok be ->
  1 <= interval -> (interval | bs - s) -> (interval | be - s) ->
  exists fuel r,
    generate_time_slots fuel start_time end_time (Some bs_str) (Some be_str) interval
    = Some r
    /\ (s + interval <= dt_max -> exists slots, r = Ok slots)
    /\ forall slots sl,
         r = Ok slots -> In sl slots ->
         exists c, strptime_HM (start sl) = Ok c /\ ~ (bs <= c < be).
Proof.
  intros Hs He Hbs Hbe Hpos Hd1 Hd2.
  pose proof (break_times_parsed _ _ _ _ Hbs Hbe) as Hw.
  pose proof (strptime_HM_range _ _ Hs) as Rs.
  pose proof (strptime_HM_range _ _ He) as Re.
  destruct (while_terminates e (Some bs_str) (Some be_str) interval Hpos
              (S (Z.to_nat (e - s))) s []) as [r Hr]; [lia|].
  exists (S (Z.to_nat (e - s))), r.
  rewrite (generate_parsed _ _ _ _ _ _ s e Hs He). split; [assumption|split].
  - intro Hmax.
    destruct (generate_returns_unless_overflow start_time end_time
                (Some bs_str) (Some be_str) interval s e _ Hs He Hw Hpos)
      as [slots [n Hn]]; [auto|].
    rewrite (generate_parsed _ _ _ _ _ _ s e Hs He) in Hn.
    exists slots. exact (while_deterministic _ _ _ _ _ _ _ _ _ _ Hr Hn).
  - intros slots sl -> Hin.
    destruct (while_invariant e (Some bs_str) (Some be_str) interval
                (fun c acc => s <= c /\ (interval | c - s)
                              /\ Forall (outside_break bs be) acc)
                (aligned_invariant e _ _ interval s bs be Hw Hpos
                   (proj1 Rs) (proj2 Re) Hd1 Hd2)
                (S (Z.to_nat (e - s))) s [] slots) as (c' & (_ & _ & Hall) & _).
    + repeat split; [lia| |constructor].
      replace (s - s) with 0 by lia. apply Z.divide_0_r.
    + assumption.
    + rewrite Forall_forall in Hall. destruct (Hall sl Hin) as (t & Et & Rt & Hout).
      exists t. split; [|assumption]. rewrite Et. apply strptime_strftime_HM. assumption.
Qed.

Lemma aligned_break_has_no_slot_start_witness :
  exists fuel r,
    generate_time_slots fuel "09:00" "12:00" (Some "10:30") (Some "11:00") 15 = Some r
    /\ (540 + 15 <= dt_max -> exists slots, r = Ok slots)
    /\ forall slots sl,
         r = Ok slots -> In sl slots ->
         exists c, strptime_HM (start sl) = Ok c /\ ~ (630 <= c < 660).
Proof.
  apply (aligned_break_has_no_slot_start "09:00" "12:00" "10:30" "11:00" 15
           540 720 630 660 eq_refl eq_refl eq_refl eq_refl).
  - lia.
  - exists 6. reflexivity.
  - exists 8. reflexivity.
Defined.

(** ** A slot that straddles the start of the break (claim C1) *)

(** C1, the claim as stated fails: in the window 09:00-12:00 with the break
    10:20-11:00 and 15-minute slots, the slot 10:15-10:30 starts before the
    break, ends inside it, and is in the list returned. *)
Lemma straddling_slot_counterexample :
  exists slots,
    returns "09:00" "12:00" (Some "10:20") (Some "11:00") 15 slots
    /\ In {| start := "10:15"; end_ := "10:30";
             display_start := "10:15 am"; display_end := "10:30 am" |} slots
    /\ strptime_HM "10:15" = Ok 615 /\ strptime_HM "10:30" = Ok 630
    /\ strptime_HM "10:20" = Ok 620 /\ strptime_HM "11:00" = Ok 660
    /\ 615 < 620 /\ 620 < 630 <= 660.
Proof.
  eexists. split; [exists 20%nat; vm_compute; reflexivity|].
  split; [cbn; tauto|].
  repeat split; reflexivity || lia.
Qed.

(** C1, amended: with a break pair and a positive interval, a candidate slot
    on the grid of the window start that starts strictly before breakStart and
    ends after breakStart and at or before breakEnd does not trigger the
    break-skip rule, and when it ends at or before the window end it is
    emitted: it is in the list returned. *)
Theorem straddling_slot_is_emitted
    (start_time end_time bs_str be_str : string) (interval : Z)
    (s e bs be : datetime) (k : nat) :
  strptime_HM start_time = Ok s -> strptime_HM end_time = Ok e ->
  strptime_HM bs_str = Ok bs -> strptime_HM be_str = Ok be ->
  1 <= interval ->
  s + Z.of_nat k * interval < bs ->
  bs < s + Z.of_nat k * interval + interval <= be ->
  s + Z.of_nat k * interval + interval <= e ->
  skips (Some (bs, be)) interval (s + Z.of_nat k * interval) = false
  /\ exists slots,
       returns start_time end_time (Some bs_str) (Some be_str) interval slots
       /\ In (make_slot (s + Z.of_nat k * interval)
                        (s + Z.of_nat k * interval + interval)) slots.
Proof.
  intros Hs He Hbs Hbe Hpos Hbefore Hinside Hend.
  pose proof (break_times_parsed _ _ _ _ Hbs Hbe) as Hw.
  pose proof (strptime_HM_range _ _ Hs) as Rs.
  pose proof (strptime_HM_range _ _ He) as Re.
  pose proof dt_min_value as Hmin. pose proof dt_max_value as Hmx.
  set (c := s + Z.of_nat k * interval) in *.
  assert (Hsk : forall x, x <= c -> skips (Some (bs, be)) interval x = false).
  { intros x Hx. unfold skips. destruct (Z.leb_spec bs x); [lia|reflexivity]. }
  assert (Hc : s <= c) by (unfold c; nia).
  split; [apply Hsk; lia|].
  set (acc := tiles s interval k ++ [make_slot c (c + interval)]).
  destruct (while_safe_returns e (Some bs_str) (Some be_str) interval Hpos _ Hw
              (S (Z.to_nat (e - (c + interval)))) (c + interval) acc)
    as [slots Hslots]; try lia.
  exists slots. split.
  - exists (k + S (S (Z.to_nat (e - (c + interval)))))%nat.
    rewrite (generate_parsed _ _ _ _ _ _ s e Hs He).
    rewrite (while_emit_run _ _ _ _ Hpos _ Hw); try (fold c; lia).
    + fold c. cbn [app].
      rewrite (while_continue _ _ _ _ _ c (c + interval) (tiles s interval k) acc);
        [assumption|].
      apply (body_emit _ _ _ _ _ Hw); try lia. apply Hsk. lia.
    + intros j Hj. apply Hsk. unfold c. nia.
  - destruct (while_prefix _ _ _ _ _ _ _ _ Hslots) as [more ->].
    unfold acc. apply in_or_app. left. apply in_or_app. right. left. reflexivity.
Qed.

Lemma straddling_slot_is_emitted_witness :
  skips (Some (620, 660)) 15 (540 + Z.of_nat 5 * 15) = false
  /\ exists slots,
       returns "09:00" "12:00" (Some "10:20") (Some "11:00") 15 slots
       /\ In (make_slot (540 + Z.of_nat 5 * 15) (540 + Z.of_nat 5 * 15 + 15)) slots.
Proof.
  apply (straddling_slot_is_emitted "09:00" "12:00" "10:20" "11:00" 15
           540 720 620 660 5 eq_refl eq_refl eq_refl eq_refl); cbn; lia.
Defined.

(** ** The scenario 09:00-12:00 with the break 10:30-11:00 (claim C2) *)

(** C2, the claim as stated fails: the call returns ten slots, not nine, and
    the slot 10:15-10:30 is one of them. *)
Lemma scenario_nine_slots_counterexample :
  exists slots,
    returns "09:00" "12:00" (Some "10:30") (Some "11:00") 15 slots
    /\ length slots = 10%nat /\ length slots <> 9%nat
    /\ In {| start := "10:15"; end_ := "10:30";
             display_start := "10:15 am"; display_end := "10:30 am" |} slots.
Proof.
  eexists. split; [exists 20%nat; vm_compute; reflexivity|].
  split; [reflexivity|]. split; [discriminate|]. cbn. tauto.
Qed.

(** C2, amended: for the window 09:00-12:00 with the break 10:30-11:00 and
    15-minute slots, [generate_time_slots] returns exactly 10 slots: the six
    that start at 09:00, 09:15, 09:30, 09:45, 10:00 and 10:15, then the four
    that start at 11:00, 11:15, 11:30 and 11:45; the slot 10:15-10:30, which
    ends where the break starts, is emitted. *)
Theorem scenario_ten_slots :
  exists slots,
    returns "09:00" "12:00" (Some "10:30") (Some "11:00") 15 slots
    /\ length slots = 10%nat
    /\ slots = tiles 540 15 6 ++ tiles 660 15 4
    /\ map start slots
       = ["09:00"; "09:15"; "09:30"; "09:45"; "10:00"; "10:15";
          "11:00"; "11:15"; "11:30"; "11:45"]
    /\ map end_ slots
       = ["09:15"; "09:30"; "09:45"; "10:00"; "10:15"; "10:30";
          "11:15"; "11:30"; "11:45"; "12:00"].
Proof.
  eexists. split; [exists 12%nat; vm_compute; reflexivity|].
  repeat split.
Qed.

(** ** A non-positive interval (claim C3) *)

Section NonPositive.

Variable end_time : datetime.
Variables break_start break_end : option string.
Hypothesis Hnb : truthy break_start && truthy break_end = false.

(** With the interval 0 the cursor stays where it is. *)
Lemma zero_interval_loops (n : nat) (c : datetime) (acc : list slot) :
  c < end_time -> dt_min <= c <= dt_max ->
  while end_time break_start break_end 0 n c acc = None.
Proof.
  intros Hlt Hr. revert acc. induction n as [|n IH]; intro acc; [reflexivity|].
  rewrite (while_continue _ _ _ _ _ c (c + 0) acc (acc ++ [make_slot c (c + 0)])).
  - replace (c + 0) with c by lia. apply IH.
  - apply (body_emit _ _ _ _ None (break_times_none _ _ Hnb)); try lia. reflexivity.
Qed.

(** With a negative interval the cursor walks back until the datetime
    arithmetic gives up. *)
Lemma negative_interval_overflows (interval : Z) (n : nat) (c : datetime)
    (acc : list slot) :
  interval < 0 -> c < end_time -> dt_min <= c <= dt_max ->
  (Z.to_nat (c - dt_min) < n)%nat ->
  while end_time break_start break_end interval n c acc = Some (Raise OverflowError).
Proof.
  intro Hneg. revert c acc. induction n as [|n IH]; intros c acc Hlt Hr Hn; [lia|].
  destruct (Z_lt_le_dec (c + interval) dt_min) as [Hov|Hin].
  - cbn [while]. rewrite body_overflow by auto. reflexivity.
  - rewrite (while_continue _ _ _ _ _ c (c + interval) acc
               (acc ++ [make_slot c (c + interval)])).
    + apply IH; lia.
    + apply (body_emit _ _ _ _ None (break_times_none _ _ Hnb)); try lia. reflexivity.
Qed.

End NonPositive.

(** C3, the claim as stated fails: with the interval 0 the call on the window
    09:00-10:00 raises nothing; its loop never ends. *)
Lemma zero_interval_counterexample :
  strptime_HM "09:00" = Ok 540 /\ strptime_HM "10:00" = Ok 600 /\ 540 < 600
  /\ diverges "09:00" "10:00" None None 0
  /\ forall e, ~ raises "09:00" "10:00" None None 0 e.
Proof.
  assert (H : diverges "09:00" "10:00" None None 0).
  { intro fuel.
    rewrite (generate_parsed "09:00" "10:00" None None 0 fuel 540 600 eq_refl eq_refl).
    apply zero_interval_loops; [reflexivity|lia|]. rewrite dt_min_value, dt_max_value. lia. }
  repeat split; try reflexivity; [assumption|].
  intro e. apply diverges_not_raises. assumption.
Qed.

(** C3, amended: for start < end and no break configured, a negative interval
    makes [generate_time_slots] terminate with the OverflowError of the
    datetime arithmetic (the cursor walks back to datetime.min; no check of
    the interval exists), and the interval 0 makes it loop forever. *)
Theorem nonpositive_interval_outcome
    (start_time end_time : string) (break_start break_end : option string)
    (interval : Z) (s e : datetime) :
  strptime_HM start_time = Ok s -> strptime_HM end_time = Ok e ->
  truthy break_start && truthy break_end = false ->
  s < e -> interval <= 0 ->
  (interval < 0 -> raises start_time end_time break_start break_end interval OverflowError)
  /\ (interval = 0 -> diverges start_time end_time break_start break_end interval).
Proof.
  intros Hs He Hnb Hlt Hle.
  pose proof (strptime_HM_range _ _ Hs) as Rs.
  pose proof dt_min_value as Hmin. pose proof dt_max_value as Hmx.
  split.
  - intro Hneg. exists (S (Z.to_nat (s - dt_min))).
    rewrite (generate_parsed _ _ _ _ _ _ s e Hs He).
    apply negative_interval_overflows; auto; lia.
  - intros -> fuel. rewrite (generate_parsed _ _ _ _ _ _ s e Hs He).
    apply zero_interval_loops; auto; lia.
Qed.

Lemma nonpositive_interval_outcome_witness :
  raises "09:00" "10:00" None None (-15) OverflowError
  /\ diverges "09:00" "10:00" None None 0.
Proof.
  split.
  - apply (proj1 (nonpositive_interval_outcome "09:00" "10:00" None None (-15) 540 600
                    eq_refl eq_refl eq_refl eq_refl ltac:(lia))).
    lia.
  - apply (proj2 (nonpositive_interval_outcome "09:00" "10:00" None None 0 540 600
                    eq_refl eq_refl eq_refl eq_refl ltac:(lia))).
    reflexivity.
Defined.

(** * [get_doctor_slots] *)

(** The view always calls the generator with the default interval of 15
    minutes, for which 1440 tests of the loop condition are enough. *)
Lemma generate_default_total (fuel : nat) (start_time end_time : string)
    (break_start break_end : option string) :
  (1440 <= fuel)%nat ->
  exists r,
    generate_time_slots fuel start_time end_time break_start break_end 15 = Some r.
Proof.
  intro Hf. unfold generate_time_slots.
  destruct (strptime_HM start_time) as [s|] eqn:Hs; [|eauto].
  destruct (strptime_HM end_time) as [e|] eqn:He; [|eauto].
  apply strptime_HM_range in Hs, He.
  apply while_terminates; lia.
Qed.

Lemma generate_default_returns (fuel : nat) (start_time end_time : string)
    (break_start break_end : option string) (slots : list slot) :
  (1440 <= fuel)%nat ->
  returns start_time end_time break_start break_end 15 slots ->
  generate_time_slots fuel start_time end_time break_start break_end 15 = Some (Ok slots).
Proof.
  intros Hf [n Hn].
  destruct (generate_default_total fuel start_time end_time break_start break_end Hf)
    as [r Hr].
  rewrite Hr. f_equal. exact (generate_deterministic _ _ _ _ _ _ _ _ _ Hr Hn).
Qed.



Section ViewFacts.

Variable fuel : nat.
Variable sess : session.
Variable doctor_id : Z.
Variable date : string.

Lemma view_authenticated (db : result connection) :
  authenticated sess ->
  get_doctor_slots fuel sess doctor_id date db
  = match strptime_Ymd_weekday date with
    | Raise _ => Some (Ok {| json := Error "Invalid date format"; status_code := 400 |})
    | Ok day =>
        match db with
        | Raise e => Some (Raise e)
        | Ok conn => except_exception (try_body fuel sess doctor_id date conn day)
        end
    end.
Proof.
  intros [[uid Hu] Ht]. unfold get_doctor_slots. rewrite Hu, Ht. reflexivity.
Qed.


(** The body of the [try] when the working window is found and the
    generator returns. *)
Lemma try_body_window (conn : connection) (day : string) (hospital : Z)
    (rows : list DoctorSlots.row) (slot_info : DoctorSlots.row)
    (slots : list slot) :
  (1440 <= fuel)%nat ->
  hospital_id sess = Some hospital ->
  doctor_slots conn = Rows rows ->
  binds [doctor_id; hospital] = true ->
  hd_error (filter (slot_info_where doctor_id day hospital) rows) = Some slot_info ->
  returns (DoctorSlots.start_time slot_info) (DoctorSlots.end_time slot_info)
          (DoctorSlots.break_start slot_info) (DoctorSlots.break_end slot_info) 15
          slots ->
  try_body fuel sess doctor_id date conn day
  = Some (bind (select (appointments conn) [doctor_id; hospital]
                  (booked_where doctor_id date hospital))
            (fun booked_slots =>
               Ok {| json := SlotList slots (map Appointments.time_slot booked_slots);
                     status_code := 200 |})).
Proof.
  intros Hf Hh Hrows Hb Hhd Hret. unfold try_body. rewrite Hh, Hrows.
  cbn [getitem]. unfold select at 1. rewrite Hb.
  destruct (filter _ rows) as [|r rest]; [discriminate|].
  injection Hhd as ->. unfold slots_response.
  rewrite (generate_default_returns _ _ _ _ _ _ Hf Hret). reflexivity.
Qed.

End ViewFacts.

Lemma admin_session_authenticated : authenticated admin_session.
Proof. split; [exists 1|]; reflexivity. Defined.

(** ** Slots and booked slots (claim C7) *)




(** ** Status codes (claim C8) *)




(** An appointment whose status is NULL is not booked; the largest integer
    of SQLite is bound, and the doctor is not available. *)
Example get_doctor_slots_on_known_values :
  get_doctor_slots 1440 admin_session 7 "2024-01-01"
    (Ok {| doctor_slots := Rows [monday_window];
           appointments := Rows [appointment 7 "09:00" None 1;
                                 appointment 7 "09:15" (Some "Completed") 1] |})
  = Some (Ok {| json := SlotList (tiles 540 15 4) ["09:15"]; status_code := 200 |})
  /\ get_doctor_slots 1440 admin_session 9223372036854775807 "2024-01-01"
       (Ok example_connection)
     = Some (Ok {| json := Error "Doctor not available on this day";
                   status_code := 200 |}).
Proof. split; reflexivity. Qed.

(** ** Tenant isolation (claim C9) *)

Lemma filter_within {A : Type} (p q : A -> bool) (l : list A) :
  (forall x, p x = true -> q x = true) -> filter p (filter q l) = filter p l.
Proof.
  intro Himp. induction l as [|x l IH]; [reflexivity|].
  cbn [filter]. destruct (q x) eqn:Hq.
  - cbn [filter]. rewrite IH. reflexivity.
  - destruct (p x) eqn:Hp; [|assumption].
    apply Himp in Hp. congruence.
Qed.

(** A query scoped by a hospital sees two tables alike when their rows of
    that hospital are the same. *)
Lemma filter_same_tenant {A : Type} (p q : A -> bool) (l1 l2 : list A) :
  (forall x, p x = true -> q x = true) ->
  filter q l1 = filter q l2 -> filter p l1 = filter p l2.
Proof.
  intros Himp Heq.
  rewrite <- (filter_within p q l1 Himp), <- (filter_within p q l2 Himp), Heq.
  reflexivity.
Qed.

(** C9: for a session bound to the hospital H, two databases whose
    [doctor_slots] rows of H and whose [appointments] rows of H are the same
    give the same response: rows of other hospitals, added, removed or
    changed, do not show in it. *)
Theorem get_doctor_slots_tenant_isolation
    (fuel : nat) (sess : session) (doctor_id : Z) (date : string) (hospital : Z)
    (rows1 rows2 : list DoctorSlots.row) (appts1 appts2 : list Appointments.row) :
  hospital_id sess = Some hospital ->
  slots_of_hospital hospital rows1 = slots_of_hospital hospital rows2 ->
  appointments_of_hospital hospital appts1 = appointments_of_hospital hospital appts2 ->
  get_doctor_slots fuel sess doctor_id date
    (Ok {| doctor_slots := Rows rows1; appointments := Rows appts1 |})
  = get_doctor_slots fuel sess doctor_id date
      (Ok {| doctor_slots := Rows rows2; appointments := Rows appts2 |}).
Proof.
  intros Hh Hrows Happts. unfold get_doctor_slots.
  destruct (user_id sess); [|reflexivity].
  destruct (getitem (user_type sess)) as [ut|]; [|reflexivity].
  destruct (negb (String.eqb ut "admin")); [reflexivity|].
  destruct (strptime_Ymd_weekday date) as [day|]; [|reflexivity].
  f_equal. unfold try_body. rewrite Hh. cbn [getitem doctor_slots].
  unfold select at 1 2.
  destruct (binds [doctor_id; hospital]) eqn:Hb; [|reflexivity].
  rewrite (filter_same_tenant (slot_info_where doctor_id day hospital)
             (fun r => DoctorSlots.hospital_id r =? hospital) rows1 rows2).
  - destruct (filter _ rows2) as [|slot_info rest]; [reflexivity|].
    unfold slots_response, select. cbn [appointments]. rewrite Hb.
    rewrite (filter_same_tenant (booked_where doctor_id date hospital)
               (fun a => Appointments.hospital_id a =? hospital) appts1 appts2).
    + reflexivity.
    + intros a Ha. unfold booked_where in Ha. apply andb_true_iff in Ha. apply Ha.
    + exact Happts.
  - intros r Hr. unfold slot_info_where in Hr. apply andb_true_iff in Hr. apply Hr.
  - exact Hrows.
Qed.

Lemma get_doctor_slots_tenant_isolation_witness :
  get_doctor_slots 1440 admin_session 7 "2024-01-01"
    (Ok {| doctor_slots := Rows [other_hospital_window; monday_window; broken_window];
           appointments := Rows example_appointments |})
  = get_doctor_slots 1440 admin_session 7 "2024-01-01"
      (Ok {| doctor_slots := Rows [monday_window; broken_window];
             appointments := Rows [ appointment 7 "08:00" (Some "Scheduled") 3;
                                    appointment 7 "09:30" (Some "Scheduled") 1;
                                    appointment 7 "09:45" (Some "Cancelled") 1 ] |}).
Proof.
  apply (get_doctor_slots_tenant_isolation 1440 admin_session 7 "2024-01-01" 1);
    reflexivity.
Defined.

(** * More of [generate_time_slots] *)

(** ** The shape of every returned list *)

Lemma spaced_snoc (d c : Z) (cs : list Z) :
  spaced d cs -> Forall (fun x => x + d <= c) cs -> spaced d (cs ++ [c]).
Proof.
  induction cs as [|c1 [|c2 cs] IH]; intros Hsp Hall.
  - exact I.
  - cbn. inversion Hall; subst. auto.
  - destruct Hsp as [H12 Hsp]. inversion Hall; subst.
    change ((c1 :: c2 :: cs) ++ [c]) with (c1 :: ((c2 :: cs) ++ [c])).
    cbn [app spaced]. split; [assumption|]. apply IH; assumption.
Qed.

Lemma spaced_head_lt (d c : Z) (cs : list Z) :
  1 <= d -> spaced d (c :: cs) -> Forall (fun x => c < x) cs.
Proof.
  intro Hd. revert c. induction cs as [|c2 cs IH]; intros c Hsp; [constructor|].
  destruct Hsp as [H12 Hsp]. constructor; [lia|].
  apply IH in Hsp. eapply Forall_impl; [|exact Hsp]. cbn. intros x Hx. lia.
Qed.

Lemma spaced_tail (d c : Z) (cs : list Z) : spaced d (c :: cs) -> spaced d cs.
Proof.
  destruct cs as [|c2 cs]; [intros _; exact I|]. intros [_ H]. exact H.
Qed.

Lemma spaced_NoDup (d : Z) (cs : list Z) : 1 <= d -> spaced d cs -> NoDup cs.
Proof.
  intro Hd. induction cs as [|c cs IH]; intro Hsp; [constructor|].
  constructor.
  - intro Hin. pose proof (spaced_head_lt d c cs Hd Hsp) as Hlt.
    rewrite Forall_forall in Hlt. specialize (Hlt c Hin). lia.
  - apply IH. exact (spaced_tail d c cs Hsp).
Qed.

(** One pass that continues either jumps over the candidate without
    emitting, or emits it and moves to its end. *)
Lemma body_continue_cases (e : datetime) (break_start break_end : option string)
    (d c c' : Z) (acc acc' : list slot) :
  loop_body e break_start break_end d c acc = Continue c' acc' ->
  c < e
  /\ ((c + d <= c' /\ acc' = acc)
      \/ (c' = c + d /\ c + d <= e /\ acc' = acc ++ [make_slot c (c + d)]
          /\ break_skip break_start break_end c (c + d) = Ok None)).
Proof.
  unfold loop_body. destruct (Z.ltb_spec c e) as [Hlt|]; [|discriminate].
  destruct (add_minutes c d) as [se|] eqn:Ea; [|discriminate].
  apply add_minutes_ok in Ea. destruct Ea as [-> _].
  destruct (break_skip _ _ _ _) as [[t|]|] eqn:Eb; try discriminate.
  - apply break_skip_target in Eb. intros [= <- <-]. auto.
  - destruct (Z.leb_spec (c + d) e); intros [= <- <-]; split; auto.
    left. split; [lia|reflexivity].
Qed.

Lemma emitted_so_far_preserved (s e d : Z) (break_start break_end : option string) :
  1 <= d ->
  forall c acc c' acc',
    emitted_so_far s e d (break_times break_start break_end) c acc ->
    loop_body e break_start break_end d c acc = Continue c' acc' ->
    emitted_so_far s e d (break_times break_start break_end) c' acc'.
Proof.
  intros Hd c acc c' acc' (Hsc & cs & -> & Hall & Hsp & Hbr) Hb.
  apply body_continue_cases in Hb.
  destruct Hb as [Hlt [[Hjump ->]|(-> & Hle & -> & Hskip)]].
  - split; [lia|]. exists cs. repeat split; auto.
    eapply Forall_impl; [|exact Hall]. cbn. intros x Hx. lia.
  - split; [lia|]. exists (cs ++ [c]). repeat split.
    + unfold slots_at. rewrite map_app. reflexivity.
    + apply Forall_app. split.
      * eapply Forall_impl; [|exact Hall]. cbn. intros x Hx. lia.
      * constructor; [lia|constructor].
    + apply spaced_snoc; [assumption|].
      eapply Forall_impl; [|exact Hall]. cbn. intros x Hx. lia.
    + intros bs be Hw. apply Forall_app. split; [eauto|].
      constructor; [|constructor].
      rewrite break_skip_times, Hw in Hskip. cbn [bind] in Hskip.
      intros [H1 H2].
      destruct (Z.leb_spec bs c); [|lia].
      destruct (Z.leb_spec (c + d) be); [discriminate|lia].
Qed.

(** What holds of every list that the call returns for a positive interval. *)
Lemma returned_slots_invariant
    (start_time end_time : string) (break_start break_end : option string)
    (interval : Z) (s e : datetime) (slots : list slot) :
  strptime_HM start_time = Ok s -> strptime_HM end_time = Ok e ->
  1 <= interval ->
  returns start_time end_time break_start break_end interval slots ->
  exists c, emitted_so_far s e interval (break_times break_start break_end) c slots.
Proof.
  intros Hs He Hd [fuel Hret].
  rewrite (generate_parsed _ _ _ _ _ _ s e Hs He) in Hret.
  destruct (while_invariant e break_start break_end interval
              (emitted_so_far s e interval (break_times break_start break_end))
              (emitted_so_far_preserved s e interval break_start break_end Hd)
              fuel s [] slots) as (c & Hc & _); [|assumption|eauto].
  split; [lia|]. exists []. repeat split; constructor.
Qed.

(** X1: for a positive interval, every list that [generate_time_slots]
    returns consists of slots of exactly the interval's length that lie
    inside the working window, in increasing order and without overlap: each
    starts at or after the end of the one before it. This holds with any
    break strings. *)
Theorem returned_slots_lie_in_window_in_order
    (start_time end_time : string) (break_start break_end : option string)
    (interval : Z) (s e : datetime) (slots : list slot) :
  strptime_HM start_time = Ok s -> strptime_HM end_time = Ok e ->
  1 <= interval ->
  returns start_time end_time break_start break_end interval slots ->
  exists cs,
    slots = slots_at interval cs
    /\ Forall (fun c => s <= c /\ c + interval <= e) cs
    /\ spaced interval cs.
Proof.
  intros Hs He Hd Hret.
  destruct (returned_slots_invariant _ _ _ _ _ s e slots Hs He Hd Hret)
    as (c & _ & cs & -> & Hall & Hsp & _).
  exists cs. repeat split; [|assumption].
  eapply Forall_impl; [|exact Hall]. cbn. intros x Hx. lia.
Qed.

Lemma returned_slots_lie_in_window_in_order_witness :
  exists cs,
    tiles 540 15 6 ++ tiles 660 15 4 = slots_at 15 cs
    /\ Forall (fun c => 540 <= c /\ c + 15 <= 720) cs
    /\ spaced 15 cs.
Proof.
  apply (returned_slots_lie_in_window_in_order "09:00" "12:00"
           (Some "10:30") (Some "11:00") 15 540 720 _ eq_refl eq_refl).
  - lia.
  - exists 12%nat. reflexivity.
Defined.

Lemma NoDup_map_injective_on {A B : Type} (f : A -> B) (l : list A) :
  (forall x y, In x l -> In y l -> f x = f y -> x = y) ->
  NoDup l -> NoDup (map f l).
Proof.
  intros Hinj Hnd. induction Hnd as [|a l Hnotin Hnd IH]; cbn [map]; [constructor|].
  constructor.
  - intro Hin. apply in_map_iff in Hin. destruct Hin as (y & Hfy & Hy).
    apply Hnotin. rewrite <- (Hinj y a); auto using in_cons, in_eq.
  - apply IH. intros x y Hx Hy. apply Hinj; auto using in_cons.
Qed.

(** X2: for a positive interval, the 'start' strings of a returned list are
    pairwise distinct, and the 'start' and 'end' strings of every slot read
    back as times of the window that lie one interval apart. *)
Theorem returned_slot_starts_are_distinct
    (start_time end_time : string) (break_start break_end : option string)
    (interval : Z) (s e : datetime) (slots : list slot) :
  strptime_HM start_time = Ok s -> strptime_HM end_time = Ok e ->
  1 <= interval ->
  returns start_time end_time break_start break_end interval slots ->
  NoDup (map start slots)
  /\ forall sl, In sl slots ->
       exists c, strptime_HM (start sl) = Ok c
                 /\ strptime_HM (end_ sl) = Ok (c + interval)
                 /\ s <= c /\ c + interval <= e.
Proof.
  intros Hs He Hd Hret.
  destruct (returned_slots_invariant _ _ _ _ _ s e slots Hs He Hd Hret)
    as (c & _ & cs & -> & Hall & Hsp & _).
  pose proof (strptime_HM_range _ _ Hs) as Rs.
  pose proof (strptime_HM_range _ _ He) as Re.
  rewrite Forall_forall in Hall.
  assert (Hback : forall x, In x cs ->
            strptime_HM (strftime_HM x) = Ok x
            /\ strptime_HM (strftime_HM (x + interval)) = Ok (x + interval)).
  { intros x Hx. specialize (Hall x Hx).
    split; apply strptime_strftime_HM; lia. }
  split.
  - unfold slots_at. rewrite map_map. cbn [make_slot start].
    apply NoDup_map_injective_on.
    + intros x y Hx Hy Heq.
      pose proof (proj1 (Hback x Hx)) as Ex. pose proof (proj1 (Hback y Hy)) as Ey.
      rewrite Heq in Ex. congruence.
    + exact (spaced_NoDup interval cs Hd Hsp).
  - intros sl Hin. unfold slots_at in Hin. apply in_map_iff in Hin.
    destruct Hin as (x & <- & Hx). exists x. cbn [make_slot start end_].
    specialize (Hall x Hx). destruct (Hback x Hx). repeat split; auto; lia.
Qed.

Lemma returned_slot_starts_are_distinct_witness :
  NoDup (map start (tiles 540 15 6 ++ tiles 660 15 4))
  /\ forall sl, In sl (tiles 540 15 6 ++ tiles 660 15 4) ->
       exists c, strptime_HM (start sl) = Ok c
                 /\ strptime_HM (end_ sl) = Ok (c + 15)
                 /\ 540 <= c /\ c + 15 <= 720.
Proof.
  apply (returned_slot_starts_are_distinct "09:00" "12:00"
           (Some "10:30") (Some "11:00") 15 540 720 _ eq_refl eq_refl).
  - lia.
  - exists 12%nat. reflexivity.
Defined.

(** X3: with a break pair that parses and a positive interval, no slot of a
    returned list lies wholly inside the break: none starts at or after the
    break start and also ends at or before the break end, whether or not the
    break is aligned to the slots. *)
Theorem no_returned_slot_inside_break
    (start_time end_time bs_str be_str : string) (interval : Z)
    (s e bs be : datetime) (slots : list slot) :
  strptime_HM start_time = Ok s -> strptime_HM end_time = Ok e ->
  strptime_HM bs_str = Ok bs -> strptime_HM be_str = Ok be ->
  1 <= interval ->
  returns start_time end_time (Some bs_str) (Some be_str) interval slots ->
  Forall (fun sl =>
            exists c, strptime_HM (start sl) = Ok c
                      /\ strptime_HM (end_ sl) = Ok (c + interval)
                      /\ ~ (bs <= c /\ c + interval <= be)) slots.
Proof.
  intros Hs He Hbs Hbe Hd Hret.
  destruct (returned_slots_invariant _ _ _ _ _ s e slots Hs He Hd Hret)
    as (c & _ & cs & -> & Hall & _ & Hbr).
  specialize (Hbr bs be (break_times_parsed _ _ _ _ Hbs Hbe)).
  pose proof (strptime_HM_range _ _ Hs) as Rs.
  pose proof (strptime_HM_range _ _ He) as Re.
  rewrite Forall_forall in Hall, Hbr. apply Forall_forall. intros sl Hin.
  unfold slots_at in Hin. apply in_map_iff in Hin.
  destruct Hin as (x & <- & Hx). exists x. cbn [make_slot start end_].
  specialize (Hall x Hx). specialize (Hbr x Hx).
  repeat split; try (apply strptime_strftime_HM; lia). assumption.
Qed.

Lemma no_returned_slot_inside_break_witness :
  Forall (fun sl =>
            exists c, strptime_HM (start sl) = Ok c
                      /\ strptime_HM (end_ sl) = Ok (c + 15)
                      /\ ~ (610 <= c /\ c + 15 <= 640))
         (tiles 540 15 5 ++ tiles 640 15 5).
Proof.
  apply (no_returned_slot_inside_break "09:00" "12:00" "10:10" "10:40" 15
           540 720 610 640 _ eq_refl eq_refl eq_refl eq_refl).
  - lia.
  - exists 14%nat. reflexivity.
Defined.

(** ** Breaks that have no effect *)

Lemma loop_body_break_ignored (e : datetime) (break_start break_end : option string)
    (d c : Z) (acc : list slot) :
  break_times break_start break_end = Ok None
  \/ (exists t1 t2, break_times break_start break_end = Ok (Some (t1, t2))
                    /\ t2 - t1 < d) ->
  loop_body e break_start break_end d c acc = loop_body e None None d c acc.
Proof.
  intro Hw. unfold loop_body. destruct (c <? e); [|reflexivity].
  destruct (add_minutes c d) as [se|] eqn:Ea; [|reflexivity].
  apply add_minutes_ok in Ea. destruct Ea as [-> _].
  rewrite !break_skip_times.
  destruct Hw as [Hw|(t1 & t2 & Hw & Hshort)]; rewrite Hw; cbn [bind break_times].
  - reflexivity.
  - destruct (Z.leb_spec t1 c); [|reflexivity].
    destruct (Z.leb_spec (c + d) t2); [lia|reflexivity].
Qed.

(** X4: a break has no effect at all when one of its two strings is missing
    or empty (whatever the other one is), or when both parse and the break is
    shorter than the interval (this includes a break end at or before the
    break start): the call behaves exactly as the call without a break. *)
Theorem short_or_partial_break_is_ignored
    (fuel : nat) (start_time end_time : string)
    (break_start break_end : option string) (interval : Z) :
  break_times break_start break_end = Ok None
  \/ (exists t1 t2, break_times break_start break_end = Ok (Some (t1, t2))
                    /\ t2 - t1 < interval) ->
  generate_time_slots fuel start_time end_time break_start break_end interval
  = generate_time_slots fuel start_time end_time None None interval.
Proof.
  intro Hw. unfold generate_time_slots.
  destruct (strptime_HM start_time) as [s|]; [|reflexivity].
  destruct (strptime_HM end_time) as [e|]; [|reflexivity].
  generalize (@nil slot) as acc. revert s.
  induction fuel as [|fuel IH]; intros s acc; [reflexivity|].
  cbn [while]. rewrite (loop_body_break_ignored e _ _ interval s acc Hw).
  destruct (loop_body e None None interval s acc); auto.
Qed.

Lemma short_or_partial_break_is_ignored_witness :
  generate_time_slots 20 "09:00" "11:00" (Some "10:00") (Some "10:10") 15
  = generate_time_slots 20 "09:00" "11:00" None None 15
  /\ generate_time_slots 20 "09:00" "11:00" (Some "1pm") (Some "") 15
     = generate_time_slots 20 "09:00" "11:00" None None 15.
Proof.
  split.
  - apply (short_or_partial_break_is_ignored 20 "09:00" "11:00"
             (Some "10:00") (Some "10:10") 15).
    right. exists 600, 610. split; [reflexivity|lia].
  - apply (short_or_partial_break_is_ignored 20 "09:00" "11:00"
             (Some "1pm") (Some "") 15).
    left. reflexivity.
Defined.

(** ** When the call raises *)

Lemma strptime_HM_raises_ValueError (s : string) (x : exn) :
  strptime_HM s = Raise x -> x = ValueError.
Proof.
  unfold strptime_HM.
  destruct (split_at _ _) as [hs [ms|]].
  - destruct (hour_of hs); [destruct (minute_of ms)|]; congruence.
  - congruence.
Qed.

Lemma break_times_raises_ValueError (bs be : option string) (x : exn) :
  break_times bs be = Raise x -> x = ValueError.
Proof.
  unfold break_times. destruct bs as [s1|], be as [s2|]; try discriminate.
  destruct (truthy _ && truthy _); [|discriminate].
  destruct (strptime_HM s1) as [t1|x1] eqn:E1; cbn [bind].
  - destruct (strptime_HM s2) as [t2|x2] eqn:E2; cbn [bind]; [discriminate|].
    intros [= <-]. exact (strptime_HM_raises_ValueError _ _ E2).
  - intros [= <-]. exact (strptime_HM_raises_ValueError _ _ E1).
Qed.

(** The first pass on a window that is not empty, with a break pair that does
    not parse. *)
Lemma body_break_raises (e : datetime) (break_start break_end : option string)
    (d c : Z) (acc : list slot) (x : exn) :
  c < e -> dt_min <= c + d <= dt_max ->
  break_times break_start break_end = Raise x ->
  loop_body e break_start break_end d c acc = Raised x.
Proof.
  intros Hlt Hr Hw. unfold loop_body. destruct (Z.ltb_spec c e); [|lia].
  rewrite add_minutes_in_range by assumption.
  rewrite break_skip_times, Hw. reflexivity.
Qed.

(** For a positive interval the call ends in exactly one of three ways. *)
Lemma generate_outcome_positive
    (start_time end_time : string) (break_start break_end : option string)
    (interval : Z) :
  1 <= interval ->
  (value_error_condition start_time end_time break_start break_end interval
   /\ raises start_time end_time break_start break_end interval ValueError)
  \/ (overflow_condition start_time end_time interval
      /\ raises start_time end_time break_start break_end interval OverflowError)
  \/ (~ value_error_condition start_time end_time break_start break_end interval
      /\ ~ overflow_condition start_time end_time interval
      /\ exists slots, returns start_time end_time break_start break_end interval slots).
Proof.
  intro Hd. unfold value_error_condition, overflow_condition.
  destruct (strptime_HM start_time) as [s|x] eqn:Hs.
  2:{ left. pose proof (strptime_HM_raises_ValueError _ _ Hs) as ->.
      split; [auto|]. exists O. unfold generate_time_slots. rewrite Hs. reflexivity. }
  destruct (strptime_HM end_time) as [e|x] eqn:He.
  2:{ left. pose proof (strptime_HM_raises_ValueError _ _ He) as ->.
      split; [eauto|]. exists O. unfold generate_time_slots. rewrite Hs, He. reflexivity. }
  pose proof (strptime_HM_range _ _ Hs) as Rs.
  pose proof dt_min_value as Hmin.
  destruct (Z_lt_le_dec s e) as [Hlt|Hge].
  - destruct (Z_le_gt_dec (s + interval) dt_max) as [Hin|Hov].
    + destruct (break_times break_start break_end) as [w|x] eqn:Hw.
      * right. right. split; [|split].
        -- intros [H|[(s' & _ & H)|(s' & e' & _ & _ & _ & _ & H)]]; discriminate.
        -- intros (s' & e' & [= <-] & [= <-] & _ & H). lia.
        -- apply (generate_returns_unless_overflow _ _ _ _ _ s e w); auto.
      * left. pose proof (break_times_raises_ValueError _ _ _ Hw) as ->.
        split; [right; right; exists s, e; repeat split; auto|].
        exists 1%nat. rewrite (generate_parsed _ _ _ _ _ _ s e Hs He).
        cbn [while]. rewrite (body_break_raises e _ _ interval s [] ValueError);
          auto; lia.
    + right. left. split; [exists s, e; repeat split; auto; lia|].
      exists 1%nat. rewrite (generate_parsed _ _ _ _ _ _ s e Hs He).
      cbn [while]. rewrite body_overflow; auto; lia.
  - right. right. split; [|split].
    + intros [H|[(s' & _ & H)|(s' & e' & [= <-] & [= <-] & H & _)]];
        try discriminate; lia.
    + intros (s' & e' & [= <-] & [= <-] & H & _). lia.
    + exists []. exists 1%nat. rewrite (generate_parsed _ _ _ _ _ _ s e Hs He).
      apply while_return. assumption.
Qed.

(** X5: for a positive interval, [generate_time_slots] raises ValueError
    exactly when a window string does not parse or when a non-empty break pair
    that does not parse is reached (the window is not empty and the first
    addition does not overflow); it raises OverflowError exactly when the
    window is not empty and start + interval passes datetime.max; it raises
    nothing else, and in every other case it returns a list. *)
Theorem generate_time_slots_error_cases
    (start_time end_time : string) (break_start break_end : option string)
    (interval : Z) :
  1 <= interval ->
  (raises start_time end_time break_start break_end interval ValueError
   <-> value_error_condition start_time end_time break_start break_end interval)
  /\ (raises start_time end_time break_start break_end interval OverflowError
      <-> overflow_condition start_time end_time interval)
  /\ (forall x, raises start_time end_time break_start break_end interval x ->
                x = ValueError \/ x = OverflowError)
  /\ (~ value_error_condition start_time end_time break_start break_end interval ->
      ~ overflow_condition start_time end_time interval ->
      exists slots, returns start_time end_time break_start break_end interval slots).
Proof.
  intro Hd.
  assert (Hdet : forall x y,
             raises start_time end_time break_start break_end interval x ->
             raises start_time end_time break_start break_end interval y -> x = y).
  { intros x y [n Hn] [m Hm].
    pose proof (generate_deterministic _ _ _ _ _ _ _ _ _ Hn Hm). congruence. }
  assert (Hexcl : ~ (value_error_condition start_time end_time break_start break_end
                       interval
                     /\ overflow_condition start_time end_time interval)).
  { intros [Hv (s' & e' & Hs' & He' & _ & Hgt)].
    destruct Hv as [Hv|[(s & Hs & Hv)|(s & e & Hs & He & _ & Hle & _)]];
      try congruence.
    assert (s = s') by congruence. lia. }
  destruct (generate_outcome_positive start_time end_time break_start break_end
              interval Hd) as [[Hc Hr]|[[Hc Hr]|(Hnv & Hno & slots & Hr)]].
  - split; [split|split; [split|split]].
    + intros _. exact Hc.
    + intros _. exact Hr.
    + intro H. pose proof (Hdet _ _ H Hr). discriminate.
    + intro H. destruct Hexcl. auto.
    + intros x H. left. exact (Hdet _ _ H Hr).
    + intro H. contradiction.
  - split; [split|split; [split|split]].
    + intro H. pose proof (Hdet _ _ H Hr). discriminate.
    + intro H. destruct Hexcl. auto.
    + intros _. exact Hc.
    + intros _. exact Hr.
    + intros x H. right. exact (Hdet _ _ H Hr).
    + intros _ H. contradiction.
  - split; [split|split; [split|split]].
    + intro H. destruct (returns_not_raises _ _ _ _ _ _ _ Hr H).
    + intro H. contradiction.
    + intro H. destruct (returns_not_raises _ _ _ _ _ _ _ Hr H).
    + intro H. contradiction.
    + intros x H. destruct (returns_not_raises _ _ _ _ _ _ _ Hr H).
    + intros _ _. exists slots. exact Hr.
Qed.

Lemma generate_time_slots_error_cases_witness :
  (raises "09:00" "10:00" (Some "1pm") (Some "2pm") 15 ValueError
   <-> value_error_condition "09:00" "10:00" (Some "1pm") (Some "2pm") 15)
  /\ (raises "09:00" "10:00" (Some "1pm") (Some "2pm") 15 OverflowError
      <-> overflow_condition "09:00" "10:00" 15)
  /\ (forall x, raises "09:00" "10:00" (Some "1pm") (Some "2pm") 15 x ->
                x = ValueError \/ x = OverflowError)
  /\ (~ value_error_condition "09:00" "10:00" (Some "1pm") (Some "2pm") 15 ->
      ~ overflow_condition "09:00" "10:00" 15 ->
      exists slots, returns "09:00" "10:00" (Some "1pm") (Some "2pm") 15 slots).
Proof.
  apply (generate_time_slots_error_cases "09:00" "10:00" (Some "1pm") (Some "2pm") 15).
  lia.
Defined.

(** ** The list returned around an aligned break *)

(** X6: when the break starts a whole number of intervals after the window
    start and before the window end, and lasts a whole, positive number of
    intervals, the list returned is the slots that tile [start, breakStart)
    followed by the floor((end - breakEnd) / interval) slots that tile from
    breakEnd on: nothing is lost before the break and the slots resume
    exactly at its end. *)
Theorem aligned_break_splits_the_slots
    (start_time end_time bs_str be_str : string) (interval : Z)
    (s e bs be : datetime) (a b : nat) :
  strptime_HM start_time = Ok s -> strptime_HM end_time = Ok e ->
  strptime_HM bs_str = Ok bs -> strptime_HM be_str = Ok be ->
  1 <= interval ->
  bs = s + Z.of_nat a * interval -> be = bs + Z.of_nat b * interval ->
  (1 <= b)%nat -> bs < e ->
  returns start_time end_time (Some bs_str) (Some be_str) interval
    (tiles s interval a ++ tiles be interval (Z.to_nat ((e - be) / interval))).
Proof.
  intros Hs He Hbs Hbe Hd Ebs Ebe Hb Hlt.
  pose proof (break_times_parsed _ _ _ _ Hbs Hbe) as Hw.
  pose proof (strptime_HM_range _ _ Hs) as Rs.
  pose proof (strptime_HM_range _ _ He) as Re.
  pose proof (strptime_HM_range _ _ Hbe) as Rbe.
  pose proof dt_min_value as Hmin. pose proof dt_max_value as Hmx.
  assert (Hdb : bs + interval <= be) by nia.
  set (k := Z.to_nat ((e - be) / interval)).
  exists (a + S (k + 2))%nat.
  rewrite (generate_parsed _ _ _ _ _ _ s e Hs He).
  rewrite (while_emit_run _ _ _ _ Hd _ Hw); try lia.
  2:{ intros j Hj. unfold skips. destruct (Z.leb_spec bs (s + Z.of_nat j * interval));
        [nia|reflexivity]. }
  rewrite <- Ebs. cbn [app].
  rewrite (while_continue _ _ _ _ _ bs be (tiles s interval a) (tiles s interval a)).
  2:{ apply (body_skip _ _ _ _ _ Hw bs _ bs be); auto; lia. }
  destruct (Z_le_gt_dec be e) as [Hin|Hout].
  - assert (Hq : 0 <= (e - be) / interval) by (apply Z.div_pos; lia).
    assert (Hk : Z.of_nat k = (e - be) / interval) by (unfold k; lia).
    assert (Hlo : Z.of_nat k * interval <= e - be).
    { rewrite Hk, Z.mul_comm. apply Z.mul_div_le. lia. }
    assert (Hhi : e - be < (Z.of_nat k + 1) * interval).
    { rewrite Hk, Z.mul_comm. apply Z.mul_succ_div_gt. lia. }
    rewrite (while_emit_run _ _ _ _ Hd _ Hw); try lia.
    + apply (while_short_window _ _ _ _ _ Hw); lia.
    + intros j Hj. unfold skips.
      destruct (Z.leb_spec bs (be + Z.of_nat j * interval)); [|reflexivity].
      destruct (Z.leb_spec (be + Z.of_nat j * interval + interval) be);
        [nia|reflexivity].
  - assert (Hk : k = O).
    { unfold k. assert ((e - be) / interval < 0); [|lia].
      apply Z.div_lt_upper_bound; lia. }
    rewrite Hk. cbn [tiles seq map]. rewrite app_nil_r.
    apply while_return. lia.
Qed.

Lemma aligned_break_splits_the_slots_witness :
  returns "09:00" "12:00" (Some "10:30") (Some "11:00") 15
    (tiles 540 15 6 ++ tiles 660 15 (Z.to_nat ((720 - 660) / 15))).
Proof.
  apply (aligned_break_splits_the_slots "09:00" "12:00" "10:30" "11:00" 15
           540 720 630 660 6 2 eq_refl eq_refl eq_refl eq_refl).
  - lia.
  - reflexivity.
  - reflexivity.
  - lia.
  - lia.
Defined.

(** * More of [get_doctor_slots] *)

Lemma try_body_total (fuel : nat) (sess : session) (doctor_id : Z) (date : string)
    (conn : connection) (day : string) :
  (1440 <= fuel)%nat ->
  exists r, try_body fuel sess doctor_id date conn day = Some r.
Proof.
  intro Hf. unfold try_body.
  destruct (getitem (hospital_id sess)) as [h|]; [|eauto].
  destruct (select (doctor_slots conn) _) as [[|slot_info rest]|]; eauto.
  unfold slots_response.
  destruct (generate_default_total fuel (DoctorSlots.start_time slot_info)
              (DoctorSlots.end_time slot_info) (DoctorSlots.break_start slot_info)
              (DoctorSlots.break_end slot_info) Hf) as [[slots|x] ->]; eauto.
Qed.

Lemma try_body_status (fuel : nat) (sess : session) (doctor_id : Z) (date : string)
    (conn : connection) (day : string) (resp : response) :
  try_body fuel sess doctor_id date conn day = Some (Ok resp) ->
  status_code resp = 200.
Proof.
  unfold try_body.
  destruct (getitem (hospital_id sess)) as [h|]; [|discriminate].
  destruct (select (doctor_slots conn) _) as [[|slot_info rest]|]; try discriminate.
  - intros [= <-]. reflexivity.
  - unfold slots_response. destruct (generate_time_slots _ _ _ _ _ _) as [[slots|]|];
      try discriminate.
    destruct (select (appointments conn) _); cbn [bind]; [|discriminate].
    intros [= <-]. reflexivity.
Qed.

(** X7: [get_doctor_slots] always answers, and only with the status codes
    200, 400, 401 and 500. No exception of a query or of the slot generator
    leaves the view: the only exceptions that do are the KeyError of a
    session that has a user_id but no user_type, and a failure of
    [get_db_connection], which is called before the [try]. *)
Theorem get_doctor_slots_outcomes
    (fuel : nat) (sess : session) (doctor_id : Z) (date : string)
    (db : result connection) :
  (1440 <= fuel)%nat ->
  exists r,
    get_doctor_slots fuel sess doctor_id date db = Some r
    /\ match r with
       | Ok resp => In (status_code resp) [200; 400; 401; 500]
       | Raise x =>
           (user_id sess <> None /\ user_type sess = None /\ x = KeyError)
           \/ (authenticated sess /\ db = Raise x
               /\ exists day, strptime_Ymd_weekday date = Ok day)
       end.
Proof.
  intro Hf. unfold get_doctor_slots.
  destruct (user_id sess) as [uid|] eqn:Hu.
  2:{ eexists. split; [reflexivity|]. cbn. auto. }
  destruct (user_type sess) as [ut|] eqn:Ht; cbn [getitem].
  2:{ eexists. split; [reflexivity|]. left. repeat split. discriminate. }
  destruct (String.eqb_spec ut "admin") as [->|Hne]; cbn [negb].
  2:{ eexists. split; [reflexivity|]. cbn. auto. }
  destruct (strptime_Ymd_weekday date) as [day|] eqn:Hday.
  2:{ eexists. split; [reflexivity|]. cbn. auto. }
  destruct db as [conn|x].
  2:{ eexists. split; [reflexivity|]. right. unfold authenticated.
      rewrite Hu, Ht. repeat split; eauto. }
  destruct (try_body_total fuel sess doctor_id date conn day Hf) as [[resp|x] Hr];
    rewrite Hr; cbn [except_exception].
  - eexists. split; [reflexivity|].
    pose proof (try_body_status _ _ _ _ _ _ _ Hr) as Hst.
    cbn beta iota. rewrite Hst. cbn. auto.
  - eexists. split; [reflexivity|]. cbn. auto.
Qed.

Lemma get_doctor_slots_outcomes_witness :
  exists r,
    get_doctor_slots 1440 admin_session 8 "2024-01-01" (Ok example_connection) = Some r
    /\ match r with
       | Ok resp => In (status_code resp) [200; 400; 401; 500]
       | Raise x =>
           (user_id admin_session <> None /\ user_type admin_session = None
            /\ x = KeyError)
           \/ (authenticated admin_session /\ Ok example_connection = Raise x
               /\ exists day, strptime_Ymd_weekday "2024-01-01" = Ok day)
       end.
Proof.
  apply (get_doctor_slots_outcomes 1440 admin_session 8 "2024-01-01"
           (Ok example_connection) (le_n 1440)).
Defined.

(** * Strings *)

Example str_methods_on_known_values :
  Str.strip "  Amoxicillin 250mg " = "Amoxicillin 250mg"
  /\ Str.strip "   " = ""
  /\ Str.lower "Photo.JPG" = "photo.jpg"
  /\ Str.split "|" "a|b||c" = ["a"; "b"; ""; "c"]
  /\ Str.split "|" "" = [""]
  /\ Str.rsplit1 "." "a.tar.gz" = ["a.tar"; "gz"]
  /\ Str.rsplit1 "." "README" = ["README"]
  /\ Str.join ", " ["a"; "b"; "c"] = "a, b, c"
  /\ Str.str 12 = "12".
Proof. repeat split. Qed.

Example allowed_file_on_known_values :
  map allowed_file ["photo.png"; "photo.JPG"; "a.png.exe"; "a.exe.jpeg"; "png"; ".png"; "a."; ""]
  = [Some true; Some true; Some false; Some true; Some false; Some true; Some false;
     Some false].
Proof. reflexivity. Qed.

Lemma contains_app (c : ascii) (s t : string) :
  Str.contains c (s ++ t) = Str.contains c s || Str.contains c t.
Proof.
  induction s as [|c' s IH]; [reflexivity|].
  cbn [String.append Str.contains]. rewrite IH. apply orb_assoc.
Qed.

Lemma rsplit1_without (sep : ascii) (s : string) :
  Str.contains sep s = false -> Str.rsplit1 sep s = [s].
Proof.
  induction s as [|c s IH]; [reflexivity|].
  cbn [Str.contains Str.rsplit1]. intro H. apply orb_false_iff in H.
  destruct H as [Hc Hs]. rewrite (IH Hs), Hc. reflexivity.
Qed.

Lemma rsplit1_at_last (sep : ascii) (a b : string) :
  Str.contains sep b = false ->
  Str.rsplit1 sep (a ++ String sep b) = [a; b].
Proof.
  intro Hb. induction a as [|c a IH].
  - cbn [String.append Str.rsplit1]. rewrite (rsplit1_without sep b Hb).
    rewrite Ascii.eqb_refl. reflexivity.
  - cbn [String.append Str.rsplit1]. rewrite IH. reflexivity.
Qed.

(** [rsplit(sep, 1)] gives the string itself when it has no separator, and
    otherwise what stands before and after the last one. *)
Lemma rsplit1_cases (sep : ascii) (s : string) :
  (Str.contains sep s = false /\ Str.rsplit1 sep s = [s])
  \/ (exists a b, Str.rsplit1 sep s = [a; b] /\ s = (a ++ String sep b)%string
                  /\ Str.contains sep b = false).
Proof.
  induction s as [|c s IH]; [left; split; reflexivity|].
  cbn [Str.contains Str.rsplit1].
  destruct IH as [[Hno ->]|(a & b & -> & Hs & Hb)].
  - destruct (Ascii.eqb_spec c sep) as [->|Hne].
    + right. exists EmptyString, s. repeat split. assumption.
    + left. split; [assumption|reflexivity].
  - right. exists (String c a), b. repeat split; [|assumption].
    cbn [String.append]. rewrite <- Hs. reflexivity.
Qed.

Lemma some_eq {A : Type} (a b : A) : Some a = Some b -> a = b.
Proof. congruence. Qed.

(** * [allowed_file] *)

(** X8: [allowed_file] never fails with an IndexError, and it accepts a file
    name exactly when the name has a dot and what follows the last dot is,
    whatever its letter case, one of png, jpg and jpeg; only the last
    extension counts, and a name without a dot is refused. *)
Theorem allowed_file_accepts_last_extension (filename : string) :
  allowed_file filename <> None
  /\ (allowed_file filename = Some true
      <-> exists stem ext,
            filename = (stem ++ "." ++ ext)%string
            /\ Str.contains "." ext = false
            /\ In (Str.lower ext) ALLOWED_EXTENSIONS).
Proof.
  unfold allowed_file.
  destruct (rsplit1_cases "." filename) as [[Hno Hr]|(a & b & Hr & Hf & Hb)].
  - rewrite Hno. split; [discriminate|]. split; [discriminate|].
    intros (stem & ext & -> & _ & _). rewrite contains_app in Hno.
    cbn in Hno. rewrite orb_true_r in Hno. discriminate.
  - assert (Hdot : Str.contains "." filename = true).
    { rewrite Hf, contains_app. cbn. apply orb_true_r. }
    rewrite Hdot, Hr. cbn [nth_error]. split; [discriminate|]. split.
    + intro Hex. apply some_eq in Hex.
      apply existsb_exists in Hex. destruct Hex as (x & Hx & Heq).
      apply String.eqb_eq in Heq. exists a, b. repeat split; [assumption..|].
      rewrite Heq. assumption.
    + intros (stem & ext & Hf' & Hext & Hin).
      change ("." ++ ext)%string with (String "." ext) in Hf'.
      rewrite Hf', (rsplit1_at_last "." stem ext Hext) in Hr.
      injection Hr as _ <-. f_equal. apply existsb_exists.
      exists (Str.lower ext). split; [assumption|apply String.eqb_refl].
Qed.

Lemma lower_char_dot (c : ascii) :
  Ascii.eqb (Str.lower_char c) "." = Ascii.eqb c ".".
Proof.
  destruct c as [b0 b1 b2 b3 b4 b5 b6 b7].
  destruct b0, b1, b2, b3, b4, b5, b6, b7; reflexivity.
Qed.

Lemma lower_char_idempotent (c : ascii) :
  Str.lower_char (Str.lower_char c) = Str.lower_char c.
Proof.
  destruct c as [b0 b1 b2 b3 b4 b5 b6 b7].
  destruct b0, b1, b2, b3, b4, b5, b6, b7; reflexivity.
Qed.

Lemma lower_idempotent (s : string) : Str.lower (Str.lower s) = Str.lower s.
Proof.
  induction s as [|c s IH]; [reflexivity|].
  cbn [Str.lower]. rewrite lower_char_idempotent, IH. reflexivity.
Qed.

Lemma contains_dot_lower (s : string) :
  Str.contains "." (Str.lower s) = Str.contains "." s.
Proof.
  induction s as [|c s IH]; [reflexivity|].
  cbn [Str.lower Str.contains]. rewrite lower_char_dot, IH. reflexivity.
Qed.

Lemma rsplit1_dot_lower (s : string) :
  Str.rsplit1 "." (Str.lower s) = map Str.lower (Str.rsplit1 "." s).
Proof.
  induction s as [|c s IH]; [reflexivity|].
  cbn [Str.lower Str.rsplit1]. rewrite IH, lower_char_dot.
  destruct (rsplit1_cases "." s) as [[_ ->]|(a & b & -> & _ & _)]; cbn [map].
  - destruct (Ascii.eqb c "."); reflexivity.
  - reflexivity.
Qed.

(** X9: the answer of [allowed_file] does not depend on the letter case of
    the file name: the name in lower case is accepted exactly when the name
    itself is. *)
Theorem allowed_file_ignores_case (filename : string) :
  allowed_file (Str.lower filename) = allowed_file filename.
Proof.
  unfold allowed_file. rewrite contains_dot_lower, rsplit1_dot_lower.
  destruct (Str.contains "." filename); [|reflexivity].
  rewrite nth_error_map.
  destruct (nth_error (Str.rsplit1 "." filename) 1) as [ext|]; [|reflexivity].
  cbn [option_map]. rewrite lower_idempotent. reflexivity.
Qed.

(** * The medicine lines of a prescription *)

Lemma count_app (c : ascii) (s t : string) :
  Str.count c (s ++ t) = (Str.count c s + Str.count c t)%nat.
Proof.
  induction s as [|c' s IH]; [reflexivity|].
  cbn [String.append Str.count]. rewrite IH. destruct (Ascii.eqb c' c); reflexivity.
Qed.

Lemma count_contains (c : ascii) (s : string) :
  Str.contains c s = true <-> (1 <= Str.count c s)%nat.
Proof.
  induction s as [|c' s IH]; cbn [Str.contains Str.count].
  - split; [discriminate|lia].
  - destruct (Ascii.eqb c' c); cbn [orb]; [split; [lia|reflexivity]|exact IH].
Qed.

Lemma split_without (sep : ascii) (s : string) :
  Str.contains sep s = false -> Str.split sep s = [s].
Proof.
  induction s as [|c s IH]; [reflexivity|].
  cbn [Str.contains Str.split]. intro H. apply orb_false_iff in H.
  destruct H as [Hc Hs]. rewrite Hc, (IH Hs). reflexivity.
Qed.

Lemma split_at_first (sep : ascii) (x rest : string) :
  Str.contains sep x = false ->
  Str.split sep (x ++ String sep rest) = x :: Str.split sep rest.
Proof.
  induction x as [|c x IH]; intro H.
  - cbn [String.append Str.split]. rewrite Ascii.eqb_refl. reflexivity.
  - cbn [Str.contains] in H. apply orb_false_iff in H. destruct H as [Hc Hx].
    cbn [String.append Str.split]. rewrite Hc, (IH Hx). reflexivity.
Qed.

(** [split] gives one part more than there are separators. *)
Lemma split_length (sep : ascii) (s : string) :
  length (Str.split sep s) = S (Str.count sep s).
Proof.
  induction s as [|c s IH]; [reflexivity|].
  cbn [Str.split Str.count]. destruct (Ascii.eqb c sep).
  - cbn [length]. rewrite IH. reflexivity.
  - destruct (Str.split sep s) as [|p ps]; [discriminate|exact IH].
Qed.

Lemma split_join_lines (l : string) (ls : list string) :
  Forall (fun x => Str.contains Str.LF x = false) (l :: ls) ->
  Str.split Str.LF (Str.join (String Str.LF EmptyString) (l :: ls)) = l :: ls.
Proof.
  revert l. induction ls as [|l2 ls IH]; intros l Hall.
  - cbn [Str.join]. apply split_without. inversion Hall; assumption.
  - inversion Hall as [|? ? Hl Hrest]; subst.
    change (Str.join (String Str.LF EmptyString) (l :: l2 :: ls))
      with (l ++ String Str.LF (Str.join (String Str.LF EmptyString) (l2 :: ls)))%string.
    rewrite (split_at_first _ _ _ Hl), (IH l2 Hrest). reflexivity.
Qed.

Lemma join_nonempty (sep l : string) (ls : list string) :
  l <> EmptyString -> Str.join sep (l :: ls) <> EmptyString.
Proof.
  intro Hl. destruct ls as [|l2 ls]; [exact Hl|].
  cbn [Str.join]. destruct l; [contradiction|discriminate].
Qed.

Lemma contains_lstrip (c : ascii) (s : string) :
  Str.is_space c = false -> Str.contains c s = true ->
  Str.contains c (Str.lstrip s) = true.
Proof.
  intro Hc. induction s as [|c' s IH]; [discriminate|].
  cbn [Str.lstrip]. destruct (Str.is_space c') eqn:Hsp; [|auto].
  cbn [Str.contains]. destruct (Ascii.eqb_spec c' c) as [->|_]; [congruence|].
  exact IH.
Qed.

Lemma rstrip_nonempty (c : ascii) (s : string) :
  Str.is_space c = false -> Str.contains c s = true ->
  Str.rstrip s <> EmptyString.
Proof.
  intro Hc. induction s as [|c' s IH]; [discriminate|].
  cbn [Str.contains Str.rstrip].
  destruct (Ascii.eqb_spec c' c) as [->|_]; cbn [orb]; intro H.
  - destruct (Str.rstrip s); [rewrite Hc|]; discriminate.
  - specialize (IH H). destruct (Str.rstrip s); [contradiction|discriminate].
Qed.

(** A string with a character that is no white space is not blank. *)
Lemma strip_nonempty (c : ascii) (s : string) :
  Str.is_space c = false -> Str.contains c s = true ->
  Str.strip s <> EmptyString.
Proof.
  intros Hc Hs. unfold Str.strip.
  apply (rstrip_nonempty c); [assumption|]. apply contains_lstrip; assumption.
Qed.

Lemma truthy_nonempty (s : string) : s <> EmptyString -> truthy (Some s) = true.
Proof.
  destruct s; [contradiction|reflexivity].
Qed.

Lemma line_has_bar (m : Medicine.t) : Str.contains Str.BAR (Medicine.line m) = true.
Proof.
  unfold Medicine.line. rewrite contains_app. cbn. apply orb_true_r.
Qed.

Lemma line_count_bars (m : Medicine.t) :
  Str.count Str.BAR (Medicine.line m)
  = (6 + list_sum (map (Str.count Str.BAR) (Medicine.fields m)))%nat.
Proof.
  unfold Medicine.line, Medicine.fields. cbn [map list_sum].
  repeat (rewrite count_app; cbn [Str.count String.append]).
  change (Ascii.eqb Str.BAR Str.BAR) with true. cbn iota.
  repeat rewrite count_app. cbn [Str.count].
  unfold list_sum. cbn [fold_right]. lia.
Qed.

Lemma seven_parts_only (l : list string) :
  length l <> 7%nat ->
  match l with
  | [p0; p1; p2; p3; p4; p5; p6] => [Medicine.Make p0 p1 p2 p3 p4 p5 p6]
  | _ => []
  end = [].
Proof.
  destruct l as [|p0 [|p1 [|p2 [|p3 [|p4 [|p5 [|p6 [|p7 l]]]]]]]]; cbn [length];
    intro H; try reflexivity. contradiction.
Qed.

Lemma list_sum_bound (x : nat) (l : list nat) : In x l -> (x <= list_sum l)%nat.
Proof.
  induction l as [|y l IH]; [contradiction|].
  cbn [list_sum fold_right]. intros [->|Hin]; [lia|]. specialize (IH Hin).
  unfold list_sum in IH. lia.
Qed.

Lemma fields_without (c : ascii) (m : Medicine.t) :
  existsb (Str.contains c) (Medicine.fields m) = false ->
  Forall (fun x => Str.contains c x = false) (Medicine.fields m).
Proof.
  intro H. apply Forall_forall. intros x Hx.
  destruct (Str.contains c x) eqn:E; [|reflexivity].
  rewrite <- H. apply eq_sym, existsb_exists. eauto.
Qed.

(** A line whose seven fields hold no bar is read back as written. *)
Lemma parse_line_barless (m : Medicine.t) :
  Medicine.has_bar m = false -> Medicine.parse_line (Medicine.line m) = [m].
Proof.
  intro H. unfold Medicine.parse_line.
  rewrite truthy_nonempty
    by (apply (strip_nonempty Str.BAR); [reflexivity|apply line_has_bar]).
  apply fields_without in H. unfold Medicine.fields in H.
  repeat match goal with
         | Hall : Forall _ (_ :: _) |- _ => inversion_clear Hall
         end.
  unfold Medicine.line. cbn [String.append].
  repeat (rewrite split_at_first by assumption; cbn [String.append]).
  rewrite split_without by assumption.
  destruct m. reflexivity.
Qed.

(** A line with a bar inside a field has more than seven parts and is not
    read back at all. *)
Lemma parse_line_barred (m : Medicine.t) :
  Medicine.has_bar m = true -> Medicine.parse_line (Medicine.line m) = [].
Proof.
  intro H. unfold Medicine.parse_line.
  destruct (truthy _); [|reflexivity].
  apply seven_parts_only. rewrite split_length, line_count_bars.
  apply existsb_exists in H. destruct H as (x & Hx & Hc).
  apply count_contains in Hc.
  assert (Hin : In (Str.count Str.BAR x) (map (Str.count Str.BAR) (Medicine.fields m)))
    by (apply in_map; assumption).
  apply list_sum_bound in Hin. lia.
Qed.

Lemma line_without_line_feed (m : Medicine.t) :
  Medicine.has_line_feed m = false ->
  Str.contains Str.LF (Medicine.line m) = false.
Proof.
  intro H. apply fields_without in H. unfold Medicine.fields in H.
  repeat match goal with
         | Hall : Forall _ (_ :: _) |- _ => inversion_clear Hall
         end.
  unfold Medicine.line. cbn [String.append].
  repeat (rewrite contains_app; cbn [Str.contains]).
  repeat match goal with
         | Hf : Str.contains Str.LF _ = false |- _ => rewrite Hf; clear Hf
         end.
  reflexivity.
Qed.

Lemma parse_lines (l : list Medicine.t) :
  flat_map Medicine.parse_line (map Medicine.line l)
  = filter (fun m => negb (Medicine.has_bar m)) l.
Proof.
  induction l as [|m l IH]; [reflexivity|].
  cbn [map flat_map filter]. rewrite IH.
  destruct (Medicine.has_bar m) eqn:Hb; cbn [negb].
  - rewrite (parse_line_barred m Hb). reflexivity.
  - rewrite (parse_line_barless m Hb). reflexivity.
Qed.

Lemma medicines_lines (f : form) (medicine_count : Z) :
  Medicine.medicines f medicine_count
  = map Medicine.line
      (filter Medicine.complete
         (map (Medicine.entry f) (Medicine.indices medicine_count))).
Proof.
  unfold Medicine.medicines.
  induction (Medicine.indices medicine_count) as [|i l IH]; [reflexivity|].
  cbn [flat_map map filter]. rewrite IH.
  destruct (Medicine.complete (Medicine.entry f i)); reflexivity.
Qed.

Lemma filter_shown (l : list Medicine.t) :
  filter Medicine.shown l
  = filter (fun m => negb (Medicine.has_bar m)) (filter Medicine.complete l).
Proof.
  induction l as [|m l IH]; [reflexivity|].
  cbn [filter]. unfold Medicine.shown at 1.
  destruct (Medicine.complete m); cbn [andb filter]; rewrite IH; reflexivity.
Qed.

(** X10: the medicines stored by the prescription form are read back by the
    views. When no field of a complete medicine holds a line feed, parsing
    the stored string gives, in the order of the form, exactly the medicines
    that have a name, a dosage and a frequency and no vertical bar in any
    field: incomplete medicines are never stored, and a medicine with a bar
    in a field is stored but not shown again. *)
Theorem stored_medicines_are_read_back (f : form) (medicine_count : Z) :
  Forall (fun m => Medicine.complete m = true -> Medicine.has_line_feed m = false)
         (map (Medicine.entry f) (Medicine.indices medicine_count)) ->
  Medicine.parse (Some (Medicine.medicines_str f medicine_count))
  = filter Medicine.shown (map (Medicine.entry f) (Medicine.indices medicine_count)).
Proof.
  intro Hall. rewrite filter_shown.
  unfold Medicine.medicines_str. rewrite medicines_lines.
  set (es := map (Medicine.entry f) (Medicine.indices medicine_count)) in *.
  assert (Hlf : Forall (fun m => Medicine.has_line_feed m = false)
                       (filter Medicine.complete es)).
  { apply Forall_forall. intros m Hm. apply filter_In in Hm. destruct Hm as [Hin Hc].
    rewrite Forall_forall in Hall. auto. }
  destruct (filter Medicine.complete es) as [|c cs]; [reflexivity|].
  cbn [map]. unfold Medicine.parse.
  rewrite truthy_nonempty.
  - change (Medicine.line c :: map Medicine.line cs) with (map Medicine.line (c :: cs)).
    rewrite <- parse_lines. f_equal. cbn [map]. apply split_join_lines.
    change (Medicine.line c :: map Medicine.line cs) with (map Medicine.line (c :: cs)).
    apply Forall_map. eapply Forall_impl; [|exact Hlf].
    exact line_without_line_feed.
  - apply join_nonempty. intro Hempty.
    pose proof (line_has_bar c) as Hb. rewrite Hempty in Hb. discriminate.
Qed.

Example example_form_stored :
  Medicine.medicines_str example_form 3
  = Str.join (String Str.LF EmptyString)
      ["Amoxicillin|250mg|3 times a day|1|0|0|after";
       "Ibu|profen|200mg|twice|0|0|0|before"].
Proof. reflexivity. Qed.

Lemma stored_medicines_are_read_back_witness :
  Medicine.parse (Some (Medicine.medicines_str example_form 3))
  = filter Medicine.shown (map (Medicine.entry example_form) (Medicine.indices 3)).
Proof.
  apply (stored_medicines_are_read_back example_form 3).
  repeat (constructor; [intros _; reflexivity|]). constructor.
Defined.

Example example_form_shown :
  filter Medicine.shown (map (Medicine.entry example_form) (Medicine.indices 3))
  = [Medicine.Make "Amoxicillin" "250mg" "3 times a day" "1" "0" "0" "after"].
Proof. reflexivity. Qed.

Lemma join_split (sep : ascii) (s : string) :
  Str.join (String sep EmptyString) (Str.split sep s) = s.
Proof.
  induction s as [|c s IH]; [reflexivity|].
  cbn [Str.split]. destruct (Ascii.eqb_spec c sep) as [->|Hne].
  - destruct (Str.split sep s) as [|p ps] eqn:E.
    + pose proof (split_length sep s) as Hl. rewrite E in Hl. discriminate.
    + change (Str.join (String sep EmptyString) (EmptyString :: p :: ps))
        with (String sep (Str.join (String sep EmptyString) (p :: ps))).
      rewrite IH. reflexivity.
  - destruct (Str.split sep s) as [|p [|p2 ps]] eqn:E.
    + pose proof (split_length sep s) as Hl. rewrite E in Hl. discriminate.
    + cbn [Str.join] in *. rewrite IH. reflexivity.
    + change (Str.join (String sep EmptyString) (String c p :: p2 :: ps))
        with (String c (Str.join (String sep EmptyString) (p :: p2 :: ps))).
      rewrite IH. reflexivity.
Qed.

Lemma length_seven {A : Type} (l : list A) :
  length l = 7%nat -> exists p0 p1 p2 p3 p4 p5 p6, l = [p0; p1; p2; p3; p4; p5; p6].
Proof.
  destruct l as [|p0 [|p1 [|p2 [|p3 [|p4 [|p5 [|p6 [|p7 l]]]]]]]]; cbn [length];
    intro H; try discriminate.
  exists p0, p1, p2, p3, p4, p5, p6. reflexivity.
Qed.

(** X11: a stored line is shown by the views exactly when it is not blank
    and holds exactly six vertical bars; a line with fewer or more bars is
    skipped without an error. A line that is shown is shown in full: its
    seven fields joined by bars are the stored line. *)
Theorem stored_line_is_shown_iff_six_bars (stored : string) :
  (Medicine.parse_line stored <> []
   <-> Str.strip stored <> EmptyString /\ Str.count Str.BAR stored = 6%nat)
  /\ (forall m, In m (Medicine.parse_line stored) -> Medicine.line m = stored).
Proof.
  unfold Medicine.parse_line.
  pose proof (split_length Str.BAR stored) as Hlen.
  pose proof (join_split Str.BAR stored) as Hjoin.
  destruct (Nat.eq_dec (Str.count Str.BAR stored) 6) as [H6|H6].
  - rewrite H6 in Hlen. apply length_seven in Hlen.
    destruct Hlen as (p0 & p1 & p2 & p3 & p4 & p5 & p6 & Hs). rewrite Hs in *.
    destruct (Str.strip stored) as [|c r]; cbn [truthy String.eqb negb].
    + split; [split; [intro H; contradiction|intros [H _]; contradiction]|].
      intros m [].
    + split; [split; [intros _; split; [discriminate|exact H6]|discriminate]|].
      intros m [<-|[]]. exact Hjoin.
  - rewrite seven_parts_only by lia.
    destruct (truthy _); split; try (intros m []);
      (split; [intro H; contradiction|intros [_ H]; contradiction]).
Qed.

(** * The views that write to the database *)

(** [get_doctor_slots] reads a connection only through its two queries. *)
Lemma get_doctor_slots_ext (fuel : nat) (sess : session) (doctor_id : Z)
    (date : string) (conn1 conn2 : connection) :
  (forall day h, hospital_id sess = Some h ->
     select (doctor_slots conn1) [doctor_id; h] (slot_info_where doctor_id day h)
     = select (doctor_slots conn2) [doctor_id; h] (slot_info_where doctor_id day h)) ->
  (forall h, hospital_id sess = Some h ->
     select (appointments conn1) [doctor_id; h] (booked_where doctor_id date h)
     = select (appointments conn2) [doctor_id; h] (booked_where doctor_id date h)) ->
  get_doctor_slots fuel sess doctor_id date (Ok conn1)
  = get_doctor_slots fuel sess doctor_id date (Ok conn2).
Proof.
  intros Hslots Happts. unfold get_doctor_slots.
  destruct (user_id sess); [|reflexivity].
  destruct (getitem (user_type sess)) as [ut|]; [|reflexivity].
  destruct (negb (String.eqb ut "admin")); [reflexivity|].
  destruct (strptime_Ymd_weekday date) as [day|]; [|reflexivity].
  f_equal. unfold try_body.
  destruct (hospital_id sess) as [h|]; cbn [getitem]; [|reflexivity].
  rewrite (Hslots day h eq_refl).
  destruct (select (doctor_slots conn2) _) as [[|slot_info rest]|]; try reflexivity.
  unfold slots_response. rewrite (Happts h eq_refl). reflexivity.
Qed.

Lemma binds_two (a b : Z) :
  sqlite_int a = true -> sqlite_int b = true -> binds [a; b] = true.
Proof.
  intros Ha Hb. unfold binds. cbn [forallb]. rewrite Ha, Hb. reflexivity.
Qed.

Lemma binds_three (a b c : Z) :
  sqlite_int a = true -> sqlite_int b = true -> sqlite_int c = true ->
  binds [a; b; c] = true.
Proof.
  intros Ha Hb Hc. unfold binds. cbn [forallb]. rewrite Ha, Hb, Hc. reflexivity.
Qed.

Section SetDoctorSlotsFacts.

Variable sess : session.
Variable req : request.
Variable db : database.
Variable doctor_id : Z.
Variable hospital : Z.
Variable doctor : Doctors.row.
Variable others : list Doctors.row.

Hypothesis Hauth : authenticated sess.
Hypothesis Hhospital : hospital_id sess = Some hospital.
Hypothesis Hdoctor :
  filter (doctor_where doctor_id hospital) (db_doctors db) = doctor :: others.
Hypothesis Hbinds : binds [doctor_id; hospital] = true.
Hypothesis Hpost : method req = "POST".
Hypothesis Hday : field (form_of req) "day" <> EmptyString.
Hypothesis Hstart : field (form_of req) "start_time" <> EmptyString.
Hypothesis Hend : field (form_of req) "end_time" <> EmptyString.

(** A complete POST of an administrator for a doctor of the hospital reaches
    lines 473-487. *)
Lemma set_doctor_slots_posts :
  db_health db <> Broken ->
  set_doctor_slots sess req db doctor_id
  = Ok (if writable db
        then {| page_of := RedirectViewDoctors;
                flashes := [("Doctor availability slots updated successfully!",
                             "success")];
                db_after := replace_window req db doctor_id hospital |}
        else windows_page db doctor_id true hospital doctor
               [("Error updating slots", "danger")]).
Proof.
  intro Hh. destruct Hauth as [[uid Hu] Ht]. unfold set_doctor_slots.
  rewrite Hu, Ht, Hhospital. cbn [getitem bind String.eqb Ascii.eqb Bool.eqb negb].
  unfold query at 1. rewrite Hbinds.
  destruct (db_health db) eqn:Eh; try contradiction;
    cbn [bind]; rewrite Hdoctor, Hpost; cbn [String.eqb Ascii.eqb Bool.eqb];
    unfold post_window, writes;
    rewrite (truthy_nonempty _ Hday), (truthy_nonempty _ Hstart),
      (truthy_nonempty _ Hend), Hbinds, (andb_true_r (writable db)); reflexivity.
Qed.

End SetDoctorSlotsFacts.

Lemma filter_app_last {A : Type} (p : A -> bool) (l : list A) (x : A) :
  filter p (l ++ [x]) = filter p l ++ (if p x then [x] else []).
Proof.
  rewrite filter_app. reflexivity.
Qed.

Lemma filter_none {A : Type} (p q : A -> bool) (l : list A) :
  (forall x, q x = true -> p x = false) -> filter p (filter q l) = [].
Proof.
  intro H. induction l as [|x l IH]; [reflexivity|].
  cbn [filter]. destruct (q x) eqn:Hq; [|assumption].
  cbn [filter]. rewrite (H x Hq). assumption.
Qed.

Lemma window_where_posted (req : request) (doctor_id hospital : Z) :
  window_where doctor_id (field (form_of req) "day") hospital
    (posted_window req doctor_id hospital) = true.
Proof.
  unfold window_where, posted_window. cbn.
  rewrite !Z.eqb_refl, String.eqb_refl. reflexivity.
Qed.

(** X12: a complete POST to [set_doctor_slots] by an administrator, for a
    doctor of the administrator's hospital (both ids being integers of
    SQLite), on a database that accepts writes, replaces the doctor's window
    for the posted day: afterwards exactly one row has this doctor, day and
    hospital, and it holds the posted values with white space stripped and an
    empty break field stored as NULL; every other row of [doctor_slots] is
    kept, in its order, and the [staff], [doctors] and [appointments] tables
    do not change. *)
Theorem set_doctor_slots_replaces_the_window
    (sess : session) (req : request) (db : database) (doctor_id hospital : Z)
    (doctor : Doctors.row) (others : list Doctors.row) :
  authenticated sess -> hospital_id sess = Some hospital ->
  sqlite_int doctor_id = true -> sqlite_int hospital = true ->
  filter (doctor_where doctor_id hospital) (db_doctors db) = doctor :: others ->
  method req = "POST" ->
  field (form_of req) "day" <> EmptyString ->
  field (form_of req) "start_time" <> EmptyString ->
  field (form_of req) "end_time" <> EmptyString ->
  db_health db = Healthy ->
  exists out,
    set_doctor_slots sess req db doctor_id = Ok out
    /\ page_of out = RedirectViewDoctors
    /\ filter (window_where doctor_id (field (form_of req) "day") hospital)
              (db_doctor_slots (db_after out))
       = [posted_window req doctor_id hospital]
    /\ filter (fun r => negb (window_where doctor_id (field (form_of req) "day")
                                hospital r))
              (db_doctor_slots (db_after out))
       = filter (fun r => negb (window_where doctor_id (field (form_of req) "day")
                                  hospital r))
                (db_doctor_slots db)
    /\ db_staff (db_after out) = db_staff db
    /\ db_doctors (db_after out) = db_doctors db
    /\ db_appointments (db_after out) = db_appointments db
    /\ db_health (db_after out) = db_health db.
Proof.
  intros Hauth Hh Hid Hhosp Hdoc Hpost Hday Hstart Hend Hhealth.
  pose proof (binds_two _ _ Hid Hhosp) as Hb.
  eexists. split.
  - rewrite (set_doctor_slots_posts sess req db doctor_id hospital doctor others);
      try assumption; [|rewrite Hhealth; discriminate].
    unfold writable. rewrite Hhealth. reflexivity.
  - cbn [page_of db_after replace_window db_doctor_slots db_staff db_doctors
           db_appointments db_health].
    split; [reflexivity|]. split; [|split; [|auto]].
    + rewrite filter_app_last, window_where_posted.
      rewrite filter_none; [reflexivity|].
      intros r Hr. apply negb_true_iff in Hr. exact Hr.
    + rewrite filter_app_last, window_where_posted. cbn [negb].
      rewrite app_nil_r. apply filter_within. auto.
Qed.

Example example_post_fields :
  posted_window example_post 7 1
  = {| DoctorSlots.doctor_id := 7; DoctorSlots.day_of_week := "Monday";
       DoctorSlots.start_time := "08:00"; DoctorSlots.end_time := "09:00";
       DoctorSlots.break_start := None; DoctorSlots.break_end := None;
       DoctorSlots.hospital_id := 1 |}.
Proof. reflexivity. Qed.

Lemma set_doctor_slots_replaces_the_window_witness :
  exists out,
    set_doctor_slots admin_session example_post example_database 7 = Ok out
    /\ page_of out = RedirectViewDoctors
    /\ filter (window_where 7 (field (form_of example_post) "day") 1)
              (db_doctor_slots (db_after out))
       = [posted_window example_post 7 1]
    /\ filter (fun r => negb (window_where 7 (field (form_of example_post) "day") 1 r))
              (db_doctor_slots (db_after out))
       = filter (fun r => negb (window_where 7 (field (form_of example_post) "day") 1 r))
                (db_doctor_slots example_database)
    /\ db_staff (db_after out) = db_staff example_database
    /\ db_doctors (db_after out) = db_doctors example_database
    /\ db_appointments (db_after out) = db_appointments example_database
    /\ db_health (db_after out) = db_health example_database.
Proof.
  apply (set_doctor_slots_replaces_the_window admin_session example_post
           example_database 7 1
           rao []
           admin_session_authenticated eq_refl eq_refl eq_refl eq_refl eq_refl);
    try (vm_compute; discriminate). reflexivity.
Defined.

Lemma weekday_name_nonempty (w : Z) : weekday_name w <> EmptyString.
Proof.
  unfold weekday_name.
  repeat match goal with
         | |- context [if ?b then _ else _] => destruct b
         end; discriminate.
Qed.

Lemma strptime_Ymd_weekday_nonempty (date day : string) :
  strptime_Ymd_weekday date = Ok day -> day <> EmptyString.
Proof.
  unfold strptime_Ymd_weekday.
  destruct (split_at _ _) as [ys [rest|]]; [|discriminate].
  destruct (split_at _ rest) as [ms [ds|]]; [|discriminate].
  destruct (year_of ys) as [y|]; [|discriminate].
  destruct (month_of ms) as [m|]; [|discriminate].
  destruct (day_of ds) as [d|]; [|discriminate].
  destruct (_ && _); [|discriminate].
  intro H. apply (f_equal (fun r => match r with Ok x => x | Raise _ => day end)) in H.
  cbn beta iota in H. rewrite <- H. apply weekday_name_nonempty.
Qed.

(** X13: what [set_doctor_slots] stores is what [get_doctor_slots] serves.
    After a complete POST by an administrator for a doctor of the hospital
    (both ids being integers of SQLite, as every stored id is), with times
    that parse, a request of the same administrator for that
    doctor and any date whose weekday is the posted day is answered with
    status 200 and the slots that [generate_time_slots] returns for the
    posted window, whatever windows were stored for that day before; the
    booked slots are those of the appointments, which the POST leaves
    alone. *)
Theorem set_doctor_slots_then_get_doctor_slots
    (fuel : nat) (sess : session) (req : request) (db : database)
    (doctor_id hospital : Z) (doctor : Doctors.row) (others : list Doctors.row)
    (date : string) (s e : datetime) (w : option (datetime * datetime)) :
  (1440 <= fuel)%nat ->
  authenticated sess -> hospital_id sess = Some hospital ->
  sqlite_int doctor_id = true -> sqlite_int hospital = true ->
  filter (doctor_where doctor_id hospital) (db_doctors db) = doctor :: others ->
  method req = "POST" -> db_health db = Healthy ->
  strptime_Ymd_weekday date = Ok (field (form_of req) "day") ->
  strptime_HM (field (form_of req) "start_time") = Ok s ->
  strptime_HM (field (form_of req) "end_time") = Ok e ->
  break_times (or_None (field (form_of req) "break_start"))
              (or_None (field (form_of req) "break_end")) = Ok w ->
  exists out slots,
    set_doctor_slots sess req db doctor_id = Ok out
    /\ returns (field (form_of req) "start_time") (field (form_of req) "end_time")
               (or_None (field (form_of req) "break_start"))
               (or_None (field (form_of req) "break_end")) 15 slots
    /\ get_doctor_slots fuel sess doctor_id date (Ok (connection_of (db_after out)))
       = Some (Ok {| json :=
                       SlotList slots
                         (map Appointments.time_slot
                            (filter (booked_where doctor_id date hospital)
                               (map AppointmentRecord.columns (db_appointments db))));
                     status_code := 200 |}).
Proof.
  intros Hf Hauth Hh Hid Hhosp Hdoc Hpost Hhealth Hdate Hs He Hw.
  pose proof (binds_two _ _ Hid Hhosp) as Hb.
  assert (Hne : forall x t, strptime_HM x = Ok t -> x <> EmptyString).
  { intros x t Hx ->. discriminate. }
  assert (Hday : field (form_of req) "day" <> EmptyString)
    by exact (strptime_Ymd_weekday_nonempty _ _ Hdate).
  destruct (generate_returns_unless_overflow _ _ _ _ 15 s e w Hs He Hw) as [slots Hret].
  { lia. }
  { intros _. apply strptime_HM_range in Hs. rewrite dt_max_value. lia. }
  eexists. exists slots. split; [|split; [exact Hret|]].
  - rewrite (set_doctor_slots_posts sess req db doctor_id hospital doctor others
               Hauth Hh Hdoc Hb Hpost Hday (Hne _ _ Hs) (Hne _ _ He))
      by (rewrite Hhealth; discriminate).
    unfold writable. rewrite Hhealth. reflexivity.
  - cbn [db_after]. unfold connection_of.
    cbn [replace_window db_health db_doctor_slots db_appointments]. rewrite Hhealth.
    rewrite view_authenticated by assumption. rewrite Hdate.
    set (rows' := filter _ (db_doctor_slots db) ++ [posted_window req doctor_id hospital]).
    set (conn' := {| doctor_slots := Rows rows';
                     appointments :=
                       Rows (map AppointmentRecord.columns (db_appointments db)) |}).
    assert (Hhd : hd_error (filter (slot_info_where doctor_id
                                      (field (form_of req) "day") hospital) rows')
                  = Some (posted_window req doctor_id hospital)).
    { change (slot_info_where doctor_id (field (form_of req) "day") hospital)
        with (window_where doctor_id (field (form_of req) "day") hospital).
      unfold rows'. rewrite filter_app_last, window_where_posted.
      rewrite filter_none; [reflexivity|].
      intros r Hr. apply negb_true_iff in Hr. exact Hr. }
    rewrite (try_body_window fuel sess doctor_id date conn' (field (form_of req) "day")
               hospital rows' (posted_window req doctor_id hospital) slots
               Hf Hh eq_refl Hb Hhd Hret).
    unfold conn'. cbn [appointments select]. rewrite Hb. reflexivity.
Qed.

Lemma set_doctor_slots_then_get_doctor_slots_witness :
  exists out slots,
    set_doctor_slots admin_session example_post example_database 7 = Ok out
    /\ returns (field (form_of example_post) "start_time")
               (field (form_of example_post) "end_time")
               (or_None (field (form_of example_post) "break_start"))
               (or_None (field (form_of example_post) "break_end")) 15 slots
    /\ get_doctor_slots 1440 admin_session 7 "2024-01-08"
         (Ok (connection_of (db_after out)))
       = Some (Ok {| json :=
                       SlotList slots
                         (map Appointments.time_slot
                            (filter (booked_where 7 "2024-01-08" 1)
                               (map AppointmentRecord.columns
                                  (db_appointments example_database))));
                     status_code := 200 |}).
Proof.
  apply (set_doctor_slots_then_get_doctor_slots 1440 admin_session example_post
           example_database 7 1
           rao []
           "2024-01-08" 480 540 None (le_n 1440) admin_session_authenticated
           eq_refl eq_refl eq_refl eq_refl eq_refl eq_refl eq_refl eq_refl eq_refl
           eq_refl).
Defined.

Example monday_after_the_post :
  option_map (fun out =>
                get_doctor_slots 100 admin_session 7 "2024-01-08"
                  (Ok (connection_of (db_after out))))
    (match set_doctor_slots admin_session example_post example_database 7 with
     | Ok out => Some out
     | Raise _ => None
     end)
  = Some (Some (Ok {| json := SlotList (tiles 480 15 4) []; status_code := 200 |})).
Proof. reflexivity. Qed.

Lemma windows_page_db (db : database) (doctor_id : Z) (closed : bool) (hospital : Z)
    (doctor : Doctors.row) (flashed : list (string * string)) :
  db_after (windows_page db doctor_id closed hospital doctor flashed) = db.
Proof.
  unfold windows_page. destruct (query _ _ _ _ _); reflexivity.
Qed.

(** The only change that [set_doctor_slots] ever commits. *)
Lemma set_doctor_slots_db (sess : session) (req : request) (db : database)
    (doctor_id : Z) (out : outcome) :
  set_doctor_slots sess req db doctor_id = Ok out ->
  db_after out = db
  \/ exists hospital,
       hospital_id sess = Some hospital
       /\ db_after out = replace_window req db doctor_id hospital.
Proof.
  unfold set_doctor_slots.
  destruct (user_id sess); [|intros [= <-]; auto].
  destruct (user_type sess) as [ut|]; cbn [getitem bind]; [|discriminate].
  destruct (negb (String.eqb ut "admin")); [intros [= <-]; auto|].
  destruct (hospital_id sess) as [h|]; cbn [getitem bind]; [|discriminate].
  destruct (query db false [doctor_id; h] (db_doctors db) (doctor_where doctor_id h))
    as [[|doctor rest]|]; cbn [bind]; try discriminate.
  - intros [= <-]. auto.
  - destruct (String.eqb (method req) "POST"); intros [= <-].
    + unfold post_window. destruct (negb _); [auto|].
      destruct (writes db [doctor_id; h]); [right; eauto|].
      left. apply windows_page_db.
    + left. apply windows_page_db.
Qed.

Lemma connection_of_same_slots (db db' : database) (fuel : nat) (sess : session)
    (doctor_id : Z) (date : string) :
  db_health db' = db_health db ->
  db_appointments db' = db_appointments db ->
  (forall day h, hospital_id sess = Some h ->
     filter (slot_info_where doctor_id day h) (db_doctor_slots db')
     = filter (slot_info_where doctor_id day h) (db_doctor_slots db)) ->
  get_doctor_slots fuel sess doctor_id date (Ok (connection_of db'))
  = get_doctor_slots fuel sess doctor_id date (Ok (connection_of db)).
Proof.
  intros Hh Ha Hs. apply get_doctor_slots_ext; unfold connection_of; rewrite Hh, Ha.
  - intros day h Hsess. destruct (db_health db); cbn [doctor_slots select];
      try reflexivity; rewrite (Hs day h Hsess); reflexivity.
  - intros h _. destruct (db_health db); reflexivity.
Qed.

Lemma slot_info_where_true (d : Z) (day : string) (h : Z) (r : DoctorSlots.row) :
  slot_info_where d day h r = true ->
  DoctorSlots.doctor_id r = d /\ DoctorSlots.hospital_id r = h.
Proof.
  unfold slot_info_where. intro H.
  apply andb_true_iff in H. destruct H as [H Hh].
  apply andb_true_iff in H. destruct H as [Hd _].
  apply Z.eqb_eq in Hd, Hh. auto.
Qed.

Lemma window_where_true (d : Z) (day : string) (h : Z) (r : DoctorSlots.row) :
  window_where d day h r = true ->
  DoctorSlots.doctor_id r = d /\ DoctorSlots.hospital_id r = h.
Proof.
  exact (slot_info_where_true d day h r).
Qed.

(** A query for another doctor or another hospital sees the doctor's windows
    neither before nor after they are replaced. *)
Lemma replace_window_elsewhere (req : request) (db : database)
    (doctor_id h d' h' : Z) (day : string) :
  d' <> doctor_id \/ h' <> h ->
  filter (slot_info_where d' day h') (db_doctor_slots (replace_window req db doctor_id h))
  = filter (slot_info_where d' day h') (db_doctor_slots db).
Proof.
  intro Hother. cbn [replace_window db_doctor_slots]. rewrite filter_app_last.
  destruct (slot_info_where d' day h' (posted_window req doctor_id h)) eqn:Hp.
  - apply slot_info_where_true in Hp. cbn in Hp. lia.
  - rewrite app_nil_r. apply filter_within. intros r Hr.
    apply slot_info_where_true in Hr. apply negb_true_iff.
    destruct (window_where doctor_id (field (form_of req) "day") h r) eqn:Hw;
      [|reflexivity].
    apply window_where_true in Hw. lia.
Qed.

(** X14: [set_doctor_slots] never changes the [staff], the [doctors] or the
    [appointments] table, and whatever it does, the answers of
    [get_doctor_slots] to sessions of other hospitals and for other doctors
    stay the same. *)
Theorem set_doctor_slots_leaves_others_alone
    (sess : session) (req : request) (db : database) (doctor_id : Z)
    (out : outcome) :
  set_doctor_slots sess req db doctor_id = Ok out ->
  db_staff (db_after out) = db_staff db
  /\ db_doctors (db_after out) = db_doctors db
  /\ db_appointments (db_after out) = db_appointments db
  /\ forall fuel sess' doctor_id' date,
       hospital_id sess' <> hospital_id sess \/ doctor_id' <> doctor_id ->
       get_doctor_slots fuel sess' doctor_id' date (Ok (connection_of (db_after out)))
       = get_doctor_slots fuel sess' doctor_id' date (Ok (connection_of db)).
Proof.
  intro Hout. destruct (set_doctor_slots_db _ _ _ _ _ Hout) as [->|(h & Hh & ->)].
  - auto.
  - split; [reflexivity|]. split; [reflexivity|]. split; [reflexivity|].
    intros fuel sess' d' date Hother.
    apply connection_of_same_slots; try reflexivity.
    intros day h' Hh'. apply replace_window_elsewhere.
    destruct Hother as [Hs|Hd]; [right|left; assumption].
    intros ->. congruence.
Qed.

Lemma set_doctor_slots_leaves_others_alone_witness :
  db_staff (replace_window example_post example_database 7 1)
  = db_staff example_database
  /\ db_doctors (replace_window example_post example_database 7 1)
     = db_doctors example_database
  /\ db_appointments (replace_window example_post example_database 7 1)
     = db_appointments example_database
  /\ forall fuel sess' doctor_id' date,
       hospital_id sess' <> hospital_id admin_session \/ doctor_id' <> 7 ->
       get_doctor_slots fuel sess' doctor_id' date
         (Ok (connection_of (replace_window example_post example_database 7 1)))
       = get_doctor_slots fuel sess' doctor_id' date
           (Ok (connection_of example_database)).
Proof.
  apply (set_doctor_slots_leaves_others_alone admin_session example_post
           example_database 7
           {| page_of := RedirectViewDoctors;
              flashes := [("Doctor availability slots updated successfully!",
                           "success")];
              db_after := replace_window example_post example_database 7 1 |}).
  reflexivity.
Defined.

(** X15: when the write of a complete POST to [set_doctor_slots] (for ids
    that are integers of SQLite, as every stored id is) fails, the
    database stays as it was, and the page that follows lists no window at
    all, whatever windows the doctor has: [finally] has closed the
    connection before the list is queried, so both 'Error updating slots' and
    'Error loading doctor data' are flashed. *)
Theorem set_doctor_slots_failed_write_lists_nothing
    (sess : session) (req : request) (db : database) (doctor_id hospital : Z)
    (doctor : Doctors.row) (others : list Doctors.row) :
  authenticated sess -> hospital_id sess = Some hospital ->
  sqlite_int doctor_id = true -> sqlite_int hospital = true ->
  filter (doctor_where doctor_id hospital) (db_doctors db) = doctor :: others ->
  method req = "POST" ->
  field (form_of req) "day" <> EmptyString ->
  field (form_of req) "start_time" <> EmptyString ->
  field (form_of req) "end_time" <> EmptyString ->
  db_health db = ReadOnly ->
  set_doctor_slots sess req db doctor_id
  = Ok {| page_of := RenderSetDoctorSlots doctor [];
          flashes := [("Error updating slots", "danger");
                      ("Error loading doctor data", "danger")];
          db_after := db |}.
Proof.
  intros Hauth Hh Hid Hhosp Hdoc Hpost Hday Hstart Hend Hhealth.
  rewrite (set_doctor_slots_posts sess req db doctor_id hospital doctor others
             Hauth Hh Hdoc (binds_two _ _ Hid Hhosp) Hpost Hday Hstart Hend)
    by (rewrite Hhealth; discriminate).
  unfold writable. rewrite Hhealth. reflexivity.
Qed.

Lemma set_doctor_slots_failed_write_lists_nothing_witness :
  set_doctor_slots admin_session example_post read_only_database 7
  = Ok {| page_of :=
            RenderSetDoctorSlots
              rao
              [];
          flashes := [("Error updating slots", "danger");
                      ("Error loading doctor data", "danger")];
          db_after := read_only_database |}.
Proof.
  apply (set_doctor_slots_failed_write_lists_nothing admin_session example_post
           read_only_database 7 1
           rao []
           admin_session_authenticated eq_refl eq_refl eq_refl eq_refl eq_refl);
    try (vm_compute; discriminate). reflexivity.
Defined.

(** An id that SQLite cannot hold: the lookup of [set_doctor_slots] stands
    before its [try], the writes of the other two views stand inside. *)
Example oversized_ids_on_known_values :
  set_doctor_slots admin_session example_post example_database 9223372036854775808
  = Raise OverflowError
  /\ update_appointment_status rao_session example_post example_database
       9223372036854775808
     = Ok {| page_of := RedirectDoctorAppointments;
             flashes := [("Error updating status", "danger")];
             db_after := example_database |}
  /\ delete_appointment admin_session example_database 9223372036854775808
     = Ok {| page_of := RedirectViewAppointments;
             flashes := [("Error deleting appointment", "danger")];
             db_after := example_database |}.
Proof. repeat split; reflexivity. Qed.

(** ** [update_appointment_status] and [delete_appointment] *)

(** The only change that [update_appointment_status] ever commits. *)
Lemma update_appointment_status_db (sess : session) (req : request) (db : database)
    (appointment_id : Z) (out : outcome) :
  update_appointment_status sess req db appointment_id = Ok out ->
  db_after out = db
  \/ exists doctor hospital,
       user_id sess = Some doctor /\ user_type sess = Some "doctor"
       /\ hospital_id sess = Some hospital
       /\ db_health db = Healthy
       /\ field (form_of req) "status" <> EmptyString
       /\ db_after out
          = update_status db appointment_id (field (form_of req) "status")
              doctor hospital.
Proof.
  unfold update_appointment_status.
  destruct (user_id sess) as [doctor|]; [|intros [= <-]; auto].
  destruct (user_type sess) as [ut|]; cbn [getitem bind]; [|discriminate].
  destruct (String.eqb_spec ut "doctor") as [->|_]; cbn [negb];
    [|intros [= <-]; auto].
  destruct (field (form_of req) "status") as [|c st] eqn:Est;
    cbn [truthy String.eqb negb]; [intros [= <-]; auto|].
  destruct (hospital_id sess) as [h|]; cbn [getitem]; [|intros [= <-]; auto].
  unfold writes, writable.
  destruct (db_health db) eqn:Eh; cbn [andb];
    try (intros [= <-]; auto);
    destruct (binds [appointment_id; doctor; h]); intros [= <-]; auto.
  right. exists doctor, h. repeat split. discriminate.
Qed.

Lemma own_appointment_true (appointment_id doctor hospital : Z)
    (a : AppointmentRecord.row) :
  own_appointment appointment_id doctor hospital a = true ->
  AppointmentRecord.id a = appointment_id
  /\ Appointments.doctor_id (AppointmentRecord.columns a) = doctor
  /\ Appointments.hospital_id (AppointmentRecord.columns a) = hospital.
Proof.
  unfold own_appointment. intro H.
  apply andb_true_iff in H. destruct H as [H Hh].
  apply andb_true_iff in H. destruct H as [Hi Hd].
  apply Z.eqb_eq in Hi, Hd, Hh. auto.
Qed.

(** X16: [update_appointment_status] changes nothing but the status column
    of [appointments] (the [staff], [doctors] and [doctor_slots] tables stay
    as they are), and the status only of rows that have the requested id and
    belong to the doctor of the session and to the session's hospital: a
    doctor cannot touch an appointment of another doctor or hospital, and no
    row is added or removed. *)
Theorem update_appointment_status_changes_only_own_status
    (sess : session) (req : request) (db : database) (appointment_id : Z)
    (out : outcome) :
  update_appointment_status sess req db appointment_id = Ok out ->
  db_staff (db_after out) = db_staff db
  /\ db_doctors (db_after out) = db_doctors db
  /\ db_doctor_slots (db_after out) = db_doctor_slots db
  /\ Forall2
       (same_but_status (fun a =>
          AppointmentRecord.id a = appointment_id
          /\ user_type sess = Some "doctor"
          /\ user_id sess = Some (Appointments.doctor_id (AppointmentRecord.columns a))
          /\ hospital_id sess
             = Some (Appointments.hospital_id (AppointmentRecord.columns a))))
       (db_appointments db) (db_appointments (db_after out)).
Proof.
  intro Hout.
  assert (Hrefl : forall P (l : list AppointmentRecord.row),
             Forall2 (same_but_status P) l l).
  { intros P l. induction l; constructor; [|assumption].
    unfold same_but_status. repeat (split; [reflexivity|]). intro H. contradiction. }
  destruct (update_appointment_status_db _ _ _ _ _ Hout)
    as [->|(doctor & h & Hu & Ht & Hh & _ & _ & ->)]; [auto|].
  split; [reflexivity|]. split; [reflexivity|]. split; [reflexivity|].
  cbn [update_status db_appointments].
  induction (db_appointments db) as [|a l IH]; cbn [map]; constructor; [|exact IH].
  destruct (own_appointment appointment_id doctor h a) eqn:Hown.
  - apply own_appointment_true in Hown. destruct Hown as (Hi & Hd & Hho).
    unfold same_but_status, with_status. cbn.
    repeat (split; [reflexivity|]). intros _. repeat split; congruence.
  - unfold same_but_status. repeat (split; [reflexivity|]). intro H. contradiction.
Qed.

Lemma update_appointment_status_changes_only_own_status_witness :
  db_staff (update_status example_database 1 "Cancelled" 7 1)
  = db_staff example_database
  /\ db_doctors (update_status example_database 1 "Cancelled" 7 1)
     = db_doctors example_database
  /\ db_doctor_slots (update_status example_database 1 "Cancelled" 7 1)
     = db_doctor_slots example_database
  /\ Forall2
       (same_but_status (fun a =>
          AppointmentRecord.id a = 1
          /\ user_type rao_session = Some "doctor"
          /\ user_id rao_session
             = Some (Appointments.doctor_id (AppointmentRecord.columns a))
          /\ hospital_id rao_session
             = Some (Appointments.hospital_id (AppointmentRecord.columns a))))
       (db_appointments example_database)
       (db_appointments (update_status example_database 1 "Cancelled" 7 1)).
Proof.
  apply (update_appointment_status_changes_only_own_status rao_session example_post
           example_database 1
           {| page_of := RedirectDoctorAppointments;
              flashes := [("Appointment status updated successfully!", "success")];
              db_after := update_status example_database 1 "Cancelled" 7 1 |}).
  reflexivity.
Defined.

Lemma booked_after_cancel (appointment_id doctor hospital : Z)
    (p : Appointments.row -> bool) (rows : list AppointmentRecord.row) :
  (forall a, p (AppointmentRecord.columns (with_status "Cancelled" a)) = false) ->
  filter p
    (map AppointmentRecord.columns
       (map (fun a => if own_appointment appointment_id doctor hospital a
                      then with_status "Cancelled" a else a) rows))
  = filter p
      (map AppointmentRecord.columns
         (filter (fun a => negb (own_appointment appointment_id doctor hospital a))
            rows)).
Proof.
  intros Hp. induction rows as [|a l IH]; [reflexivity|].
  cbn [map filter]. destruct (own_appointment appointment_id doctor hospital a);
    cbn [negb map filter].
  - rewrite Hp. exact IH.
  - rewrite IH. reflexivity.
Qed.

(** X17: cancelling frees the slot. When a doctor posts the status
    'Cancelled' (white space around it is stripped) for an appointment (the
    ids of the appointment, the doctor and the hospital being integers of
    SQLite, as every stored id is), on a database that accepts writes, every
    later answer of [get_doctor_slots] is
    the answer it would give if the doctor's appointments with that id had
    been deleted. *)
Theorem cancelled_appointment_no_longer_books
    (sess : session) (req : request) (db : database)
    (appointment_id doctor hospital : Z) :
  user_id sess = Some doctor -> user_type sess = Some "doctor" ->
  hospital_id sess = Some hospital ->
  sqlite_int appointment_id = true -> sqlite_int doctor = true ->
  sqlite_int hospital = true ->
  field (form_of req) "status" = "Cancelled" ->
  db_health db = Healthy ->
  exists out,
    update_appointment_status sess req db appointment_id = Ok out
    /\ forall fuel sess' doctor_id' date,
         get_doctor_slots fuel sess' doctor_id' date (Ok (connection_of (db_after out)))
         = get_doctor_slots fuel sess' doctor_id' date
             (Ok (connection_of
                    (without_appointments
                       (own_appointment appointment_id doctor hospital) db))).
Proof.
  intros Hu Ht Hh Hid Hdoc Hhosp Hst Hhealth. eexists. split.
  - unfold update_appointment_status. rewrite Hu, Ht, Hh, Hst.
    cbn [getitem bind String.eqb Ascii.eqb Bool.eqb negb truthy].
    unfold writes, writable.
    rewrite Hhealth, (binds_three _ _ _ Hid Hdoc Hhosp). reflexivity.
  - cbn [db_after]. intros fuel sess' d' date.
    apply get_doctor_slots_ext; unfold connection_of;
      cbn [update_status without_appointments db_health db_doctor_slots db_appointments];
      rewrite Hhealth; cbn [doctor_slots appointments select]; [reflexivity|].
    intros h' _. destruct (binds [d'; h']); [|reflexivity].
    f_equal. apply booked_after_cancel.
    intro a. unfold booked_where. cbn. rewrite andb_false_r. reflexivity.
Qed.

Lemma cancelled_appointment_no_longer_books_witness :
  exists out,
    update_appointment_status rao_session example_post example_database 1 = Ok out
    /\ forall fuel sess' doctor_id' date,
         get_doctor_slots fuel sess' doctor_id' date (Ok (connection_of (db_after out)))
         = get_doctor_slots fuel sess' doctor_id' date
             (Ok (connection_of
                    (without_appointments (own_appointment 1 7 1) example_database))).
Proof.
  apply (cancelled_appointment_no_longer_books rao_session example_post
           example_database 1 7 1 eq_refl eq_refl eq_refl eq_refl eq_refl eq_refl
           eq_refl eq_refl).
Defined.

Example monday_after_the_cancellation :
  option_map (fun out =>
                get_doctor_slots 100 admin_session 7 "2024-01-01"
                  (Ok (connection_of (db_after out))))
    (match update_appointment_status rao_session example_post example_database 1 with
     | Ok out => Some out
     | Raise _ => None
     end)
  = Some (Some (Ok {| json := SlotList (tiles 540 15 4) []; status_code := 200 |})).
Proof. reflexivity. Qed.

(** The only change that [delete_appointment] ever commits. *)
Lemma delete_appointment_db (sess : session) (db : database) (appointment_id : Z)
    (out : outcome) :
  delete_appointment sess db appointment_id = Ok out ->
  db_after out = db
  \/ exists hospital,
       hospital_id sess = Some hospital
       /\ db_after out = delete_rows db appointment_id hospital.
Proof.
  unfold delete_appointment.
  destruct (user_id sess); [|intros [= <-]; auto].
  destruct (user_type sess) as [ut|]; cbn [getitem bind]; [|discriminate].
  destruct (negb (String.eqb ut "admin")); [intros [= <-]; auto|].
  destruct (hospital_id sess) as [h|]; cbn [getitem]; [|intros [= <-]; auto].
  destruct (writes db [appointment_id; h]); intros [= <-]; eauto.
Qed.

Lemma deleted_appointment_true (appointment_id hospital : Z)
    (a : AppointmentRecord.row) :
  deleted_appointment appointment_id hospital a = true ->
  AppointmentRecord.id a = appointment_id
  /\ Appointments.hospital_id (AppointmentRecord.columns a) = hospital.
Proof.
  unfold deleted_appointment. intro H.
  apply andb_true_iff in H. destruct H as [Hi Hh].
  apply Z.eqb_eq in Hi, Hh. auto.
Qed.

Lemma filter_map_columns (p : Appointments.row -> bool)
    (l : list AppointmentRecord.row) :
  filter p (map AppointmentRecord.columns l)
  = map AppointmentRecord.columns
      (filter (fun a => p (AppointmentRecord.columns a)) l).
Proof.
  induction l as [|a l IH]; [reflexivity|].
  cbn [map filter]. rewrite IH. destruct (p (AppointmentRecord.columns a)); reflexivity.
Qed.

Lemma connection_of_same_bookings (db db' : database) (fuel : nat) (sess : session)
    (doctor_id : Z) (date : string) :
  db_health db' = db_health db ->
  db_doctor_slots db' = db_doctor_slots db ->
  (forall h, hospital_id sess = Some h ->
     filter (booked_where doctor_id date h)
            (map AppointmentRecord.columns (db_appointments db'))
     = filter (booked_where doctor_id date h)
              (map AppointmentRecord.columns (db_appointments db))) ->
  get_doctor_slots fuel sess doctor_id date (Ok (connection_of db'))
  = get_doctor_slots fuel sess doctor_id date (Ok (connection_of db)).
Proof.
  intros Hh Hs Ha. apply get_doctor_slots_ext; unfold connection_of; rewrite Hh, Hs.
  - intros day h _. destruct (db_health db); reflexivity.
  - intros h Hsess. destruct (db_health db); cbn [appointments select];
      try reflexivity; rewrite (Ha h Hsess); reflexivity.
Qed.

(** X18: [delete_appointment] removes appointments of the session's hospital
    only: the [staff], [doctors] and [doctor_slots] tables and every appointment of
    another hospital stay as they are, even one with the requested id, and
    the answers of [get_doctor_slots] to sessions of other hospitals do not
    change. *)
Theorem delete_appointment_stays_in_the_hospital
    (sess : session) (db : database) (appointment_id : Z) (out : outcome) :
  delete_appointment sess db appointment_id = Ok out ->
  db_staff (db_after out) = db_staff db
  /\ db_doctors (db_after out) = db_doctors db
  /\ db_doctor_slots (db_after out) = db_doctor_slots db
  /\ (forall h, hospital_id sess <> Some h ->
       filter (fun a => Appointments.hospital_id (AppointmentRecord.columns a) =? h)
              (db_appointments (db_after out))
       = filter (fun a => Appointments.hospital_id (AppointmentRecord.columns a) =? h)
                (db_appointments db))
  /\ (forall fuel sess' doctor_id date,
       hospital_id sess' <> hospital_id sess ->
       get_doctor_slots fuel sess' doctor_id date (Ok (connection_of (db_after out)))
       = get_doctor_slots fuel sess' doctor_id date (Ok (connection_of db))).
Proof.
  intro Hout. destruct (delete_appointment_db _ _ _ _ Hout) as [->|(h0 & Hh0 & ->)].
  - auto.
  - assert (Hkeep : forall (p : AppointmentRecord.row -> bool) h,
               h <> h0 ->
               (forall a, p a = true ->
                          Appointments.hospital_id (AppointmentRecord.columns a) = h) ->
               filter p (db_appointments (delete_rows db appointment_id h0))
               = filter p (db_appointments db)).
    { intros p h Hne Hp. cbn [delete_rows db_appointments]. apply filter_within.
      intros a Ha. apply Hp in Ha. apply negb_true_iff.
      destruct (deleted_appointment appointment_id h0 a) eqn:Hd; [|reflexivity].
      apply deleted_appointment_true in Hd. lia. }
    split; [reflexivity|]. split; [reflexivity|]. split; [reflexivity|]. split.
    + intros h Hne. apply (Hkeep _ h); [congruence|].
      intros a Ha. apply Z.eqb_eq in Ha. exact Ha.
    + intros fuel sess' d date Hne.
      apply connection_of_same_bookings; try reflexivity.
      intros h Hh. rewrite !filter_map_columns. f_equal.
      apply (Hkeep _ h); [congruence|].
      intros a Ha. unfold booked_where in Ha. apply andb_true_iff in Ha.
      destruct Ha as [_ Ha]. apply Z.eqb_eq in Ha. exact Ha.
Qed.

Lemma delete_appointment_stays_in_the_hospital_witness :
  db_staff (delete_rows example_database 3 1) = db_staff example_database
  /\ db_doctors (delete_rows example_database 3 1) = db_doctors example_database
  /\ db_doctor_slots (delete_rows example_database 3 1)
     = db_doctor_slots example_database
  /\ (forall h, hospital_id admin_session <> Some h ->
       filter (fun a => Appointments.hospital_id (AppointmentRecord.columns a) =? h)
              (db_appointments (delete_rows example_database 3 1))
       = filter (fun a => Appointments.hospital_id (AppointmentRecord.columns a) =? h)
                (db_appointments example_database))
  /\ (forall fuel sess' doctor_id date,
       hospital_id sess' <> hospital_id admin_session ->
       get_doctor_slots fuel sess' doctor_id date
         (Ok (connection_of (delete_rows example_database 3 1)))
       = get_doctor_slots fuel sess' doctor_id date
           (Ok (connection_of example_database))).
Proof.
  apply (delete_appointment_stays_in_the_hospital admin_session example_database 3
           {| page_of := RedirectViewAppointments;
              flashes := [("Appointment deleted successfully!", "success")];
              db_after := delete_rows example_database 3 1 |}).
  reflexivity.
Defined.

Example delete_of_another_hospital_keeps_the_row :
  option_map (fun out => db_appointments (db_after out))
    (match delete_appointment admin_session example_database 3 with
     | Ok out => Some out
     | Raise _ => None
     end)
  = Some (db_appointments example_database).
Proof. reflexivity. Qed.

(** * The session: [home], [login], [doctor_login] and [logout] *)

Lemma query_first {A : Type} (db : database) (closed : bool) (params : list Z)
    (rows : list A) (p : A -> bool) (x : A) (rest : list A) :
  query db closed params rows p = Ok (x :: rest) ->
  In x rows /\ p x = true.
Proof.
  unfold query. destruct closed; [discriminate|].
  destruct (db_health db); try discriminate;
    (destruct (binds params); [|discriminate]);
    intros [= H]; apply filter_In; rewrite H; left; reflexivity.
Qed.

Lemma doctors_join_staff_In (db : database) (d : Doctors.row) (s : Staff.row) :
  In (d, s) (doctors_join_staff db) ->
  In d (db_doctors db) /\ In s (db_staff db) /\ Staff.id s = Doctors.hospital_id d.
Proof.
  unfold doctors_join_staff. intro H.
  apply in_flat_map in H. destruct H as [d' [Hd H]].
  apply in_map_iff in H. destruct H as [s' [[= <- <-] Hs]].
  apply filter_In in Hs. destruct Hs as [Hs Hid].
  apply Z.eqb_eq in Hid. auto.
Qed.

Lemma account_where_true (username : string) (d : Doctors.row) (s : Staff.row) :
  account_where username (d, s) = true ->
  Doctors.username d = Some username /\ exists pwhash, Doctors.password d = Some pwhash.
Proof.
  unfold account_where. cbn [fst].
  destruct (Doctors.username d) as [u|]; [|discriminate].
  destruct (Doctors.password d) as [h|]; [|discriminate].
  intro H. apply String.eqb_eq in H. subst u. eauto.
Qed.

(** The doctor's branch: the session changes only for a doctor of the table
    with that username whose stored hash accepts the password. *)
Lemma doctor_account_cases (check_password_hash : string -> string -> bool)
    (st : cookie) (db : database) (template : page)
    (username password user_type : string) :
  let out := doctor_account check_password_hash st db template username password user_type in
  (session_after out = st /\ login_page out = template)
  \/ exists d s pwhash,
       In d (db_doctors db) /\ In s (db_staff db)
       /\ Staff.id s = Doctors.hospital_id d
       /\ Doctors.username d = Some username
       /\ Doctors.password d = Some pwhash
       /\ check_password_hash pwhash password = true
       /\ session_after out = doctor_cookie (d, s) user_type
       /\ login_page out = RedirectDoctorDashboard.
Proof.
  cbv zeta. unfold doctor_account.
  destruct (query db false [] (doctors_join_staff db) (account_where username))
    as [[|[d s] rest]|x] eqn:Hq; cbn [session_after login_page invalid_credentials login_error];
    auto.
  apply query_first in Hq. destruct Hq as [Hin Hw].
  apply doctors_join_staff_In in Hin. destruct Hin as [Hd [Hs Hid]].
  apply account_where_true in Hw. destruct Hw as [Hu [pwhash Hp]].
  cbn [fst]. rewrite Hp.
  destruct (check_password_hash pwhash password) eqn:Hc;
    cbn [session_after login_page invalid_credentials]; auto.
  right. exists d, s, pwhash. repeat split; auto.
Qed.

(** X19: [login] changes the session only when [check_password_hash] accepts
    the posted password for the stored hash: with user_type 'admin', the hash
    of a [staff] row with the posted e-mail, whose id becomes both user_id
    and hospital_id; with any other user_type, the hash of a [doctors] row
    with the posted username, joined to the [staff] row of its hospital. In
    every other case, a failed login included, the session of the request
    is left as it was. *)
Theorem login_needs_the_stored_password
    (check_password_hash : string -> string -> bool)
    (st : cookie) (req : request) (db : database) :
  let out := login check_password_hash st req db in
  let username := field (form_of req) "username" in
  let password := field (form_of req) "password" in
  let user_type := field (form_of req) "user_type" in
  (session_after out = st
   /\ login_page out <> RedirectAdminDashboard
   /\ login_page out <> RedirectDoctorDashboard)
  \/ (user_type = "admin"
      /\ exists user,
           In user (db_staff db)
           /\ Staff.email user = username
           /\ check_password_hash (Staff.password user) password = true
           /\ session_after out = staff_cookie user "admin"
           /\ login_page out = RedirectAdminDashboard)
  \/ (user_type <> "admin"
      /\ exists d s pwhash,
           In d (db_doctors db) /\ In s (db_staff db)
           /\ Staff.id s = Doctors.hospital_id d
           /\ Doctors.username d = Some username
           /\ Doctors.password d = Some pwhash
           /\ check_password_hash pwhash password = true
           /\ session_after out = doctor_cookie (d, s) user_type
           /\ login_page out = RedirectDoctorDashboard).
Proof.
  cbv zeta. unfold login.
  destruct (String.eqb (method req) "POST");
    [|left; cbn; repeat split; discriminate].
  destruct (negb _);
    [left; cbn; repeat split; discriminate|].
  destruct (String.eqb (field (form_of req) "user_type") "admin") eqn:Hut.
  - apply String.eqb_eq in Hut.
    destruct (query db false [] (db_staff db) (staff_where (field (form_of req) "username")))
      as [[|user rest]|x] eqn:Hq;
      try (left; cbn; repeat split; discriminate).
    apply query_first in Hq. destruct Hq as [Hin Hw].
    apply String.eqb_eq in Hw.
    destruct (check_password_hash (Staff.password user) _) eqn:Hc;
      [|left; cbn; repeat split; discriminate].
    right. left. split; [exact Hut|].
    exists user. rewrite Hut. cbn. repeat split; auto.
  - apply String.eqb_neq in Hut.
    destruct (doctor_account_cases check_password_hash st db RenderLogin
                (field (form_of req) "username") (field (form_of req) "password")
                (field (form_of req) "user_type")) as [[Hs Hp]|H].
    + left. rewrite Hs, Hp. repeat split; discriminate.
    + right. right. split; [exact Hut|exact H].
Qed.

(** The administrator of the example logs in; a wrong password, a doctor
    without credentials and a lost database leave the session alone. *)
Example login_on_known_values :
  keys (session_after (login example_check cleared
          (login_post "admin@hospital.com" " admin123 " "admin") example_database))
    = admin_session
  /\ keys (session_after (login example_check cleared
          (login_post "rao" "pw7" "doctor") example_database))
    = rao_session
  /\ session_after (login example_check (staff_cookie
          {| Staff.id := 2; Staff.name := "Bea"; Staff.email := "bea@clinic.org";
             Staff.password := "hash:secret"; Staff.hospital_name := "Clinic" |} "admin")
          (login_post "admin@hospital.com" "admin124" "admin") example_database)
    = staff_cookie
          {| Staff.id := 2; Staff.name := "Bea"; Staff.email := "bea@clinic.org";
             Staff.password := "hash:secret"; Staff.hospital_name := "Clinic" |} "admin"
  /\ login_page (login example_check cleared
          (login_post "rao" "pw7" "") example_database)
    = RedirectLogin.
Proof. repeat split; reflexivity. Qed.

Lemma all_or_nothing_staff_cookie (user : Staff.row) :
  all_or_nothing (keys (staff_cookie user "admin")).
Proof.
  right. exists (Staff.id user), "admin", (Staff.id user). split; reflexivity.
Qed.

Lemma all_or_nothing_doctor_cookie (user : Doctors.row * Staff.row) (user_type : string) :
  user_type <> "admin" ->
  all_or_nothing (keys (doctor_cookie user user_type)).
Proof.
  intro Hne. right.
  exists (Doctors.id (fst user)), user_type, (Doctors.hospital_id (fst user)).
  split; [reflexivity|]. intro H. contradiction.
Qed.

Lemma login_all_or_nothing (check_password_hash : string -> string -> bool)
    (st : cookie) (req : request) (db : database) :
  all_or_nothing (keys st) ->
  all_or_nothing (keys (session_after (login check_password_hash st req db))).
Proof.
  intro Hst. unfold login.
  destruct (String.eqb (method req) "POST"); [|exact Hst].
  destruct (negb _); [exact Hst|].
  destruct (String.eqb (field (form_of req) "user_type") "admin") eqn:Hut.
  - apply String.eqb_eq in Hut. rewrite Hut.
    destruct (query db false [] (db_staff db) _) as [[|user rest]|x]; try exact Hst.
    destruct (check_password_hash _ _); [|exact Hst].
    apply all_or_nothing_staff_cookie.
  - apply String.eqb_neq in Hut.
    destruct (doctor_account_cases check_password_hash st db RenderLogin
                (field (form_of req) "username") (field (form_of req) "password")
                (field (form_of req) "user_type"))
      as [[Hs _]|(d & s & pwhash & _ & _ & _ & _ & _ & _ & Hs & _)]; rewrite Hs.
    + exact Hst.
    + apply all_or_nothing_doctor_cookie. exact Hut.
Qed.

Lemma doctor_login_all_or_nothing (check_password_hash : string -> string -> bool)
    (st : cookie) (req : request) (db : database) :
  all_or_nothing (keys st) ->
  all_or_nothing (keys (session_after (doctor_login check_password_hash st req db))).
Proof.
  intro Hst. unfold doctor_login.
  destruct (String.eqb (method req) "POST"); [|exact Hst].
  destruct (negb _); [exact Hst|].
  destruct (doctor_account_cases check_password_hash st db RenderDoctorLogin
              (field (form_of req) "username") (field (form_of req) "password") "doctor")
    as [[Hs _]|(d & s & pwhash & _ & _ & _ & _ & _ & _ & Hs & _)]; rewrite Hs.
  - exact Hst.
  - apply all_or_nothing_doctor_cookie. discriminate.
Qed.

Lemma visits_all_or_nothing (check_password_hash : string -> string -> bool)
    (st : cookie) :
  visits check_password_hash st -> all_or_nothing (keys st).
Proof.
  induction 1 as [|st req db _ IH|st req db _ IH|st _ _].
  - left. reflexivity.
  - apply login_all_or_nothing. exact IH.
  - apply doctor_login_all_or_nothing. exact IH.
  - left. reflexivity.
Qed.

Lemma except_exception_answers (r : result response) :
  exists resp, except_exception (Some r) = Some (Ok resp).
Proof. destruct r as [resp|x]; cbn; eauto. Qed.

(** X20: the sessions that [login], [doctor_login] and [logout] leave behind,
    from a browser without a session on, hold either none of user_id,
    user_type and hospital_id or all three, and the hospital of a session of
    type 'admin' is its own user_id. On such a session no [session[...]] of
    [home] or [get_doctor_slots] raises KeyError: [home] returns a page, and
    [get_doctor_slots] on a connection returns a response. *)
Theorem visited_sessions_have_all_keys_or_none
    (check_password_hash : string -> string -> bool) (st : cookie)
    (fuel : nat) (doctor_id : Z) (date : string) (conn : connection) :
  visits check_password_hash st ->
  (1440 <= fuel)%nat ->
  all_or_nothing (keys st)
  /\ (exists p, home (keys st) = Ok p)
  /\ (exists resp,
        get_doctor_slots fuel (keys st) doctor_id date (Ok conn) = Some (Ok resp)).
Proof.
  intros Hv Hf. pose proof (visits_all_or_nothing _ _ Hv) as Hk.
  split; [exact Hk|].
  destruct Hk as [->|(uid & ut & h & -> & _)].
  - split; cbn; eauto.
  - split.
    + unfold home. cbn. destruct (String.eqb ut "admin"); eauto.
    + unfold get_doctor_slots. cbn [user_id user_type getitem].
      destruct (negb (String.eqb ut "admin")); [eauto|].
      destruct (strptime_Ymd_weekday date) as [day|x]; [|eauto].
      destruct (try_body_total fuel
                  {| user_id := Some uid; user_type := Some ut; hospital_id := Some h |}
                  doctor_id date conn day Hf) as [r ->].
      apply except_exception_answers.
Qed.

Lemma visited_sessions_have_all_keys_or_none_witness :
  all_or_nothing admin_session
  /\ (exists p, home admin_session = Ok p)
  /\ (exists resp,
        get_doctor_slots 1440 admin_session 7 "2024-01-01" (Ok example_connection)
        = Some (Ok resp)).
Proof.
  apply (visited_sessions_have_all_keys_or_none example_check
           (session_after (login example_check cleared
              (login_post "admin@hospital.com" "admin123" "admin") example_database))
           1440 7 "2024-01-01" example_connection).
  - apply visits_login. apply visits_first.
  - lia.
Defined.

(** X21: posting user_type 'doctor' to [login] leaves the same session as
    posting the same username and password to [doctor_login]; the two views
    differ in the page only when the login fails. *)
Theorem login_as_doctor_is_doctor_login
    (check_password_hash : string -> string -> bool)
    (st : cookie) (req : request) (db : database) :
  field (form_of req) "user_type" = "doctor" ->
  session_after (login check_password_hash st req db)
  = session_after (doctor_login check_password_hash st req db)
  /\ (login_page (login check_password_hash st req db) = RedirectDoctorDashboard
      <-> login_page (doctor_login check_password_hash st req db)
          = RedirectDoctorDashboard).
Proof.
  intro Hut. unfold login, doctor_login. rewrite Hut.
  destruct (String.eqb (method req) "POST");
    [|split; [reflexivity|split; discriminate]].
  replace (truthy (Some "doctor")) with true by reflexivity.
  rewrite andb_true_r.
  destruct (negb _); [split; [reflexivity|split; discriminate]|].
  replace (String.eqb "doctor" "admin") with false by reflexivity.
  unfold doctor_account.
  destruct (query db false [] (doctors_join_staff db) _) as [[|user rest]|x];
    try (split; [reflexivity|split; discriminate]).
  destruct (Doctors.password (fst user)) as [pwhash|];
    [|split; [reflexivity|split; discriminate]].
  destruct (check_password_hash pwhash _);
    split; try reflexivity; split; try discriminate; reflexivity.
Qed.

Lemma login_as_doctor_is_doctor_login_witness :
  session_after (login example_check cleared
                   (login_post "rao" "pw7" "doctor") example_database)
  = session_after (doctor_login example_check cleared
                     (login_post "rao" "pw7" "doctor") example_database)
  /\ (login_page (login example_check cleared
                    (login_post "rao" "pw7" "doctor") example_database)
      = RedirectDoctorDashboard
      <-> login_page (doctor_login example_check cleared
                        (login_post "rao" "pw7" "doctor") example_database)
          = RedirectDoctorDashboard).
Proof.
  apply (login_as_doctor_is_doctor_login example_check cleared
           (login_post "rao" "pw7" "doctor") example_database).
  reflexivity.
Defined.
